(** * pnpm-injected-sync: shared-watcher coordination, verified over a
      shallow embedding of [src/index.js].

    The development follows the source file top to bottom:
    - the two coordination files (lock file, client-list file) and the
      file-system calls the program makes on them, as a state-and-exception
      monad that also records every call made;
    - the Lock Store ([acquireLock]) and promotion ([tryPromoteToWatcher]);
    - the Client Registry ([registerClient], [unregisterClient],
      [cleanupStaleClients]);
    - the debounced watcher callback of [setupWatcher];
    - the watcher runtime ([startWatcherMode] and its reaper tick);
    - the process supervisor ([runCommand] and its event handlers).

    Every [async] function of the source performs its file-system calls one
    after the other; a function is embedded as one atomic step, which is the
    behaviour of the program whenever no other process touches the two files
    between two of its calls. *)

From Stdlib Require Import ZArith List Bool String Ascii Lia Arith.
Import ListNotations.
Local Open Scope list_scope.

(** ** Process identifiers and the two coordination files *)

Definition pid := Z.

(** The program only ever names two paths: [lockFile] and
    [`${lockFile}.clients`]. *)
Inductive file := LockFile | ClientFile.

(** What [JSON.parse] makes of the lock file's text.
    - [LockRecord p t]: an object with a numeric [pid] field, [{pid, timestamp}];
    - [LockNoPid]: text that parses to a value from which [const {pid} = ...]
      reads [undefined] (for instance [{}]);
    - [LockUnparsable]: text on which [JSON.parse] (or the destructuring)
      throws, for instance an empty or truncated file. *)
Inductive lock_content :=
| LockRecord (owner : pid) (timestamp : Z)
| LockNoPid
| LockUnparsable.

(** What [JSON.parse] makes of the client file's text: an array of process
    identifiers, or text on which it throws (for instance a file cut short by
    a crash in the middle of a write). The program itself only ever writes
    arrays; text that parses to something else than an array can only come
    from another writer and is not part of this model. *)
Inductive client_content :=
| ClientList (clients : list pid)
| ClientUnparsable.

(** Error codes of a file creation that fails for lack of room or on the
    device: full disk, exhausted quota, I/O error. *)
Inductive io_errno := ENOSPC | EDQUOT | EIO.

(** How an exclusive creation fails. [writeFile(path, data, { flag: 'wx' })]
    first opens the file, which creates it, and then writes the data.
    - [FailsAtOpen c]: the open fails, no file is created;
    - [FailsAtWrite c]: the open succeeds and the write fails, which leaves an
      empty file behind. *)
Inductive io_fault :=
| FailsAtOpen (c : io_errno)
| FailsAtWrite (c : io_errno).

Definition faultCode (f : io_fault) : io_errno :=
  match f with FailsAtOpen c | FailsAtWrite c => c end.

(** The [err.code] values the program tests, and the rest. *)
Inductive errcode := EEXIST | ENOENT | EOTHER (c : io_errno).

(** Thrown values: a Node system error with a [code], a [SyntaxError] or
    [TypeError] from parsing (no [code]), and the program's own
    [new Error('No injected dependencies found')] and the failures of the
    external collaborators (no [code] the program looks at). *)
Inductive exn :=
| SysError (code : errcode)
| ParseError
| NoInjectedDeps
| ManifestError
| WatchError.

(** One entry per call the program makes to the world outside it: the
    file-system calls on the two coordination files, the synchronize action
    ([syncInjectedDeps]), [fs.watch], [spawn] and [child.kill]. *)
Inductive fs_op :=
| OpRead (f : file)
| OpWrite (f : file)
| OpWriteExcl (f : file)
| OpUnlink (f : file)
| OpSync (pkgDir : string)
| OpWatch (pkgDir : string)
| OpSpawn
| OpKill (signal : string).

(** The shared store: the content of each of the two files when it exists, and
    the calls made so far (most recent last). *)
Record fsState := mkFs {
  lockSlot : option lock_content;
  clientSlot : option client_content;
  trace : list fs_op
}.

(** What a process can observe of its environment during one call:
    [procs p] is whether [process.kill(p, 0)] returns without throwing,
    [now] is [Date.now()], [wxFault] is the failure, if any, that the
    exclusive creation of the lock file meets during this call, and
    [syncDisabledVar] is [process.env.PNPM_INJECTED_SYNC_DISABLED].

    The failures covered are those of the creation itself. A workspace
    directory that is read-only or not writable at all, where removals and
    every other write fail as well, is not covered: reads fail with [ENOENT]
    only, and a removal or a write of the client file that finds its file
    goes through. *)
Record env := mkEnv {
  procs : pid -> bool;
  now : Z;
  wxFault : option io_fault;
  syncDisabledVar : option string
}.

(** ** The monad of file-system code: state plus exceptions *)

Inductive outcome (A : Type) :=
| Ok (a : A)
| Throw (e : exn).
Arguments Ok {A} a.
Arguments Throw {A} e.

Definition M (A : Type) := fsState -> outcome A * fsState.

Definition ret {A} (a : A) : M A := fun s => (Ok a, s).
Definition throw {A} (e : exn) : M A := fun s => (Throw e, s).
Definition bind {A B} (c : M A) (k : A -> M B) : M B :=
  fun s => match c s with
           | (Ok a, s') => k a s'
           | (Throw e, s') => (Throw e, s')
           end.
(** [try { c } catch (err) { h err }] *)
Definition try_catch {A} (c : M A) (h : exn -> M A) : M A :=
  fun s => match c s with
           | (Ok a, s') => (Ok a, s')
           | (Throw e, s') => h e s'
           end.

Notation "x <- c ;; k" := (bind c (fun x => k))
  (at level 61, c at next level, right associativity).
Notation "c ;;; k" := (bind c (fun _ => k))
  (at level 61, right associativity).

Definition logOp (o : fs_op) : M unit :=
  fun s => (Ok tt, mkFs (lockSlot s) (clientSlot s) (trace s ++ [o])).

(** *** The file-system calls of the source *)

(** [fs.promises.readFile(lockFile, 'utf-8')] followed by [JSON.parse]:
    the read throws [ENOENT] on a missing file. *)
Definition readLockFile : M lock_content :=
  logOp (OpRead LockFile) ;;;
  fun s => match lockSlot s with
           | Some c => (Ok c, s)
           | None => (Throw (SysError ENOENT), s)
           end.

Definition readClientFile : M client_content :=
  logOp (OpRead ClientFile) ;;;
  fun s => match clientSlot s with
           | Some c => (Ok c, s)
           | None => (Throw (SysError ENOENT), s)
           end.

(** [fs.promises.writeFile(lockFile, ..., { flag: 'wx' })]: exclusive creation.
    An existing file gives [EEXIST]. Otherwise a failure of the open leaves no
    file, a failure of the write leaves the file just created, empty (which
    [JSON.parse] rejects), and both are thrown; otherwise the file is created
    with the given content. *)
Definition writeLockFileExcl (e : env) (c : lock_content) : M unit :=
  logOp (OpWriteExcl LockFile) ;;;
  fun s => match lockSlot s with
           | Some _ => (Throw (SysError EEXIST), s)
           | None =>
               match wxFault e with
               | Some (FailsAtOpen k) => (Throw (SysError (EOTHER k)), s)
               | Some (FailsAtWrite k) =>
                   (Throw (SysError (EOTHER k)),
                    mkFs (Some LockUnparsable) (clientSlot s) (trace s))
               | None => (Ok tt, mkFs (Some c) (clientSlot s) (trace s))
               end
           end.

(** [fs.promises.writeFile(clientFile, JSON.stringify(clients))]: creates or
    replaces the whole content. The write itself is taken to go through; the
    registry functions do not catch its failure. *)
Definition writeClientFile (l : list pid) : M unit :=
  logOp (OpWrite ClientFile) ;;;
  fun s => (Ok tt, mkFs (lockSlot s) (Some (ClientList l)) (trace s)).

(** [fs.promises.unlink(path)]: throws [ENOENT] on a missing file. *)
Definition unlinkLockFile : M unit :=
  logOp (OpUnlink LockFile) ;;;
  fun s => match lockSlot s with
           | Some _ => (Ok tt, mkFs None (clientSlot s) (trace s))
           | None => (Throw (SysError ENOENT), s)
           end.

Definition unlinkClientFile : M unit :=
  logOp (OpUnlink ClientFile) ;;;
  fun s => match clientSlot s with
           | Some _ => (Ok tt, mkFs (lockSlot s) None (trace s))
           | None => (Throw (SysError ENOENT), s)
           end.

(** ** Lock Store *)

Definition errcode_is_EEXIST (e : exn) : bool :=
  match e with SysError EEXIST => true | _ => false end.
Definition errcode_is_ENOENT (e : exn) : bool :=
  match e with SysError ENOENT => true | _ => false end.

(** [acquireLock(lockFile, pid)] *)
Definition acquireLock (e : env) (p : pid) : M bool :=
  try_catch
    (writeLockFileExcl e (LockRecord p (now e)) ;;; ret true)
    (fun err => if errcode_is_EEXIST err then ret false else throw err).

(** Releasing the lock is [fs.promises.unlink(lockFile)] inside a
    [try { } catch { }], as every teardown path of the source does. *)
Definition releaseLock : M unit :=
  try_catch unlinkLockFile (fun _ => ret tt).


Definition emptyStore : fsState := mkFs None None [].




(** The lock file a failed creation leaves. *)
Definition leftByFault (f : io_fault) : option lock_content :=
  match f with
  | FailsAtOpen _ => None
  | FailsAtWrite _ => Some LockUnparsable
  end.




(** ** Liveness probe and promotion *)

(** [isProcessRunning(pid)]: [process.kill(pid, 0)] inside [try]/[catch];
    an [undefined] pid makes [process.kill] throw, hence [false]. *)
Definition isProcessRunning (e : env) (p : option pid) : bool :=
  match p with
  | Some q => procs e q
  | None => false
  end.

(** [const { pid: watcherPid } = JSON.parse(lockData)] *)
Definition parseLockOwner (c : lock_content) : M (option pid) :=
  match c with
  | LockRecord q _ => ret (Some q)
  | LockNoPid => ret None
  | LockUnparsable => throw ParseError
  end.

(** [tryPromoteToWatcher(lockFile, pid)] *)
Definition tryPromoteToWatcher (e : env) (p : pid) : M bool :=
  try_catch
    (lockData <- readLockFile ;;
     watcherPid <- parseLockOwner lockData ;;
     if isProcessRunning e watcherPid then ret false
     else unlinkLockFile ;;; acquireLock e p)
    (fun err =>
       if errcode_is_ENOENT err then acquireLock e p else ret false).

(** ** Client Registry *)

(** [clients.includes(pid)] *)
Definition includes (l : list pid) (p : pid) : bool := existsb (Z.eqb p) l.

(** [JSON.parse(await fs.promises.readFile(clientFile, 'utf-8'))] *)
Definition loadClients : M (list pid) :=
  c <- readClientFile ;;
  match c with
  | ClientList l => ret l
  | ClientUnparsable => throw ParseError
  end.

(** [registerClient(lockFile, pid)] *)
Definition registerClient (p : pid) : M unit :=
  clients <- try_catch loadClients (fun _ => ret []) ;;
  if negb (includes clients p)
  then writeClientFile (clients ++ [p])
  else ret tt.

(** [clients.filter(p => p !== pid)] *)
Definition without (p : pid) (l : list pid) : list pid :=
  filter (fun q => negb (Z.eqb q p)) l.

(** [unregisterClient(lockFile, pid)] *)
Definition unregisterClient (p : pid) : M (list pid) :=
  loaded <- try_catch (l <- loadClients ;; ret (Some l)) (fun _ => ret None) ;;
  match loaded with
  | None => ret []
  | Some clients =>
      let clients' := without p clients in
      (if (0 <? List.length clients')%nat
       then writeClientFile clients'
       else try_catch unlinkClientFile (fun _ => ret tt)) ;;;
      ret clients'
  end.

(** [cleanupStaleClients(lockFile)] *)
Definition cleanupStaleClients (e : env) : M (list pid) :=
  loaded <- try_catch (l <- loadClients ;; ret (Some l)) (fun _ => ret None) ;;
  match loaded with
  | None => ret []
  | Some clients =>
      let aliveClients := filter (fun q => isProcessRunning e (Some q)) clients in
      (if negb (List.length aliveClients =? List.length clients)%nat
       then
         if (0 <? List.length aliveClients)%nat
         then writeClientFile aliveClients
         else try_catch unlinkClientFile (fun _ => ret tt)
       else ret tt) ;;;
      ret aliveClients
  end.

(** The registry as a set of members: a missing or unparsable file holds no
    member. *)
Definition members (s : fsState) : list pid :=
  match clientSlot s with
  | Some (ClientList l) => l
  | _ => []
  end.

(** ** Debounced change watcher ([setupWatcher]) *)

(** A scheduled [setTimeout] callback: when it is due, and the variables its
    closure captured. *)
Record pending := mkPending {
  due : nat;
  pDir : string;
  pFile : string;
  pEvent : string
}.

(** The leader's in-memory watch state.
    - [watchers]: the directories with an open [fs.watch] handle
      (the keys of [state.watchers]);
    - [debounceTimers]: the live timers of [state.debounceTimers] under their
      [timerId], oldest first; all timers have the same delay, so this is
      also the order in which Node runs them;
    - [checkInterval]: whether the reaper interval is armed. *)
Record watchState := mkWatch {
  watchers : list string;
  debounceTimers : list (string * pending);
  checkInterval : bool
}.

Definition quietPeriod : nat := 100.

(** [`${pkgDir}:${filename}`] *)
Definition timerId (pkgDir filename : string) : string :=
  (pkgDir ++ ":" ++ filename)%string.

(** [clearTimeout(state.debounceTimers.get(timerId))]: the timer under this
    id, if any, will never run. *)
Definition clearTimer (id : string) (timers : list (string * pending))
  : list (string * pending) :=
  filter (fun kv => negb (String.eqb (fst kv) id)) timers.

(** A change event delivered by the watcher of [pkgDir]. [filename] is [None]
    for a [null] file name. *)
Record fsEvent := mkEvent {
  evAt : nat;
  evDir : string;
  evType : string;
  evFile : option string
}.

(** The callback passed to [fs.watch], run at time [evAt ev]. *)
Definition onChange (ev : fsEvent) (timers : list (string * pending))
  : list (string * pending) :=
  match evFile ev with
  | None => timers
  | Some filename =>
      if String.eqb filename EmptyString then timers
      else
        let id := timerId (evDir ev) filename in
        clearTimer id timers
          ++ [(id, mkPending (evAt ev + quietPeriod) (evDir ev) filename (evType ev))]
  end.

Definition isDue (t : nat) (kv : string * pending) : bool := (due (snd kv) <=? t)%nat.

(** The timers that have elapsed by time [t] run (each deletes its own entry
    and calls [syncDeps(pkgDir, workspaceDir)]); the others stay. A timer due
    at exactly the time of an event runs before the event's callback. *)
Definition fireDue (t : nat) (timers : list (string * pending))
  : list pending * list (string * pending) :=
  (map snd (filter (isDue t) timers), filter (fun kv => negb (isDue t kv)) timers).

(** Runs the watcher callbacks on a list of events given in the order they
    are delivered, then lets every remaining timer elapse. Returns the timer
    callbacks that ran, in order; each one is one [syncDeps] call. *)
Fixpoint runEvents (evs : list fsEvent) (timers : list (string * pending))
  : list pending :=
  match evs with
  | [] => map snd timers
  | ev :: evs' =>
      let '(fired, rest) := fireDue (evAt ev) timers in
      fired ++ runEvents evs' (onChange ev rest)
  end.

(** The [syncDeps] calls of a run: when, and for which directory. *)
Definition syncCalls (fired : list pending) : list (nat * string) :=
  map (fun p => (due p, pDir p)) fired.

(** The callbacks that ran for one (directory, entry) pair. *)
Definition forEntry (pkgDir filename : string) (p : pending) : bool :=
  String.eqb (pDir p) pkgDir && String.eqb (pFile p) filename.

Definition eventFor (pkgDir filename : string) (ev : fsEvent) : bool :=
  String.eqb (evDir ev) pkgDir &&
  match evFile ev with Some f => String.eqb f filename | None => false end.

(** Events are delivered in time order. *)
Fixpoint timeOrdered (t0 : nat) (evs : list fsEvent) : Prop :=
  match evs with
  | [] => True
  | ev :: evs' => (t0 <= evAt ev)%nat /\ timeOrdered (evAt ev) evs'
  end.

(** A burst: every event follows the previous one by less than the quiet
    period. [lastAt] is the time of its last event. *)
Fixpoint burstFrom (t0 : nat) (ts : list nat) : Prop :=
  match ts with
  | [] => True
  | t :: ts' => (t0 <= t < t0 + quietPeriod)%nat /\ burstFrom t ts'
  end.

(** Events spaced beyond the quiet period. *)
Fixpoint spacedFrom (t0 : nat) (ts : list nat) : Prop :=
  match ts with
  | [] => True
  | t :: ts' => (t0 + quietPeriod < t)%nat /\ spacedFrom t ts'
  end.

Definition eventsAt (pkgDir filename evt : string) (ts : list nat) : list fsEvent :=
  map (fun t => mkEvent t pkgDir evt (Some filename)) ts.

(** ** Configuration flag *)

Definition lowerAscii (c : ascii) : ascii :=
  let n := nat_of_ascii c in
  if ((65 <=? n) && (n <=? 90))%nat then ascii_of_nat (n + 32) else c.

(** [value.toLowerCase()], on the ASCII letters. *)
Fixpoint toLowerCase (s : string) : string :=
  match s with
  | EmptyString => EmptyString
  | String c s' => String (lowerAscii c) (toLowerCase s')
  end.

(** [isSyncDisabled()] *)
Definition isSyncDisabled (e : env) : bool :=
  match syncDisabledVar e with
  | None => false
  | Some value =>
      if String.eqb value EmptyString then false
      else
        let normalized := toLowerCase value in
        String.eqb normalized "true" || String.eqb normalized "1"
        || String.eqb normalized "yes" || String.eqb normalized "on"
  end.

(** ** Watcher runtime ([startWatcherMode]) *)

(** The external collaborators, as far as the runtime depends on them:
    [injectedDeps] is what [getInjectedDepsDirs(workspaceDir)] resolves to
    ([None] when [readModulesManifest] rejects), and [watchable d] is whether
    [fs.watch(d, { recursive: true }, ...)] returns a watcher rather than
    throwing (a missing directory, or a platform without recursive watching). *)
Record collab := mkCollab {
  injectedDeps : option (list string);
  watchable : string -> bool
}.

Definition getInjectedDepsDirs (c : collab) : M (list string) :=
  match injectedDeps c with
  | Some dirs => ret dirs
  | None => throw ManifestError
  end.

(** [syncDeps(pkgDir, workspaceDir)]: returns at once when syncing is
    disabled; a failure of the synchronize action is caught and logged. *)
Definition syncDeps (e : env) (pkgDir : string) : M unit :=
  if isSyncDisabled e then ret tt else logOp (OpSync pkgDir).

(** [setupWatcher(pkgDir, workspaceDir, state)] *)
Definition setupWatcher (c : collab) (pkgDir : string) (st : watchState)
  : M watchState :=
  if existsb (String.eqb pkgDir) (watchers st) then ret st
  else
    logOp (OpWatch pkgDir) ;;;
    if watchable c pkgDir
    then ret (mkWatch (watchers st ++ [pkgDir]) (debounceTimers st) (checkInterval st))
    else throw WatchError.

Fixpoint syncAll (e : env) (dirs : list string) : M unit :=
  match dirs with
  | [] => ret tt
  | d :: ds => syncDeps e d ;;; syncAll e ds
  end.

Fixpoint setupAll (c : collab) (dirs : list string) (st : watchState)
  : M watchState :=
  match dirs with
  | [] => ret st
  | d :: ds => st' <- setupWatcher c d st ;; setupAll c ds st'
  end.

(** [startWatcherMode(workspaceDir, lockFile, pid, getChildExited)] *)
Definition startWatcherMode (e : env) (c : collab) (p : pid) : M watchState :=
  injectedDepsDirs <- getInjectedDepsDirs c ;;
  if (List.length injectedDepsDirs =? 0)%nat
  then unlinkLockFile ;;; throw NoInjectedDeps
  else
    registerClient p ;;;
    syncAll e injectedDepsDirs ;;;
    st <- setupAll c injectedDepsDirs (mkWatch [] [] false) ;;
    ret (mkWatch (watchers st) (debounceTimers st) true).

(** The teardown every exit path performs on the in-memory state:
    [clearInterval(state.checkInterval)], [clearTimeout] on every debounce
    timer, [close()] on every watcher. *)
Definition stopWatch (st : watchState) : watchState := mkWatch [] [] false.

(** [try { await unlink(lockFile); await unlink(clientFile) } catch { }] *)
Definition removeCoordinationFiles : M unit :=
  try_catch (unlinkLockFile ;;; unlinkClientFile) (fun _ => ret tt).

(** ** Process supervisor ([runCommand]) *)

Inductive signal := SIGINT | SIGTERM | SIGHUP.

Definition signalName (sg : signal) : string :=
  match sg with
  | SIGINT => "SIGINT"
  | SIGTERM => "SIGTERM"
  | SIGHUP => "SIGHUP"
  end.

(** The variables of [runCommand] that its callbacks share, and [exited]:
    the code given to [process.exit], once it has been called. [forcedExit]
    is the armed 5000 ms timeout together with the signal its closure holds. *)
Record proc := mkProc {
  isWatcher : bool;
  state : option watchState;
  promotionCheckInterval : bool;
  childExited : bool;
  isExiting : bool;
  childExitCode : option Z;
  forcedExit : option signal;
  keepAlive : bool;
  exited : option Z
}.

Definition initProc : proc :=
  mkProc false None false false false None None false None.

Definition exitWith (code : Z) (pr : proc) : proc :=
  mkProc (isWatcher pr) (state pr) (promotionCheckInterval pr) (childExited pr)
         (isExiting pr) (childExitCode pr) (forcedExit pr) (keepAlive pr) (Some code).

(** The reaper: the callback of [state.checkInterval], every 5000 ms. *)
Definition reaperTick (e : env) (pr : proc) : M proc :=
  match exited pr, state pr with
  | None, Some st =>
      if checkInterval st then
        aliveClients <- cleanupStaleClients e ;;
        if negb (childExited pr) then ret pr
        else if (List.length aliveClients =? 0)%nat
        then
          removeCoordinationFiles ;;;
          ret (mkProc (isWatcher pr) (Some (stopWatch st)) (promotionCheckInterval pr)
                      (childExited pr) (isExiting pr) (childExitCode pr)
                      (forcedExit pr) (keepAlive pr) (Some 0%Z))
        else ret pr
      else ret pr
  | _, _ => ret pr
  end.

(** The leader-election block of [runCommand], between the declaration of
    [promotionCheckInterval] and the spawn. *)
Definition electLeader (e : env) (c : collab) (p : pid) (pr : proc) : M proc :=
  if negb (isSyncDisabled e) then
    acquired <- acquireLock e p ;;
    started <- (if acquired
                then try_catch (st <- startWatcherMode e c p ;; ret (Some st))
                               (fun _ => ret None)
                else ret None) ;;
    match started with
    | Some st =>
        ret (mkProc true (Some st) (promotionCheckInterval pr) (childExited pr)
                    (isExiting pr) (childExitCode pr) (forcedExit pr)
                    (keepAlive pr) (exited pr))
    | None =>
        registerClient p ;;;
        ret (mkProc false (state pr) true (childExited pr)
                    (isExiting pr) (childExitCode pr) (forcedExit pr)
                    (keepAlive pr) (exited pr))
    end
  else ret pr.

(** [runCommand(args)] up to the registration of its callbacks.
    [workspaceFound] is whether [findWorkspaceRoot] returned a directory. *)
Definition runCommand (e : env) (c : collab) (workspaceFound : bool) (p : pid)
  : M proc :=
  if negb workspaceFound then ret (exitWith 1 initProc)
  else
    pr <- electLeader e c p initProc ;;
    logOp OpSpawn ;;;
    ret (mkProc (isWatcher pr) (state pr) (promotionCheckInterval pr) (childExited pr)
                (isExiting pr) (childExitCode pr) (forcedExit pr) true (exited pr)).

(** [code || 0] *)
Definition orZero (code : option Z) : Z :=
  match code with
  | Some c => if (c =? 0)%Z then 0%Z else c
  | None => 0%Z
  end.

(** [signal === 'SIGINT' ? 130 : signal === 'SIGTERM' ? 143 : 129] *)
Definition signalExitCode (sg : signal) : Z :=
  match sg with
  | SIGINT => 130%Z
  | SIGTERM => 143%Z
  | SIGHUP => 129%Z
  end.

(** The [if (isWatcher && state) { ... }] teardown block. *)
Definition leaderState (pr : proc) : option watchState :=
  if isWatcher pr then state pr else None.

(** [child.on('exit', async (code, signal) => ...)], together with the second
    listener that clears [keepAlive]. *)
Definition onChildExit (p : pid) (code : option Z) (pr : proc) : M proc :=
  if isExiting pr then
    ret (mkProc (isWatcher pr) (state pr) (promotionCheckInterval pr) true
                true code (forcedExit pr) (keepAlive pr) (Some (orZero code)))
  else
    remainingClients <- unregisterClient p ;;
    st' <- match leaderState pr with
           | Some st => removeCoordinationFiles ;;; ret (Some (stopWatch st))
           | None => ret (state pr)
           end ;;
    ret (mkProc (isWatcher pr) st' false true true code (forcedExit pr) false
                (Some (orZero code))).

(** [process.on(signal, async () => ...)] *)
Definition onSignal (p : pid) (sg : signal) (pr : proc) : M proc :=
  if isExiting pr then ret pr
  else
    logOp (OpKill (signalName sg)) ;;;
    st' <- match leaderState pr with
           | Some st => removeCoordinationFiles ;;; ret (Some (stopWatch st))
           | None => unregisterClient p ;;; ret (state pr)
           end ;;
    ret (mkProc (isWatcher pr) st' false (childExited pr) true (childExitCode pr)
                (Some sg) (keepAlive pr) (exited pr)).

(** The callback of the 5000 ms [setTimeout] armed by the signal handler:
    [process.exit(childExitCode ?? signalExitCode)]. *)
Definition onForcedExit (pr : proc) : proc :=
  match forcedExit pr with
  | Some sg =>
      exitWith (match childExitCode pr with
                | Some c => c
                | None => signalExitCode sg
                end) pr
  | None => pr
  end.

(** The callback of [promotionCheckInterval], every 2000 ms. *)
Definition promotionTick (e : env) (c : collab) (p : pid) (pr : proc) : M proc :=
  if promotionCheckInterval pr then
    canPromote <- tryPromoteToWatcher e p ;;
    if canPromote then
      started <- try_catch (st <- startWatcherMode e c p ;; ret (Some st))
                           (fun _ => ret None) ;;
      ret (mkProc true
                  (match started with Some st => Some st | None => state pr end)
                  false (childExited pr) (isExiting pr) (childExitCode pr)
                  (forcedExit pr) (keepAlive pr) (exited pr))
    else ret pr
  else ret pr.

(** What can happen to a supervising process after [runCommand] returned. *)
Inductive event :=
| ChildError
| ChildExit (code : option Z) (sg : option signal)
| Signal (sg : signal)
| ForcedExitTimeout
| PromotionTick (c : collab)
| ReaperTick.

(** One callback run. Nothing runs after [process.exit]. *)
Definition step (e : env) (p : pid) (ev : event) (pr : proc) : M proc :=
  match exited pr with
  | Some _ => ret pr
  | None =>
      match ev with
      | ChildError => ret (exitWith 1 pr)
      | ChildExit code _ => onChildExit p code pr
      | Signal sg => onSignal p sg pr
      | ForcedExitTimeout => ret (onForcedExit pr)
      | PromotionTick c => promotionTick e c p pr
      | ReaperTick => reaperTick e pr
      end
  end.

(** [main().catch(error => process.exit(1))]: a rejection of [runCommand]
    ends the process with code 1. *)
Definition settle (r : outcome proc * fsState) : proc * fsState :=
  match r with
  | (Ok pr, s) => (pr, s)
  | (Throw _, s) => (exitWith 1 initProc, s)
  end.

(** A whole run: start-up, then the callbacks of the given events in order.
    A callback that rejects is an unhandled rejection, whose effect depends on
    the Node version; the run keeps the process state and goes on. *)
Fixpoint runSteps (e : env) (p : pid) (evs : list event) (pr : proc) (s : fsState)
  : proc * fsState :=
  match evs with
  | [] => (pr, s)
  | ev :: evs' =>
      match step e p ev pr s with
      | (Ok pr', s') => runSteps e p evs' pr' s'
      | (Throw _, s') => runSteps e p evs' pr s'
      end
  end.

Definition runProcess (e : env) (c : collab) (workspaceFound : bool) (p : pid)
           (evs : list event) (s : fsState) : proc * fsState :=
  let '(pr, s1) := settle (runCommand e c workspaceFound p s) in
  runSteps e p evs pr s1.

(** ** Scenarios *)

(** [n] consecutive promotion checks of one client: the result of each
    [tryPromoteToWatcher] call ([None] when it threw) and the final store. *)
Fixpoint promoteRepeatedly (n : nat) (e : env) (p : pid) (s : fsState)
  : list (option bool) * fsState :=
  match n with
  | O => ([], s)
  | S n' =>
      let '(r, s1) := tryPromoteToWatcher e p s in
      let '(rs, s2) := promoteRepeatedly n' e p s1 in
      (match r with Ok b => Some b | Throw _ => None end :: rs, s2)
  end.

(** [registerClient] followed by [unregisterClient] for the same identifier. *)
Definition registerThenUnregister (p : pid) : M (list pid) :=
  registerClient p ;;; unregisterClient p.

Definition wroteOrDeleted (o : fs_op) : bool :=
  match o with
  | OpWrite _ | OpWriteExcl _ | OpUnlink _ => true
  | _ => false
  end.

Definition allAlive : env := mkEnv (fun _ => true) 0%Z None None.
Definition noneAlive : env := mkEnv (fun _ => false) 0%Z None None.

(** The members for which the liveness probe holds. *)
Definition aliveOf (e : env) (l : list pid) : list pid :=
  filter (fun q => isProcessRunning e (Some q)) l.

(** A leader that started its watcher runtime on one directory, with its
    reaper armed; [childDone] is its [childExited] flag. *)
Definition leaderProc (childDone : bool) : proc :=
  mkProc true (Some (mkWatch ["/w/pkg"%string] [] true)) false childDone false
         None None true None.

(** The flag set to a truthy spelling; nothing else special. *)
Definition disabledEnv : env := mkEnv (fun _ => true) 0%Z None (Some "TRUE"%string).

(** One tracked directory that cannot be watched. *)
Definition unwatchable : collab := mkCollab (Some ["/w/pkg"%string]) (fun _ => false).

(** Nothing to watch. *)
Definition nothingToWatch : collab := mkCollab (Some []) (fun _ => true).

(** One tracked directory, watchable. *)
Definition onePackage : collab := mkCollab (Some ["/w/pkg"%string]) (fun _ => true).

(** The timer id a scheduled callback was stored under. *)
Definition pendingId (p : pending) : string := timerId (pDir p) (pFile p).

Definition hasId (k : string) (p : pending) : bool := String.eqb (pendingId p) k.

(** Whether the event's callback schedules a timer under id [k]. *)
Definition schedulesId (k : string) (ev : fsEvent) : bool :=
  match evFile ev with
  | None => false
  | Some f => negb (String.eqb f EmptyString) && String.eqb (timerId (evDir ev) f) k
  end.

(** Every stored timer sits under the id computed from its own closure, and
    no id is stored twice: what [Map.set] and [Map.delete] maintain. *)
Definition timersWf (timers : list (string * pending)) : Prop :=
  Forall (fun kv => fst kv = pendingId (snd kv)) timers
  /\ NoDup (map fst timers).

(** Two watched directories whose timer ids can coincide, and a change in
    each, 50 ms apart. *)
Definition collidingEvents : list fsEvent :=
  [ mkEvent 0 "/w/a:b" "change" (Some "c"%string);
    mkEvent 50 "/w/a" "change" (Some "b:c"%string) ]%string.

Definition keyIs (k : string) (kv : string * pending) : bool := String.eqb (fst kv) k.

(** Three changes to one entry of [/w/a], less than a quiet period apart,
    with a change in another directory in between. *)
Definition interleavedEvents : list fsEvent :=
  [ mkEvent 0 "/w/a" "change" (Some "x.js"%string);
    mkEvent 10 "/w/b" "change" (Some "y.js"%string);
    mkEvent 60 "/w/a" "change" (Some "x.js"%string);
    mkEvent 130 "/w/a" "change" (Some "x.js"%string) ]%string.

(** The timer scheduled by a change event at time [t] for an entry. *)
Definition timerOf (pkgDir filename evt : string) (t : nat) : pending :=
  mkPending (t + quietPeriod) pkgDir filename evt.

(** Consecutive reaper ticks, each with the environment of its moment. *)
Fixpoint reaperTicks (es : list env) (pr : proc) (s : fsState) : proc * fsState :=
  match es with
  | [] => (pr, s)
  | e :: es' =>
      match reaperTick e pr s with
      | (Ok pr', s') => reaperTicks es' pr' s'
      | (Throw _, s') => reaperTicks es' pr s'
      end
  end.

(** ** Workspace discovery ([findWorkspaceRoot]) *)

(** An absolute, normalized directory path as its list of segments below the
    file-system root; the root itself is [[]]. [path.dirname] drops the last
    segment and maps the root to itself. *)
Definition dirpath := list string.

Definition dirname (d : dirpath) : dirpath := removelast d.

(** What [fs.existsSync] answers for the two entries the search looks at. *)
Record dirView := mkDirView {
  hasWorkspaceYaml : dirpath -> bool;
  hasNodeModules : dirpath -> bool
}.

Definition isWorkspaceRoot (v : dirView) (d : dirpath) : bool :=
  hasWorkspaceYaml v d && hasNodeModules v d.

(** The loop of [findWorkspaceRoot], entered with [currentDir] equal to the
    first [n] segments of [startDir]: it stops, without looking, when
    [currentDir] is its own [dirname]. *)
Fixpoint findWorkspaceRootFrom (v : dirView) (n : nat) (startDir : dirpath)
  : option dirpath :=
  match n with
  | O => None
  | S n' =>
      if isWorkspaceRoot v (firstn n startDir) then Some (firstn n startDir)
      else findWorkspaceRootFrom v n' startDir
  end.

(** [findWorkspaceRoot(startDir)] *)
Definition findWorkspaceRoot (v : dirView) (startDir : dirpath) : option dirpath :=
  findWorkspaceRootFrom v (List.length startDir) startDir.

(** A file system in which [/home/dev/ws] and [/home] both look like a
    workspace root. *)
Definition nestedWorkspaces : dirView :=
  mkDirView
    (fun d => match d with
              | ["home"; "dev"; "ws"]%string => true
              | ["home"]%string => true
              | _ => false
              end)
    (fun _ => true).

(** ** Promotion, one file-system call at a time

    [tryPromoteToWatcher] awaits three calls in turn: the read, the unlink
    and the exclusive creation. Between two of them another process can run.
    The three parts are given separately here; [tryPromoteStepwise] puts them
    back together. *)

(** Where the function stands after the read, the parse and the liveness
    probe. *)
Inductive promoteNext :=
| PromoteRefused            (* [return false] *)
| PromoteUnlink             (* owner not alive: go on to the unlink *)
| PromoteAcquireInCatch.    (* [ENOENT] caught: go on to [acquireLock] *)

Definition promoteObserve (e : env) : M promoteNext :=
  try_catch
    (lockData <- readLockFile ;;
     watcherPid <- parseLockOwner lockData ;;
     if isProcessRunning e watcherPid then ret PromoteRefused
     else ret PromoteUnlink)
    (fun err =>
       if errcode_is_ENOENT err then ret PromoteAcquireInCatch
       else ret PromoteRefused).

(** The unlink inside the [try]: [true] when it succeeded and the function
    goes on inside the [try], [false] when [ENOENT] sent it to the [catch]. *)
Definition promoteUnlinkStep : M (option bool) :=
  try_catch
    (unlinkLockFile ;;; ret (Some true))
    (fun err => if errcode_is_ENOENT err then ret (Some false) else ret None).

(** The final [acquireLock]: inside the [try] a failure is caught, inside the
    [catch] it propagates. *)
Definition promoteAcquireStep (e : env) (p : pid) (insideTry : bool) : M bool :=
  if insideTry
  then try_catch (acquireLock e p)
                 (fun err => if errcode_is_ENOENT err then acquireLock e p else ret false)
  else acquireLock e p.

Definition tryPromoteStepwise (e : env) (p : pid) : M bool :=
  next <- promoteObserve e ;;
  match next with
  | PromoteRefused => ret false
  | PromoteAcquireInCatch => promoteAcquireStep e p false
  | PromoteUnlink =>
      u <- promoteUnlinkStep ;;
      match u with
      | Some insideTry => promoteAcquireStep e p insideTry
      | None => ret false
      end
  end.

(** Two clients [p1] and [p2] run their promotion checks at the same time:
    both read the lock file before either removes it; then [p1] unlinks and
    acquires, then [p2] unlinks and acquires. Returns what each call
    returned. *)
Definition promotionRace (e : env) (p1 p2 : pid) : M (bool * bool) :=
  n1 <- promoteObserve e ;;
  n2 <- promoteObserve e ;;
  match n1, n2 with
  | PromoteUnlink, PromoteUnlink =>
      u1 <- promoteUnlinkStep ;;
      r1 <- match u1 with
            | Some insideTry => promoteAcquireStep e p1 insideTry
            | None => ret false
            end ;;
      u2 <- promoteUnlinkStep ;;
      r2 <- match u2 with
            | Some insideTry => promoteAcquireStep e p2 insideTry
            | None => ret false
            end ;;
      ret (r1, r2)
  | _, _ => ret (false, false)
  end.

(** The lock file names a process that is not alive. *)
Definition ownerDead (e : env) (s : fsState) : Prop :=
  match lockSlot s with
  | Some (LockRecord q _) => procs e q = false
  | Some LockNoPid => True
  | _ => False
  end.

(** ** Registry histories *)

(** The client file as the program itself leaves it: missing, or a non-empty
    list without duplicates. *)
Definition registryWf (s : fsState) : Prop :=
  match clientSlot s with
  | None => True
  | Some (ClientList l) => l <> [] /\ NoDup l
  | Some ClientUnparsable => False
  end.

Inductive registry_call :=
| Register (p : pid)
| Unregister (p : pid)
| Prune (e : env).

Definition registryStep (c : registry_call) (s : fsState) : fsState :=
  match c with
  | Register p => snd (registerClient p s)
  | Unregister p => snd (unregisterClient p s)
  | Prune e => snd (cleanupStaleClients e s)
  end.

Fixpoint runRegistry (cs : list registry_call) (s : fsState) : fsState :=
  match cs with
  | [] => s
  | c :: cs' => runRegistry cs' (registryStep c s)
  end.

(** [child.kill(signal)] calls. *)
Definition isKillOp (o : fs_op) : bool :=
  match o with OpKill _ => true | _ => false end.

(** Calls of the synchronize action. *)
Definition isSyncOp (o : fs_op) : bool :=
  match o with OpSync _ => true | _ => false end.

(** The calls only a (would-be) leader makes: anything on the lock file, the
    synchronize action, [fs.watch]. *)
Definition isLeaderOp (o : fs_op) : bool :=
  match o with
  | OpRead LockFile | OpWrite LockFile | OpWriteExcl LockFile | OpUnlink LockFile => true
  | OpSync _ | OpWatch _ => true
  | _ => false
  end.

(** A process that takes no part in the coordination. *)
Definition uncoordinated (pr : proc) : Prop :=
  isWatcher pr = false /\ state pr = None /\ promotionCheckInterval pr = false.

(** Events whose callback goes past [if (!filename) return]. *)
Definition namedEvent (ev : fsEvent) : bool :=
  match evFile ev with
  | Some f => negb (String.eqb f EmptyString)
  | None => false
  end.

(** ** The [sync] and [watch] commands and the dispatch in [main] *)

(** [runSyncCommand()]: the exit code given to [process.exit], or [None] when
    the function returns. *)
Definition runSyncCommand (e : env) (c : collab) (workspaceFound : bool)
  : M (option Z) :=
  if isSyncDisabled e then ret None
  else if negb workspaceFound then ret (Some 1%Z)
  else
    injectedDepsDirs <- getInjectedDepsDirs c ;;
    if (List.length injectedDepsDirs =? 0)%nat then ret None
    else syncAll e injectedDepsDirs ;;; ret None.

(** [runWatchCommand()]: the exit code, if [process.exit] was called, and the
    watch state its [SIGINT] handler closes over, if it got that far. *)
Definition runWatchCommand (e : env) (c : collab) (workspaceFound : bool)
  : M (option Z * option watchState) :=
  if isSyncDisabled e then ret (None, None)
  else if negb workspaceFound then ret (Some 1%Z, None)
  else
    injectedDepsDirs <- getInjectedDepsDirs c ;;
    if (List.length injectedDepsDirs =? 0)%nat then ret (None, None)
    else
      syncAll e injectedDepsDirs ;;;
      st <- setupAll c injectedDepsDirs (mkWatch [] [] false) ;;
      ret (None, Some st).

(** The [SIGINT] handler of [runWatchCommand]: every timer cleared, every
    watcher closed, [process.exit(0)]. *)
Definition onWatchSigint (st : watchState) : watchState * Z :=
  (mkWatch [] (@nil (string * pending)) (checkInterval st), 0%Z).

(** How [main] leaves the process. *)
Inductive mainResult :=
| MainExit (code : Z)
| MainReturned
| MainWatching (st : watchState)
| MainSupervising (pr : proc).

(** [main()] with its [.catch(error => process.exit(1))]; [args] is
    [process.argv.slice(2)]. *)
Definition main (e : env) (c : collab) (workspaceFound : bool) (p : pid)
           (args : list string) (s : fsState) : mainResult * fsState :=
  match args with
  | command :: rest =>
      if String.eqb command "sync" then
        match runSyncCommand e c workspaceFound s with
        | (Ok (Some code), s') => (MainExit code, s')
        | (Ok None, s') => (MainReturned, s')
        | (Throw _, s') => (MainExit 1%Z, s')
        end
      else if String.eqb command "watch" then
        match runWatchCommand e c workspaceFound s with
        | (Ok (Some code, _), s') => (MainExit code, s')
        | (Ok (None, Some st), s') => (MainWatching st, s')
        | (Ok (None, None), s') => (MainReturned, s')
        | (Throw _, s') => (MainExit 1%Z, s')
        end
      else if String.eqb command "run" then
        if (List.length args <? 2)%nat then (MainExit 1%Z, s)
        else
          match runCommand e c workspaceFound p s with
          | (Ok pr, s') =>
              match exited pr with
              | Some code => (MainExit code, s')
              | None => (MainSupervising pr, s')
              end
          | (Throw _, s') => (MainExit 1%Z, s')
          end
      else if String.eqb command "help" || String.eqb command "--help"
              || String.eqb command "-h"
      then (MainReturned, s)
      else (MainExit 1%Z, s)
  | [] => (MainExit 1%Z, s)
  end.

(** * Properties *)

(** ** Lock Store *)

Ltac unfold_fs :=
  unfold acquireLock, releaseLock, tryPromoteToWatcher, parseLockOwner,
    registerClient, unregisterClient, cleanupStaleClients, loadClients,
    removeCoordinationFiles,
    readLockFile, readClientFile, writeLockFileExcl, writeClientFile,
    unlinkLockFile, unlinkClientFile, logOp, try_catch, bind, ret, throw in *.

Section LockStore.

Variable e : env.
Variable p : pid.

Lemma acquireLock_absent (s : fsState) :
  lockSlot s = None -> wxFault e = None ->
  acquireLock e p s =
    (Ok true, mkFs (Some (LockRecord p (now e))) (clientSlot s)
                   (trace s ++ [OpWriteExcl LockFile])).
Proof.
  intros Hl Hf. unfold_fs. simpl. rewrite Hl, Hf. reflexivity.
Qed.

Lemma acquireLock_present (s : fsState) (c : lock_content) :
  lockSlot s = Some c ->
  acquireLock e p s =
    (Ok false, mkFs (Some c) (clientSlot s) (trace s ++ [OpWriteExcl LockFile])).
Proof.
  intros Hl. unfold_fs. simpl. rewrite Hl. reflexivity.
Qed.

Lemma acquireLock_fault (s : fsState) (f : io_fault) :
  lockSlot s = None -> wxFault e = Some f ->
  acquireLock e p s =
    (Throw (SysError (EOTHER (faultCode f))),
     mkFs (leftByFault f) (clientSlot s) (trace s ++ [OpWriteExcl LockFile])).
Proof.
  intros Hl Hf. unfold_fs. simpl. rewrite Hl, Hf. destruct f; reflexivity.
Qed.

End LockStore.

Lemma releaseLock_slot (s : fsState) :
  lockSlot (snd (releaseLock s)) = None.
Proof.
  unfold_fs. simpl. destruct (lockSlot s); reflexivity.
Qed.






(** ** Promotion *)

Lemma tryPromote_unparsable (e : env) (p : pid) (s : fsState) :
  lockSlot s = Some LockUnparsable ->
  tryPromoteToWatcher e p s =
    (Ok false, mkFs (Some LockUnparsable) (clientSlot s) (trace s ++ [OpRead LockFile])).
Proof.
  intros Hl. unfold_fs. simpl. rewrite Hl. reflexivity.
Qed.

Lemma tryPromote_absent (e : env) (p : pid) (s : fsState) :
  lockSlot s = None -> wxFault e = None ->
  tryPromoteToWatcher e p s =
    (Ok true, mkFs (Some (LockRecord p (now e))) (clientSlot s)
                   (trace s ++ [OpRead LockFile; OpWriteExcl LockFile])).
Proof.
  intros Hl Hf. unfold tryPromoteToWatcher, readLockFile, logOp, try_catch, bind.
  simpl. rewrite Hl. simpl.
  rewrite (acquireLock_absent e p
             (mkFs None (clientSlot s) (trace s ++ [OpRead LockFile])) eq_refl Hf).
  simpl. rewrite <- app_assoc. reflexivity.
Qed.

(** C3, as stated, fails: on an unparsable lock file the promotion attempt
    does not behave as on an absent one. With the file absent the client
    acquires the lock; with it unparsable the attempt returns [false] and the
    unparsable record stays. *)
Lemma tryPromote_unparsable_not_as_absent :
  ~ (forall (e : env) (p : pid) (s : fsState),
        lockSlot s = Some LockUnparsable ->
        fst (tryPromoteToWatcher e p s)
        = fst (tryPromoteToWatcher e p (mkFs None (clientSlot s) (trace s)))).
Proof.
  intros H.
  specialize (H allAlive 7%Z (mkFs (Some LockUnparsable) None []) eq_refl).
  vm_compute in H. discriminate.
Qed.

(** C3, amended. For every lock file whose content is present but
    unparsable, a promotion attempt returns [false] without throwing, makes
    one read and nothing else, and leaves the unparsable record in place; the
    same holds for every later attempt, so the record blocks promotion for as
    long as it stays unparsable. *)
Theorem tryPromote_unparsable_blocks
        (e : env) (p : pid) (s : fsState) (n : nat) :
  lockSlot s = Some LockUnparsable ->
  fst (tryPromoteToWatcher e p s) = Ok false
  /\ lockSlot (snd (tryPromoteToWatcher e p s)) = Some LockUnparsable
  /\ clientSlot (snd (tryPromoteToWatcher e p s)) = clientSlot s
  /\ trace (snd (tryPromoteToWatcher e p s)) = trace s ++ [OpRead LockFile]
  /\ fst (promoteRepeatedly n e p s) = repeat (Some false) n
  /\ lockSlot (snd (promoteRepeatedly n e p s)) = Some LockUnparsable.
Proof.
  intros Hl. rewrite (tryPromote_unparsable e p s Hl). simpl.
  repeat (split; [reflexivity|]).
  clear - Hl. revert s Hl. induction n as [|n IH]; intros s Hl.
  - simpl. auto.
  - cbn [promoteRepeatedly]. rewrite (tryPromote_unparsable e p s Hl).
    specialize (IH (mkFs (Some LockUnparsable) (clientSlot s) (trace s ++ [OpRead LockFile]))
                   eq_refl).
    destruct (promoteRepeatedly n e p _) as [rs s2]. simpl in *.
    destruct IH as [IH1 IH2]. split; [now rewrite IH1 | exact IH2].
Qed.

Lemma tryPromote_unparsable_blocks_witness :
  fst (tryPromoteToWatcher noneAlive 7%Z (mkFs (Some LockUnparsable) None [])) = Ok false
  /\ fst (promoteRepeatedly 3 noneAlive 7%Z (mkFs (Some LockUnparsable) None []))
     = [Some false; Some false; Some false].
Proof.
  pose proof (tryPromote_unparsable_blocks noneAlive 7%Z
                (mkFs (Some LockUnparsable) None []) 3 eq_refl) as H.
  destruct H as (H1 & _ & _ & _ & H2 & _).
  split; [exact H1 | exact H2].
Defined.

(** ** Client Registry *)

Lemma without_app_self (p : pid) (l : list pid) :
  includes l p = false -> without p (l ++ [p]) = l.
Proof.
  unfold includes, without. induction l as [|q l IH]; simpl; intros H.
  - rewrite Z.eqb_refl. reflexivity.
  - apply orb_false_iff in H. destruct H as [Hq Hl].
    rewrite Z.eqb_sym in Hq. rewrite Hq. simpl. now rewrite IH.
Qed.

Lemma without_not_in (p : pid) (l : list pid) :
  includes l p = false -> without p l = l.
Proof.
  unfold includes, without. induction l as [|q l IH]; simpl; intros H.
  - reflexivity.
  - apply orb_false_iff in H. destruct H as [Hq Hl].
    rewrite Z.eqb_sym in Hq. rewrite Hq. simpl. now rewrite IH.
Qed.

(** C10. For every state in which the client-list file is missing or
    unparsable, [unregisterClient] returns the empty list after one read,
    performs no write and no delete, and leaves both files as they were: an
    unparsable client file stays in place. *)
Theorem unregisterClient_missing_or_unparsable (p : pid) (s : fsState) :
  clientSlot s = None \/ clientSlot s = Some ClientUnparsable ->
  fst (unregisterClient p s) = Ok []
  /\ trace (snd (unregisterClient p s)) = trace s ++ [OpRead ClientFile]
  /\ filter wroteOrDeleted (trace (snd (unregisterClient p s)))
     = filter wroteOrDeleted (trace s)
  /\ clientSlot (snd (unregisterClient p s)) = clientSlot s
  /\ lockSlot (snd (unregisterClient p s)) = lockSlot s.
Proof.
  intros [Hc|Hc]; unfold_fs; simpl; rewrite Hc; simpl;
    rewrite filter_app; simpl; rewrite app_nil_r; auto.
Qed.

Lemma unregisterClient_missing_or_unparsable_witness :
  fst (unregisterClient 7%Z (mkFs None (Some ClientUnparsable) [])) = Ok []
  /\ clientSlot (snd (unregisterClient 7%Z (mkFs None (Some ClientUnparsable) [])))
     = Some ClientUnparsable.
Proof.
  pose proof (unregisterClient_missing_or_unparsable 7%Z
                (mkFs None (Some ClientUnparsable) []) (or_intror eq_refl)) as H.
  destruct H as (H1 & _ & _ & H2 & _).
  split; [exact H1 | exact H2].
Defined.

Lemma registerClient_fresh (p : pid) (s : fsState) :
  includes (members s) p = false ->
  registerClient p s =
    (Ok tt, mkFs (lockSlot s) (Some (ClientList (members s ++ [p])))
                 (trace s ++ [OpRead ClientFile; OpWrite ClientFile])).
Proof.
  unfold members. intros H. unfold_fs. simpl.
  destruct (clientSlot s) as [[l|]|]; simpl in *; try rewrite H; simpl;
    rewrite <- app_assoc; reflexivity.
Qed.

Lemma unregisterClient_list (p : pid) (s : fsState) (l : list pid) :
  clientSlot s = Some (ClientList l) ->
  unregisterClient p s =
    (Ok (without p l),
     match without p l with
     | [] => mkFs (lockSlot s) None (trace s ++ [OpRead ClientFile; OpUnlink ClientFile])
     | _ :: _ => mkFs (lockSlot s) (Some (ClientList (without p l)))
                      (trace s ++ [OpRead ClientFile; OpWrite ClientFile])
     end).
Proof.
  intros Hc. unfold_fs. simpl. rewrite Hc. simpl.
  destruct (without p l) as [|q l']; simpl; rewrite <- app_assoc; reflexivity.
Qed.

(** C4, as stated, fails: when the identifier is already a member,
    registering it changes nothing and unregistering it removes it, so the
    registry does not return to its prior state. *)
Lemma register_unregister_not_roundtrip :
  ~ (forall (s : fsState) (p : pid),
        members (snd (registerThenUnregister p s)) = members s).
Proof.
  intros H.
  specialize (H (mkFs None (Some (ClientList [5%Z; 6%Z])) []) 5%Z).
  vm_compute in H. discriminate.
Qed.

(** C4, amended. For every client-set state and every process identifier
    that is not already a member, register followed by unregister restores
    the set of members, and restores the backing file itself when that file
    was missing or held a non-empty list; and for every state in which the
    identifier is the sole member, unregister deletes the backing file and
    returns the empty list. *)
Theorem register_unregister_roundtrip (s : fsState) (p : pid) :
  (includes (members s) p = false ->
     members (snd (registerThenUnregister p s)) = members s
     /\ fst (registerThenUnregister p s) = Ok (members s)
     /\ lockSlot (snd (registerThenUnregister p s)) = lockSlot s
     /\ ((clientSlot s = None \/
          exists q l, clientSlot s = Some (ClientList (q :: l))) ->
         clientSlot (snd (registerThenUnregister p s)) = clientSlot s))
  /\ (clientSlot s = Some (ClientList [p]) ->
      fst (unregisterClient p s) = Ok []
      /\ clientSlot (snd (unregisterClient p s)) = None
      /\ trace (snd (unregisterClient p s))
         = trace s ++ [OpRead ClientFile; OpUnlink ClientFile]).
Proof.
  split.
  - intros Hp. unfold registerThenUnregister, bind.
    rewrite (registerClient_fresh p s Hp).
    rewrite (unregisterClient_list p
               (mkFs (lockSlot s) (Some (ClientList (members s ++ [p])))
                     (trace s ++ [OpRead ClientFile; OpWrite ClientFile]))
               (members s ++ [p]) eq_refl).
    rewrite (without_app_self p (members s) Hp).
    unfold members in *.
    destruct (clientSlot s) as [[[|q l]|]|] eqn:Hc; simpl;
      (split; [reflexivity|]); (split; [reflexivity|]); (split; [reflexivity|]);
      intros [Hn|(q' & l' & Hl)]; congruence.
  - intros Hc. rewrite (unregisterClient_list p s [p] Hc).
    unfold without. simpl. rewrite Z.eqb_refl. simpl. auto.
Qed.

Lemma register_unregister_roundtrip_witness :
  members (snd (registerThenUnregister 7%Z
                  (mkFs None (Some (ClientList [5%Z; 6%Z])) []))) = [5%Z; 6%Z]
  /\ clientSlot (snd (unregisterClient 7%Z
                  (mkFs None (Some (ClientList [7%Z])) []))) = None.
Proof.
  split.
  - apply (proj1 (register_unregister_roundtrip
                    (mkFs None (Some (ClientList [5%Z; 6%Z])) []) 7%Z)).
    reflexivity.
  - apply (proj2 (register_unregister_roundtrip
                    (mkFs None (Some (ClientList [7%Z])) []) 7%Z)).
    reflexivity.
Defined.

(** *** Pruning *)

Lemma filter_length_eq {A} (f : A -> bool) (l : list A) :
  List.length (filter f l) = List.length l -> filter f l = l.
Proof.
  induction l as [|a l IH]; simpl; intros H.
  - reflexivity.
  - destruct (f a); simpl in H.
    + f_equal. apply IH. lia.
    + pose proof (filter_length_le f l). lia.
Qed.

Lemma cleanupStaleClients_list (e : env) (s : fsState) (l : list pid) :
  clientSlot s = Some (ClientList l) ->
  fst (cleanupStaleClients e s) = Ok (aliveOf e l)
  /\ lockSlot (snd (cleanupStaleClients e s)) = lockSlot s
  /\ clientSlot (snd (cleanupStaleClients e s)) =
     match aliveOf e l, l with
     | [], _ :: _ => None
     | _, _ => Some (ClientList (aliveOf e l))
     end.
Proof.
  intros Hc. unfold aliveOf. unfold_fs. simpl. rewrite Hc. simpl.
  destruct (Nat.eqb_spec (List.length (filter (fun q => procs e q) l)) (List.length l))
    as [Heq|Hne]; simpl.
  - rewrite (filter_length_eq _ _ Heq). destruct l; auto.
  - destruct (filter (fun q => procs e q) l) as [|a l'] eqn:Hf; simpl.
    + destruct l; [simpl in Hne; congruence|]. auto.
    + auto.
Qed.

(** C6. For every client set the program has stored (a non-empty list
    without duplicates: its registry functions never store another) and every
    liveness predicate,
    [cleanupStaleClients] returns exactly the members for which the predicate
    holds; afterwards the backing file holds that filtered subset when it is
    not empty, and the backing file is deleted when the filtered subset is
    empty. The lock file is not touched. *)
Theorem cleanupStaleClients_prunes (e : env) (s : fsState) (l : list pid) :
  registryWf s ->
  clientSlot s = Some (ClientList l) ->
  fst (cleanupStaleClients e s) = Ok (aliveOf e l)
  /\ (forall q, In q (aliveOf e l) <-> In q l /\ procs e q = true)
  /\ (aliveOf e l <> [] ->
      clientSlot (snd (cleanupStaleClients e s)) = Some (ClientList (aliveOf e l)))
  /\ (aliveOf e l = [] ->
      clientSlot (snd (cleanupStaleClients e s)) = None)
  /\ lockSlot (snd (cleanupStaleClients e s)) = lockSlot s.
Proof.
  intros Hwf Hc. destruct (cleanupStaleClients_list e s l Hc) as (Hr & Hl & Hf).
  unfold registryWf in Hwf. rewrite Hc in Hwf. destruct Hwf as [Hne _].
  split; [exact Hr|].
  split; [intros q; unfold aliveOf; rewrite filter_In; simpl; tauto|].
  rewrite Hf.
  split; [intros Ha; destruct (aliveOf e l); [congruence|reflexivity]|].
  split; [intros He; rewrite He; destruct l; [congruence|reflexivity]|].
  exact Hl.
Qed.

Lemma cleanupStaleClients_prunes_witness :
  fst (cleanupStaleClients (mkEnv (fun q => Z.eqb q 5) 0%Z None None)
         (mkFs None (Some (ClientList [4%Z; 5%Z; 6%Z])) [])) = Ok [5%Z]
  /\ clientSlot (snd (cleanupStaleClients noneAlive
         (mkFs None (Some (ClientList [4%Z; 5%Z])) []))) = None.
Proof.
  assert (Hnd3 : NoDup [4%Z; 5%Z; 6%Z])
    by (repeat constructor; simpl; intuition discriminate).
  assert (Hnd2 : NoDup [4%Z; 5%Z])
    by (repeat constructor; simpl; intuition discriminate).
  split.
  - apply (cleanupStaleClients_prunes (mkEnv (fun q => Z.eqb q 5) 0%Z None None)
             (mkFs None (Some (ClientList [4%Z; 5%Z; 6%Z])) []) [4%Z; 5%Z; 6%Z]).
    + split; [discriminate|exact Hnd3].
    + reflexivity.
  - destruct (cleanupStaleClients_prunes noneAlive
                (mkFs None (Some (ClientList [4%Z; 5%Z])) []) [4%Z; 5%Z])
      as (_ & _ & _ & H & _).
    + split; [discriminate|exact Hnd2].
    + reflexivity.
    + apply H. reflexivity.
Defined.

(** On a client file that is missing, unparsable or a list,
    [cleanupStaleClients] returns the live members and does not touch the lock
    file. *)
Lemma cleanupStaleClients_total (e : env) (s : fsState) :
  fst (cleanupStaleClients e s) = Ok (aliveOf e (members s))
  /\ lockSlot (snd (cleanupStaleClients e s)) = lockSlot s
  /\ clientSlot (snd (cleanupStaleClients e s)) =
     match clientSlot s with
     | Some (ClientList l) =>
         match aliveOf e l, l with
         | [], _ :: _ => None
         | _, _ => Some (ClientList (aliveOf e l))
         end
     | other => other
     end.
Proof.
  unfold members. destruct (clientSlot s) as [[l|]|] eqn:Hc.
  - exact (cleanupStaleClients_list e s l Hc).
  - unfold_fs. simpl. rewrite Hc. simpl. auto.
  - unfold_fs. simpl. rewrite Hc. simpl. auto.
Qed.

(** ** Watcher runtime: the reaper *)

Lemma removeCoordinationFiles_spec (s : fsState) :
  fst (removeCoordinationFiles s) = Ok tt
  /\ lockSlot (snd (removeCoordinationFiles s)) = None
  /\ clientSlot (snd (removeCoordinationFiles s)) =
     match lockSlot s with
     | Some _ => None
     | None => clientSlot s
     end.
Proof.
  unfold_fs. simpl.
  destruct (lockSlot s) eqn:Hl; simpl; [|auto].
  destruct (clientSlot s) eqn:Hc; simpl; auto.
Qed.

Section Reaper.

Variable e : env.
Variable pr : proc.
Variable st : watchState.
Variable s : fsState.
Hypothesis Hrunning : exited pr = None.
Hypothesis Hstate : state pr = Some st.
Hypothesis Harmed : checkInterval st = true.

(** While the child runs, a tick is exactly one pruning pass. *)
Lemma reaperTick_child_running :
  childExited pr = false ->
  reaperTick e pr s = (Ok pr, snd (cleanupStaleClients e s)).
Proof.
  intros Hch. unfold reaperTick. rewrite Hrunning, Hstate, Harmed.
  unfold bind. destruct (cleanupStaleClients_total e s) as (Hr & _ & _).
  destruct (cleanupStaleClients e s) as [[r|ex] s1]; simpl in *; [|discriminate].
  rewrite Hch. reflexivity.
Qed.

Lemma reaperTick_clients_remain :
  childExited pr = true -> aliveOf e (members s) <> [] ->
  reaperTick e pr s = (Ok pr, snd (cleanupStaleClients e s)).
Proof.
  intros Hch Hne. unfold reaperTick. rewrite Hrunning, Hstate, Harmed.
  unfold bind. destruct (cleanupStaleClients_total e s) as (Hr & _ & _).
  destruct (cleanupStaleClients e s) as [[r|ex] s1]; simpl in *; [|discriminate].
  rewrite Hch. simpl. inversion Hr; subst r.
  destruct (aliveOf e (members s)); [congruence|reflexivity].
Qed.

Lemma reaperTick_teardown :
  childExited pr = true -> aliveOf e (members s) = [] ->
  reaperTick e pr s =
    (Ok (mkProc (isWatcher pr) (Some (stopWatch st)) (promotionCheckInterval pr)
                (childExited pr) (isExiting pr) (childExitCode pr)
                (forcedExit pr) (keepAlive pr) (Some 0%Z)),
     snd (removeCoordinationFiles (snd (cleanupStaleClients e s)))).
Proof.
  intros Hch He. unfold reaperTick. rewrite Hrunning, Hstate, Harmed.
  unfold bind. destruct (cleanupStaleClients_total e s) as (Hr & _ & _).
  destruct (cleanupStaleClients e s) as [[r|ex] s1]; simpl in *; [|discriminate].
  rewrite Hch. simpl. inversion Hr; subst r. rewrite He. simpl.
  destruct (removeCoordinationFiles_spec s1) as (Hok & _ & _).
  destruct (removeCoordinationFiles s1) as [[u|ex] s2]; simpl in *; [|discriminate].
  reflexivity.
Qed.

End Reaper.

(** While the child runs, no number of ticks changes the process state or
    the lock file. *)
Lemma reaperTicks_child_running (pr : proc) (st : watchState) :
  exited pr = None -> state pr = Some st -> checkInterval st = true ->
  childExited pr = false ->
  forall (s : fsState) (es : list env),
    fst (reaperTicks es pr s) = pr
    /\ lockSlot (snd (reaperTicks es pr s)) = lockSlot s.
Proof.
  intros Hrun Hst Harm Hch s es. revert s.
  induction es as [|e es IH]; intros s; [simpl; auto|].
  cbn [reaperTicks].
  rewrite (reaperTick_child_running e pr st s Hrun Hst Harm Hch).
  destruct (IH (snd (cleanupStaleClients e s))) as [H1 H2].
  split; [exact H1|]. rewrite H2.
  apply (cleanupStaleClients_total e s).
Qed.

(** C2. While the leader's child has not exited, a reaper tick only prunes
    the client list: the process state (watchers, timers, reaper interval,
    not exited) and the lock file are unchanged, whatever the number of
    clients, zero included, and so for any number of ticks. Once the child has
    exited and the tick finds the pruned list empty, the reaper stops the
    watchers, cancels the timers and its own interval, removes the lock file
    and the client file and exits with code 0: afterwards the lock file is
    absent, and so is the client file on every store in which the leader's
    lock file was still there or the client file is as the program leaves it
    (missing, or a non-empty list without duplicates). With the child exited
    and a client remaining, nothing is torn down. *)
Theorem reaperTick_shutdown_rule
        (e : env) (pr : proc) (st : watchState) (s : fsState) :
  exited pr = None -> state pr = Some st -> checkInterval st = true ->
  (childExited pr = false ->
     fst (reaperTick e pr s) = Ok pr
     /\ snd (reaperTick e pr s) = snd (cleanupStaleClients e s)
     /\ lockSlot (snd (reaperTick e pr s)) = lockSlot s)
  /\ (childExited pr = true -> fst (cleanupStaleClients e s) = Ok [] ->
      (exists pr', fst (reaperTick e pr s) = Ok pr'
                   /\ exited pr' = Some 0%Z
                   /\ state pr' = Some (mkWatch [] [] false))
      /\ lockSlot (snd (reaperTick e pr s)) = None
      /\ (lockSlot s <> None \/ registryWf s ->
          clientSlot (snd (reaperTick e pr s)) = None))
  /\ (childExited pr = true -> fst (cleanupStaleClients e s) <> Ok [] ->
      fst (reaperTick e pr s) = Ok pr
      /\ lockSlot (snd (reaperTick e pr s)) = lockSlot s)
  /\ (childExited pr = false -> forall es,
      fst (reaperTicks es pr s) = pr
      /\ lockSlot (snd (reaperTicks es pr s)) = lockSlot s).
Proof.
  intros Hrun Hst Harm.
  destruct (cleanupStaleClients_total e s) as (Hr & Hlk & Hcl).
  split; [|split; [|split]];
    [| | |intros Hch es; apply (reaperTicks_child_running pr st Hrun Hst Harm Hch)].
  - intros Hch. rewrite (reaperTick_child_running e pr st s Hrun Hst Harm Hch).
    simpl. auto.
  - intros Hch Hempty. rewrite Hr in Hempty. inversion Hempty as [He].
    rewrite (reaperTick_teardown e pr st s Hrun Hst Harm Hch He).
    destruct (removeCoordinationFiles_spec (snd (cleanupStaleClients e s)))
      as (_ & Hl2 & Hc2).
    cbn [fst snd].
    split; [eexists; split; [reflexivity|split; reflexivity]|].
    split; [exact Hl2|].
    intros Hstore. rewrite Hc2, Hlk, Hcl.
    destruct (lockSlot s) as [c|]; [reflexivity|].
    destruct Hstore as [Hn|Hwf]; [congruence|].
    unfold registryWf in Hwf. unfold members in He.
    destruct (clientSlot s) as [[l|]|]; [|contradiction|reflexivity].
    rewrite He. destruct l; [destruct Hwf; congruence|reflexivity].
  - intros Hch Hne. rewrite Hr in Hne.
    assert (Hne' : aliveOf e (members s) <> []) by congruence.
    rewrite (reaperTick_clients_remain e pr st s Hrun Hst Harm Hch Hne').
    simpl. auto.
Qed.

Lemma reaperTick_shutdown_rule_witness :
  fst (reaperTick noneAlive (leaderProc false)
         (mkFs (Some (LockRecord 7%Z 0%Z)) None [])) = Ok (leaderProc false)
  /\ clientSlot (snd (reaperTick noneAlive (leaderProc true)
         (mkFs (Some (LockRecord 7%Z 0%Z)) (Some (ClientList [8%Z])) []))) = None
  /\ clientSlot (snd (reaperTick noneAlive (leaderProc true)
         (mkFs None (Some (ClientList [8%Z])) []))) = None.
Proof.
  split; [|split].
  - destruct (reaperTick_shutdown_rule noneAlive (leaderProc false)
                (mkWatch ["/w/pkg"%string] [] true)
                (mkFs (Some (LockRecord 7%Z 0%Z)) None [])
                eq_refl eq_refl eq_refl) as (H & _ & _ & _).
    apply H. reflexivity.
  - destruct (reaperTick_shutdown_rule noneAlive (leaderProc true)
                (mkWatch ["/w/pkg"%string] [] true)
                (mkFs (Some (LockRecord 7%Z 0%Z)) (Some (ClientList [8%Z])) [])
                eq_refl eq_refl eq_refl) as (_ & H & _ & _).
    apply H; [reflexivity | reflexivity | left; discriminate].
  - destruct (reaperTick_shutdown_rule noneAlive (leaderProc true)
                (mkWatch ["/w/pkg"%string] [] true)
                (mkFs None (Some (ClientList [8%Z])) [])
                eq_refl eq_refl eq_refl) as (_ & H & _ & _).
    apply H; [reflexivity | reflexivity |].
    right. split; [discriminate | repeat constructor; intros []].
Defined.

(** ** Process supervisor: exit codes *)

Lemma unregisterClient_total (p : pid) (s : fsState) :
  exists l, fst (unregisterClient p s) = Ok l
            /\ lockSlot (snd (unregisterClient p s)) = lockSlot s.
Proof.
  unfold_fs. simpl. destruct (clientSlot s) as [[l|]|] eqn:Hc; simpl.
  - destruct (without p l); simpl; eauto.
  - eauto.
  - eauto.
Qed.

Lemma orZero_code (c : Z) : orZero (Some c) = c.
Proof.
  unfold orZero. destruct (Z.eqb_spec c 0); congruence.
Qed.

Lemma onChildExit_exits (p : pid) (code : option Z) (pr : proc) (s : fsState) :
  exists pr', fst (onChildExit p code pr s) = Ok pr'
              /\ exited pr' = Some (orZero code)
              /\ childExited pr' = true
              /\ childExitCode pr' = code.
Proof.
  unfold onChildExit. destruct (isExiting pr).
  - unfold ret. simpl. eauto.
  - unfold bind. destruct (unregisterClient_total p s) as (l & Hl & _).
    destruct (unregisterClient p s) as [[r|ex] s1]; simpl in *; [|discriminate].
    destruct (leaderState pr) as [st|].
    + destruct (removeCoordinationFiles_spec s1) as (Hok & _).
      destruct (removeCoordinationFiles s1) as [[u|ex] s2]; simpl in *; [|discriminate].
      unfold ret. simpl. eauto.
    + unfold ret. simpl. eauto.
Qed.

Lemma onSignal_arms (p : pid) (sg : signal) (pr : proc) (s : fsState) :
  isExiting pr = false ->
  exists pr', fst (onSignal p sg pr s) = Ok pr'
              /\ forcedExit pr' = Some sg
              /\ isExiting pr' = true
              /\ childExitCode pr' = childExitCode pr
              /\ exited pr' = exited pr.
Proof.
  intros Hex. unfold onSignal. rewrite Hex. unfold bind, logOp. simpl.
  destruct (leaderState pr) as [st|].
  - match goal with |- context [removeCoordinationFiles ?x] =>
      destruct (removeCoordinationFiles_spec x) as (Hok & _);
      destruct (removeCoordinationFiles x) as [[u|ex] s2] end;
      simpl in *; [|discriminate].
    unfold ret. simpl. eexists; repeat split.
  - match goal with |- context [unregisterClient p ?x] =>
      destruct (unregisterClient_total p x) as (l & Hl & _);
      destruct (unregisterClient p x) as [[r|ex] s2] end;
      simpl in *; [|discriminate].
    unfold ret. simpl. eexists; repeat split.
Qed.

(** C8. The exit code of the supervising process: when the child reports an
    exit code, that code, unchanged, whether or not a signal was received
    before; 1 when the child fails to spawn and 1 when no workspace is found
    (then nothing else is done); and when the forced-exit timer armed by a
    received signal fires before the child has reported a code, 130 for
    SIGINT, 143 for SIGTERM and 129 for SIGHUP. *)
Theorem supervisor_exit_codes
        (e : env) (c : collab) (p : pid) (pr : proc) (s : fsState) :
  exited pr = None ->
  (forall code sg,
      exists pr', fst (step e p (ChildExit (Some code) sg) pr s) = Ok pr'
                  /\ exited pr' = Some code)
  /\ (exists pr', fst (step e p ChildError pr s) = Ok pr' /\ exited pr' = Some 1%Z)
  /\ runCommand e c false p s = (Ok (exitWith 1 initProc), s)
  /\ exited (fst (runProcess e c false p [] s)) = Some 1%Z
  /\ (forall sg, isExiting pr = false -> childExitCode pr = None ->
      exists pr1 s1 pr2,
        step e p (Signal sg) pr s = (Ok pr1, s1)
        /\ exited pr1 = None
        /\ fst (step e p ForcedExitTimeout pr1 s1) = Ok pr2
        /\ exited pr2 = Some (signalExitCode sg))
  /\ (forall sg, forcedExit pr = Some sg -> childExitCode pr = None ->
      exists pr', fst (step e p ForcedExitTimeout pr s) = Ok pr'
                  /\ exited pr' = Some (match sg with
                                        | SIGINT => 130%Z
                                        | SIGTERM => 143%Z
                                        | SIGHUP => 129%Z
                                        end)).
Proof.
  intros Hrun.
  split.
  { intros code sg. unfold step. rewrite Hrun.
    destruct (onChildExit_exits p (Some code) pr s) as (pr' & H1 & H2 & _).
    exists pr'. rewrite orZero_code in H2. auto. }
  split.
  { unfold step. rewrite Hrun. unfold ret. simpl. eauto. }
  split; [reflexivity|].
  split; [reflexivity|].
  split.
  { intros sg Hex Hcode. unfold step at 1. rewrite Hrun.
    destruct (onSignal_arms p sg pr s Hex) as (pr1 & H1 & Hf & _ & Hc & Hx).
    destruct (onSignal p sg pr s) as [r s1] eqn:E. simpl in H1. subst r.
    exists pr1, s1. rewrite Hx, Hrun.
    eexists. split; [reflexivity|]. split; [reflexivity|].
    unfold step. rewrite Hx, Hrun. unfold ret, onForcedExit. cbn [fst].
    rewrite Hf, Hc, Hcode. split; reflexivity. }
  intros sg Hf Hcode. unfold step. rewrite Hrun. unfold ret, onForcedExit.
  cbn [fst]. rewrite Hf, Hcode. eexists. split; [reflexivity|].
  destruct sg; reflexivity.
Qed.

Lemma supervisor_exit_codes_witness :
  (exists pr', fst (step allAlive 7%Z (ChildExit (Some 3%Z) None) (leaderProc false)
                      (mkFs (Some (LockRecord 7%Z 0%Z)) (Some (ClientList [7%Z])) []))
               = Ok pr'
               /\ exited pr' = Some 3%Z)
  /\ (exists pr1 s1 pr2,
        step allAlive 7%Z (Signal SIGTERM) (leaderProc false)
             (mkFs (Some (LockRecord 7%Z 0%Z)) (Some (ClientList [7%Z])) [])
        = (Ok pr1, s1)
        /\ exited pr1 = None
        /\ fst (step allAlive 7%Z ForcedExitTimeout pr1 s1) = Ok pr2
        /\ exited pr2 = Some 143%Z).
Proof.
  destruct (supervisor_exit_codes allAlive (mkCollab (Some []) (fun _ => true)) 7%Z
              (leaderProc false)
              (mkFs (Some (LockRecord 7%Z 0%Z)) (Some (ClientList [7%Z])) [])
              eq_refl) as (Hexit & _ & _ & _ & Hsig & _).
  split.
  - exact (Hexit 3%Z None).
  - exact (Hsig SIGTERM eq_refl eq_refl).
Defined.

(** ** Leader election: falling back to the client path *)

(** The process state of a client waiting for promotion, child spawned. *)
Lemma runCommand_lock_held (e : env) (c : collab) (p : pid) (s : fsState)
      (held : lock_content) :
  isSyncDisabled e = false -> lockSlot s = Some held ->
  fst (runCommand e c true p s)
  = Ok (mkProc false None true false false None None true None)
  /\ lockSlot (snd (runCommand e c true p s)) = Some held
  /\ members (snd (runCommand e c true p s))
     = if includes (members s) p then members s else members s ++ [p].
Proof.
  intros Hd Hl. destruct s as [lk cl tr]. simpl in Hl. subst lk.
  unfold runCommand, electLeader. simpl. rewrite Hd. simpl.
  unfold members, registerClient. unfold_fs. simpl.
  destruct cl as [[l|]|]; simpl; try destruct (includes l p); simpl; auto.
Qed.

(** When the runtime has nothing to watch, the lock just acquired is removed
    and the process continues exactly as one that found the lock held: same
    process state, registered as a client, promotion check armed. *)
Lemma runCommand_nothing_to_watch (e : env) (c : collab) (p : pid) (s : fsState) :
  isSyncDisabled e = false -> lockSlot s = None -> wxFault e = None ->
  injectedDeps c = Some [] ->
  fst (runCommand e c true p s)
  = Ok (mkProc false None true false false None None true None)
  /\ lockSlot (snd (runCommand e c true p s)) = None
  /\ members (snd (runCommand e c true p s))
     = if includes (members s) p then members s else members s ++ [p].
Proof.
  intros Hd Hl Hf Hdirs. destruct s as [lk cl tr]. simpl in Hl. subst lk.
  unfold runCommand, electLeader. simpl. rewrite Hd. simpl.
  unfold startWatcherMode, getInjectedDepsDirs. rewrite Hdirs.
  unfold members, registerClient. unfold_fs. simpl. rewrite Hf. simpl.
  destruct cl as [[l|]|]; simpl; try destruct (includes l p); simpl; auto.
Qed.

(** C7, evaluated where the code departs from it. The lock is acquired, the
    one tracked directory cannot be watched, [startWatcherMode] throws from
    [setupWatcher], and [runCommand] falls back to the client path: the
    process is a client with its promotion check armed, but the lock file
    still holds its own record. Every later promotion check finds the owner
    (itself) alive and returns [false]; nobody watches. *)
Theorem runCommand_unwatchable_keeps_lock :
  let '(pr, s) := runProcess allAlive unwatchable true 7%Z [] emptyStore in
  isWatcher pr = false
  /\ state pr = None
  /\ promotionCheckInterval pr = true
  /\ members s = [7%Z]
  /\ lockSlot s = Some (LockRecord 7%Z 0%Z)
  /\ fst (promoteRepeatedly 3 allAlive 7%Z s) = [Some false; Some false; Some false]
  /\ lockSlot (snd (promoteRepeatedly 3 allAlive 7%Z s)) = Some (LockRecord 7%Z 0%Z).
Proof.
  vm_compute. repeat split; reflexivity.
Qed.

(** ** The disable flag *)

Lemma isSyncDisabled_truthy (e : env) (value : string) :
  syncDisabledVar e = Some value ->
  In (toLowerCase value) ["true"; "1"; "yes"; "on"]%string ->
  isSyncDisabled e = true.
Proof.
  intros Hv Hin. unfold isSyncDisabled. rewrite Hv.
  destruct value as [|a value'].
  - simpl in Hin. intuition discriminate.
  - change (String.eqb (String a value') EmptyString) with false. cbv zeta iota.
    set (normalized := toLowerCase (String a value')) in *.
    destruct Hin as [H|[H|[H|[H|[]]]]]; rewrite <- H; reflexivity.
Qed.

(** With the flag set, start-up does nothing but spawn the child. *)
Lemma runCommand_disabled_startup (e : env) (c : collab) (p : pid) (s : fsState) :
  isSyncDisabled e = true ->
  runCommand e c true p s
  = (Ok (mkProc false None false false false None None true None),
     mkFs (lockSlot s) (clientSlot s) (trace s ++ [OpSpawn])).
Proof.
  intros Hd. unfold runCommand, electLeader. simpl. rewrite Hd. reflexivity.
Qed.

(** C9, evaluated where the code departs from it. The flag is set to [TRUE];
    another invocation group (leader 7, client 8) is using the workspace.
    Start-up only spawns the child and the child's exit code 0 is returned,
    but the exit handler calls [unregisterClient] unconditionally: the client
    file is read and written back. With a stale entry under the process's own
    identifier the entry is removed, and a file holding only that entry is
    deleted. *)
Theorem runCommand_disabled_touches_client_file :
  isSyncDisabled disabledEnv = true
  /\ runProcess disabledEnv onePackage true 42%Z [ChildExit (Some 0%Z) None]
       (mkFs (Some (LockRecord 7%Z 0%Z)) (Some (ClientList [7%Z; 8%Z])) [])
     = (mkProc false None false true true (Some 0%Z) None false (Some 0%Z),
        mkFs (Some (LockRecord 7%Z 0%Z)) (Some (ClientList [7%Z; 8%Z]))
             [OpSpawn; OpRead ClientFile; OpWrite ClientFile])
  /\ snd (runProcess disabledEnv onePackage true 42%Z [Signal SIGINT]
            (mkFs (Some (LockRecord 7%Z 0%Z)) (Some (ClientList [7%Z; 42%Z])) []))
     = mkFs (Some (LockRecord 7%Z 0%Z)) (Some (ClientList [7%Z]))
            [OpSpawn; OpKill "SIGINT"; OpRead ClientFile; OpWrite ClientFile]
  /\ snd (runProcess disabledEnv onePackage true 42%Z [ChildExit (Some 0%Z) None]
            (mkFs None (Some (ClientList [42%Z])) []))
     = mkFs None None [OpSpawn; OpRead ClientFile; OpUnlink ClientFile].
Proof.
  vm_compute. repeat split; reflexivity.
Qed.

(** ** Debounced change watcher *)

Lemma last_cons_default {A} (l : list A) (a d : A) :
  last (a :: l) d = last l a.
Proof.
  revert a d. induction l as [|b l IH]; intros a d.
  - reflexivity.
  - change (last (a :: b :: l) d) with (last (b :: l) d).
    rewrite IH. symmetry. apply IH.
Qed.

Lemma runEvents_cons (ev : fsEvent) (evs : list fsEvent)
      (timers : list (string * pending)) :
  runEvents (ev :: evs) timers
  = fst (fireDue (evAt ev) timers)
      ++ runEvents evs (onChange ev (snd (fireDue (evAt ev) timers))).
Proof. reflexivity. Qed.

Lemma fireDue_single (t : nat) (k : string) (x : pending) :
  fireDue t [(k, x)]
  = if (due x <=? t)%nat then ([x], []) else ([], [(k, x)]).
Proof.
  unfold fireDue, isDue. simpl. destruct (due x <=? t)%nat; reflexivity.
Qed.

Section Debounce.

Variables pkgDir filename evt : string.
Hypothesis Hname : String.eqb filename EmptyString = false.

Lemma due_timerOf (t : nat) :
  due (timerOf pkgDir filename evt t) = (t + quietPeriod)%nat.
Proof. reflexivity. Qed.

Lemma onChange_reset (t t0 : nat) :
  onChange (mkEvent t pkgDir evt (Some filename))
           [(timerId pkgDir filename, timerOf pkgDir filename evt t0)]
  = [(timerId pkgDir filename, timerOf pkgDir filename evt t)].
Proof.
  unfold onChange. simpl. rewrite Hname. unfold clearTimer. simpl.
  rewrite String.eqb_refl. reflexivity.
Qed.

Lemma onChange_fresh (t : nat) :
  onChange (mkEvent t pkgDir evt (Some filename)) []
  = [(timerId pkgDir filename, timerOf pkgDir filename evt t)].
Proof.
  unfold onChange. simpl. rewrite Hname. reflexivity.
Qed.

(** A pending timer followed by a burst: only the last reset runs. *)
Lemma runEvents_burst (ts : list nat) (t0 : nat) :
  burstFrom t0 ts ->
  runEvents (eventsAt pkgDir filename evt ts)
            [(timerId pkgDir filename, timerOf pkgDir filename evt t0)]
  = [timerOf pkgDir filename evt (last ts t0)].
Proof.
  revert t0. induction ts as [|t ts IH]; intros t0 Hb.
  - reflexivity.
  - destruct Hb as [Hgap Hb].
    cbn [eventsAt map]. rewrite runEvents_cons, fireDue_single, due_timerOf. cbn [evAt].
    destruct (Nat.leb_spec (t0 + quietPeriod) t) as [Hle|Hgt]; [lia|].
    cbn [fst snd app]. rewrite onChange_reset. fold (eventsAt pkgDir filename evt ts).
    rewrite (IH t Hb). rewrite last_cons_default. reflexivity.
Qed.

(** A pending timer followed by events spaced beyond the quiet period:
    every timer runs. *)
Lemma runEvents_spaced (ts : list nat) (t0 : nat) :
  spacedFrom t0 ts ->
  runEvents (eventsAt pkgDir filename evt ts)
            [(timerId pkgDir filename, timerOf pkgDir filename evt t0)]
  = map (timerOf pkgDir filename evt) (t0 :: ts).
Proof.
  revert t0. induction ts as [|t ts IH]; intros t0 Hs.
  - reflexivity.
  - destruct Hs as [Hgap Hs].
    cbn [eventsAt map]. rewrite runEvents_cons, fireDue_single, due_timerOf. cbn [evAt].
    destruct (Nat.leb_spec (t0 + quietPeriod) t) as [Hle|Hgt]; [|lia].
    cbn [fst snd app]. rewrite onChange_fresh. fold (eventsAt pkgDir filename evt ts).
    rewrite (IH t Hs). reflexivity.
Qed.

(** N >= 1 events for one entry, each less than the quiet period after the
    previous one, starting with no timer pending: exactly one [syncDeps]
    call, for that directory, one quiet period after the last event. *)
Lemma burst_one_sync (t0 : nat) (ts : list nat) :
  burstFrom t0 ts ->
  syncCalls (runEvents (eventsAt pkgDir filename evt (t0 :: ts)) [])
  = [(last ts t0 + quietPeriod, pkgDir)].
Proof.
  intros Hb. cbn [eventsAt map]. rewrite runEvents_cons.
  cbn [evAt fireDue filter map fst snd app].
  rewrite onChange_fresh. fold (eventsAt pkgDir filename evt ts).
  rewrite (runEvents_burst ts t0 Hb). reflexivity.
Qed.

(** Events for one entry spaced beyond the quiet period: one [syncDeps]
    call each. *)
Lemma spaced_one_sync_each (t0 : nat) (ts : list nat) :
  spacedFrom t0 ts ->
  syncCalls (runEvents (eventsAt pkgDir filename evt (t0 :: ts)) [])
  = map (fun t => (t + quietPeriod, pkgDir)) (t0 :: ts).
Proof.
  intros Hs. cbn [eventsAt map]. rewrite runEvents_cons.
  cbn [evAt fireDue filter map fst snd app].
  rewrite onChange_fresh. fold (eventsAt pkgDir filename evt ts).
  rewrite (runEvents_spaced ts t0 Hs). unfold syncCalls.
  rewrite map_map. reflexivity.
Qed.

End Debounce.

(** *** Timers under different ids do not interfere *)

Lemma filter_comm {A} (f g : A -> bool) (l : list A) :
  filter f (filter g l) = filter g (filter f l).
Proof.
  induction l as [|a l IH]; simpl; [reflexivity|].
  destruct (f a) eqn:Hf, (g a) eqn:Hg; simpl; rewrite ?Hf, ?Hg, IH; reflexivity.
Qed.

Lemma NoDup_map_filter {A B} (h : A -> B) (f : A -> bool) (l : list A) :
  NoDup (map h l) -> NoDup (map h (filter f l)).
Proof.
  induction l as [|a l IH]; simpl; intros H; [constructor|].
  inversion H as [|x xs Hnin Hnd]; subst.
  destruct (f a); simpl; [constructor|]; auto.
  intros Hin. apply Hnin. apply in_map_iff in Hin. destruct Hin as (y & Hy & Hin).
  apply in_map_iff. exists y. split; [exact Hy|].
  apply filter_In in Hin. tauto.
Qed.

Lemma timersWf_filter (f : string * pending -> bool) (timers : list (string * pending)) :
  timersWf timers -> timersWf (filter f timers).
Proof.
  intros [Hk Hnd]. split.
  - apply Forall_forall. intros kv Hin. apply filter_In in Hin.
    rewrite Forall_forall in Hk. apply Hk. tauto.
  - apply NoDup_map_filter. exact Hnd.
Qed.

Lemma clearTimer_not_in (id : string) (timers : list (string * pending)) :
  ~ In id (map fst (clearTimer id timers)).
Proof.
  unfold clearTimer. intros Hin. apply in_map_iff in Hin.
  destruct Hin as (kv & Hk & Hin). apply filter_In in Hin. destruct Hin as [_ Hne].
  rewrite <- Hk, String.eqb_refl in Hne. discriminate.
Qed.

Lemma timersWf_onChange (ev : fsEvent) (timers : list (string * pending)) :
  timersWf timers -> timersWf (onChange ev timers).
Proof.
  intros Hwf. unfold onChange. destruct (evFile ev) as [f|]; [|exact Hwf].
  destruct (String.eqb f EmptyString); [exact Hwf|].
  destruct (timersWf_filter (fun kv => negb (String.eqb (fst kv) (timerId (evDir ev) f)))
              timers Hwf) as [Hk Hnd].
  fold (clearTimer (timerId (evDir ev) f) timers) in Hk, Hnd.
  split.
  - apply Forall_app. split; [exact Hk|]. constructor; [reflexivity|constructor].
  - rewrite map_app. simpl. apply NoDup_app; [exact Hnd| repeat constructor; intros [] |].
    intros a Ha [<-|[]]. exact (clearTimer_not_in _ _ Ha).
Qed.

(** Under one id there is at most one timer. *)
Lemma keyIs_at_most_one (k : string) (timers : list (string * pending)) :
  NoDup (map fst timers) ->
  filter (keyIs k) timers = [] \/ exists x, filter (keyIs k) timers = [(k, x)].
Proof.
  induction timers as [|[k' x] l IH]; intros Hnd; [left; reflexivity|].
  cbn [map fst] in Hnd. inversion Hnd as [|a xs Hnin Hnd']; subst.
  cbn [filter]. change (keyIs k (k', x)) with (String.eqb k' k).
  destruct (String.eqb_spec k' k) as [->|Hne].
  - right. exists x. f_equal.
    assert (Hnone : forall l', ~ In k (map fst l') -> filter (keyIs k) l' = []).
    { clear. induction l' as [|[k2 y] l' IH]; intros H; [reflexivity|].
      cbn [filter]. change (keyIs k (k2, y)) with (String.eqb k2 k).
      destruct (String.eqb_spec k2 k) as [->|Hne].
      - exfalso. apply H. now left.
      - apply IH. intros Hin. apply H. now right. }
    apply Hnone. exact Hnin.
  - apply IH. exact Hnd'.
Qed.

Lemma keyIs_hasId (k : string) (timers : list (string * pending)) :
  Forall (fun kv => fst kv = pendingId (snd kv)) timers ->
  map snd (filter (keyIs k) timers) = filter (hasId k) (map snd timers).
Proof.
  induction 1 as [|[k' x] l Hk _ IH]; [reflexivity|].
  cbn [filter map snd fst] in *.
  change (keyIs k (k', x)) with (String.eqb k' k).
  unfold hasId at 1. rewrite <- Hk.
  destruct (String.eqb k' k); cbn [map snd]; now rewrite IH.
Qed.

Lemma timeOrdered_weaken (t t' : nat) (evs : list fsEvent) :
  (t' <= t)%nat -> timeOrdered t evs -> timeOrdered t' evs.
Proof.
  destruct evs as [|ev evs]; simpl; [auto|]. intros Hle [H1 H2]. split; [lia|exact H2].
Qed.

Lemma timeOrdered_filter (f : fsEvent -> bool) (t : nat) (evs : list fsEvent) :
  timeOrdered t evs -> timeOrdered t (filter f evs).
Proof.
  revert t. induction evs as [|ev evs IH]; simpl; intros t H; [exact I|].
  destruct H as [H1 H2]. destruct (f ev); simpl.
  - split; [exact H1|apply IH; exact H2].
  - apply IH. apply (timeOrdered_weaken (evAt ev)); assumption.
Qed.

Lemma runEvents_prefire (k : string) (x : pending) (t : nat) (evs : list fsEvent) :
  timeOrdered t evs -> (due x <= t)%nat ->
  runEvents evs [(k, x)] = x :: runEvents evs [].
Proof.
  intros Hord Hdue. destruct evs as [|ev evs]; [reflexivity|].
  destruct Hord as [Ht _]. rewrite !runEvents_cons, fireDue_single.
  destruct (Nat.leb_spec (due x) (evAt ev)) as [_|Hgt]; [|lia].
  reflexivity.
Qed.

Lemma runEvents_split_due (k : string) (t : nat) (evs : list fsEvent)
      (S : list (string * pending)) :
  timeOrdered t evs ->
  S = [] \/ (exists x, S = [(k, x)]) ->
  runEvents evs S
  = map snd (filter (isDue t) S)
      ++ runEvents evs (filter (fun kv => negb (isDue t kv)) S).
Proof.
  intros Hord [->|[x ->]]; [reflexivity|].
  cbn [filter]. destruct (isDue t (k, x)) eqn:Hd; cbn [negb map snd app].
  - apply (runEvents_prefire k x t evs Hord).
    unfold isDue in Hd. simpl in Hd. apply Nat.leb_le. exact Hd.
  - reflexivity.
Qed.

Lemma keyIs_clearTimer_other (k id : string) (timers : list (string * pending)) :
  String.eqb id k = false ->
  filter (keyIs k) (clearTimer id timers) = filter (keyIs k) timers.
Proof.
  intros Hne. unfold clearTimer. induction timers as [|[k' x] l IH]; [reflexivity|].
  cbn [filter fst]. destruct (String.eqb_spec k' id) as [->|Hd]; cbn [negb filter].
  - change (keyIs k (id, x)) with (String.eqb id k). rewrite Hne. exact IH.
  - rewrite IH. reflexivity.
Qed.

Lemma keyIs_onChange_other (k : string) (ev : fsEvent)
      (timers : list (string * pending)) :
  schedulesId k ev = false ->
  filter (keyIs k) (onChange ev timers) = filter (keyIs k) timers.
Proof.
  unfold schedulesId, onChange. destruct (evFile ev) as [f|]; [|reflexivity].
  destruct (String.eqb f EmptyString); [reflexivity|]. cbn [negb andb]. intros Hne.
  rewrite filter_app. cbn [filter]. change (keyIs k (timerId (evDir ev) f, _))
    with (String.eqb (timerId (evDir ev) f) k).
  rewrite Hne, app_nil_r. apply keyIs_clearTimer_other. exact Hne.
Qed.

Lemma clearTimer_all (k : string) (timers : list (string * pending)) :
  Forall (fun kv => keyIs k kv = true) timers -> clearTimer k timers = [].
Proof.
  unfold clearTimer. induction 1 as [|kv l Hk _ IH]; [reflexivity|].
  cbn [filter]. unfold keyIs in Hk. rewrite Hk. exact IH.
Qed.

Lemma keyIs_clearTimer_same (k : string) (timers : list (string * pending)) :
  filter (keyIs k) (clearTimer k timers) = [].
Proof.
  unfold clearTimer. induction timers as [|kv l IH]; [reflexivity|].
  cbn [filter]. destruct (String.eqb (fst kv) k) eqn:Hk; cbn [negb filter].
  - exact IH.
  - unfold keyIs at 1. rewrite Hk. exact IH.
Qed.

Lemma keyIs_onChange_same (k : string) (ev : fsEvent)
      (timers timers' : list (string * pending)) :
  schedulesId k ev = true ->
  Forall (fun kv => keyIs k kv = true) timers' ->
  filter (keyIs k) (onChange ev timers) = onChange ev timers'.
Proof.
  unfold schedulesId, onChange. destruct (evFile ev) as [f|]; [|discriminate].
  destruct (String.eqb f EmptyString); [discriminate|]. cbn [negb andb].
  intros Hk Hall. apply String.eqb_eq in Hk. rewrite Hk.
  rewrite filter_app, keyIs_clearTimer_same, (clearTimer_all k timers' Hall).
  cbn [filter app]. unfold keyIs. cbn [fst]. rewrite String.eqb_refl. reflexivity.
Qed.

(** The callbacks that run under timer id [k] in a run over time-ordered
    events are exactly the callbacks of the run over the events that
    schedule under [k]: events under other ids neither delay, cancel nor add
    any of them. *)
Lemma runEvents_project (k : string) (evs : list fsEvent) :
  forall (t0 : nat) (timers : list (string * pending)),
    timersWf timers -> timeOrdered t0 evs ->
    filter (hasId k) (runEvents evs timers)
    = runEvents (filter (schedulesId k) evs) (filter (keyIs k) timers).
Proof.
  induction evs as [|ev evs IH]; intros t0 timers Hwf Hord.
  - cbn [runEvents filter]. symmetry. apply keyIs_hasId. exact (proj1 Hwf).
  - destruct Hord as [_ Hord].
    rewrite runEvents_cons, filter_app.
    assert (Hrest : timersWf (snd (fireDue (evAt ev) timers)))
      by (apply timersWf_filter; exact Hwf).
    rewrite (IH (evAt ev) _ (timersWf_onChange ev _ Hrest) Hord).
    cbn [fireDue fst snd].
    rewrite <- (keyIs_hasId k (filter (isDue (evAt ev)) timers))
      by (apply (timersWf_filter _ _ Hwf)).
    rewrite (filter_comm (keyIs k) (isDue (evAt ev)) timers).
    cbn [filter]. destruct (schedulesId k ev) eqn:Hev.
    + rewrite runEvents_cons. cbn [fireDue fst snd]. f_equal. f_equal.
      apply keyIs_onChange_same; [exact Hev|].
      apply Forall_forall. intros kv Hin.
      apply filter_In in Hin. destruct Hin as [Hin _].
      apply filter_In in Hin. tauto.
    + rewrite (keyIs_onChange_other k ev _ Hev).
      rewrite (filter_comm (keyIs k) (fun kv => negb (isDue (evAt ev) kv)) timers).
      symmetry. apply (runEvents_split_due k (evAt ev)).
      * apply timeOrdered_filter. exact Hord.
      * apply keyIs_at_most_one. exact (proj2 Hwf).
Qed.

(** X28. Debouncing per timer id. In a run over time-ordered events in which
    every event that is not for the entry [(pkgDir, filename)] schedules under
    a different timer id, the callbacks under the entry's id are those of the
    entry's own events: one [syncDeps] call one quiet period after the last
    event of a burst, and one call per event when the events are spaced
    beyond the quiet period. *)
Theorem debounce_per_timer_id
        (pkgDir filename evt : string) (t0 : nat) (ts : list nat)
        (evs : list fsEvent) (tstart : nat) :
  String.eqb filename EmptyString = false ->
  timeOrdered tstart evs ->
  (forall ev, In ev evs ->
     schedulesId (timerId pkgDir filename) ev = eventFor pkgDir filename ev) ->
  filter (eventFor pkgDir filename) evs = eventsAt pkgDir filename evt (t0 :: ts) ->
  (burstFrom t0 ts ->
     syncCalls (filter (hasId (timerId pkgDir filename)) (runEvents evs []))
     = [(last ts t0 + quietPeriod, pkgDir)])
  /\ (spacedFrom t0 ts ->
      syncCalls (filter (hasId (timerId pkgDir filename)) (runEvents evs []))
      = map (fun t => (t + quietPeriod, pkgDir)) (t0 :: ts)).
Proof.
  intros Hname Hord Hother Hmine.
  assert (Hwf : timersWf []) by (split; constructor).
  rewrite (runEvents_project (timerId pkgDir filename) evs tstart [] Hwf Hord).
  rewrite (filter_ext_in _ _ _ Hother), Hmine. cbn [filter].
  split; intros H.
  - apply burst_one_sync; assumption.
  - apply spaced_one_sync_each; assumption.
Qed.

Lemma debounce_per_timer_id_example :
  syncCalls (filter (hasId (timerId "/w/a" "x.js")) (runEvents interleavedEvents []))
  = [(230, "/w/a"%string)].
Proof.
  refine (proj1 (debounce_per_timer_id "/w/a" "x.js" "change" 0 [60; 130]
                   interleavedEvents 0 eq_refl _ _ eq_refl) _).
  - simpl. lia.
  - intros ev [<-|[<-|[<-|[<-|[]]]]]; reflexivity.
  - simpl. unfold quietPeriod. lia.
Defined.

(** C5, evaluated where the code departs from it. The timer id is the text
    [pkgDir:filename], so the entry [c] of the watched directory [/w/a:b] and
    the entry [b:c] of the watched directory [/w/a] share one id. A change to
    the first at time 0 alone gives one [syncDeps] call for [/w/a:b]; followed
    50 ms later by a change to the second, its timer is cleared by the other
    entry's event and no [syncDeps] call is ever made for [/w/a:b]. *)
Theorem debounce_timer_id_collision :
  timerId "/w/a:b" "c" = timerId "/w/a" "b:c"
  /\ timeOrdered 0 collidingEvents
  /\ syncCalls (runEvents (filter (eventFor "/w/a:b" "c") collidingEvents) [])
     = [(100, "/w/a:b"%string)]
  /\ syncCalls (runEvents collidingEvents []) = [(150, "/w/a"%string)]
  /\ filter (forEntry "/w/a:b" "c") (runEvents collidingEvents []) = [].
Proof.
  vm_compute. repeat split; lia.
Qed.

(** * Further properties of the code *)

(** ** Workspace discovery *)

(** Successive candidates of the search are related by [path.dirname]. *)
Lemma dirname_firstn (n : nat) (d : dirpath) :
  (n < List.length d)%nat -> dirname (firstn (S n) d) = firstn n d.
Proof.
  unfold dirname. revert d. induction n as [|n IH]; intros d Hlt.
  - destruct d as [|a d]; [simpl in Hlt; lia|reflexivity].
  - destruct d as [|a d]; [simpl in Hlt; lia|].
    simpl in Hlt. change (firstn (S (S n)) (a :: d)) with (a :: firstn (S n) d).
    destruct (firstn (S n) d) as [|b r] eqn:E.
    + destruct d; simpl in *; [lia|discriminate].
    + change (removelast (a :: b :: r)) with (a :: removelast (b :: r)).
      rewrite <- E, IH by lia. reflexivity.
Qed.

Lemma findWorkspaceRootFrom_spec (v : dirView) (startDir : dirpath) (n : nat) :
  (n <= List.length startDir)%nat ->
  match findWorkspaceRootFrom v n startDir with
  | Some d =>
      exists k, (1 <= k <= n)%nat /\ d = firstn k startDir
                /\ isWorkspaceRoot v d = true
                /\ forall m, (k < m <= n)%nat ->
                             isWorkspaceRoot v (firstn m startDir) = false
  | None =>
      forall m, (1 <= m <= n)%nat -> isWorkspaceRoot v (firstn m startDir) = false
  end.
Proof.
  induction n as [|n IH]; intros Hn.
  - simpl. intros m Hm. lia.
  - cbn [findWorkspaceRootFrom].
    destruct (isWorkspaceRoot v (firstn (S n) startDir)) eqn:Hw.
    + exists (S n). split; [lia|]. split; [reflexivity|]. split; [exact Hw|].
      intros m Hm. lia.
    + specialize (IH ltac:(lia)).
      destruct (findWorkspaceRootFrom v n startDir) as [d|].
      * destruct IH as (k & Hk & Hd & Hwd & Hbelow).
        exists k. split; [lia|]. split; [exact Hd|]. split; [exact Hwd|].
        intros m Hm. destruct (Nat.eq_dec m (S n)) as [->|Hne]; [exact Hw|].
        apply Hbelow. lia.
      * intros m Hm. destruct (Nat.eq_dec m (S n)) as [->|Hne]; [exact Hw|].
        apply IH. lia.
Qed.

(** X1. [findWorkspaceRoot] returns the nearest directory, going from the
    start directory upwards, that holds both [pnpm-workspace.yaml] and
    [node_modules]: the result is a non-empty prefix of the start path that
    qualifies, and no longer prefix qualifies. It returns nothing exactly when
    no non-root prefix qualifies. *)
Theorem findWorkspaceRoot_nearest (v : dirView) (startDir : dirpath) :
  (forall d, findWorkspaceRoot v startDir = Some d ->
     exists k, (1 <= k <= List.length startDir)%nat
               /\ d = firstn k startDir
               /\ hasWorkspaceYaml v d = true /\ hasNodeModules v d = true
               /\ forall m, (k < m <= List.length startDir)%nat ->
                            isWorkspaceRoot v (firstn m startDir) = false)
  /\ (findWorkspaceRoot v startDir = None <->
      forall m, (1 <= m <= List.length startDir)%nat ->
                isWorkspaceRoot v (firstn m startDir) = false).
Proof.
  unfold findWorkspaceRoot.
  pose proof (findWorkspaceRootFrom_spec v startDir (List.length startDir) (le_n _)) as H.
  split.
  - intros d Hd. rewrite Hd in H. destruct H as (k & Hk & He & Hw & Hb).
    exists k. unfold isWorkspaceRoot in Hw. apply andb_true_iff in Hw.
    destruct Hw as [Hy Hm]. auto 6.
  - split.
    + intros Hn. rewrite Hn in H. exact H.
    + intros Hall. destruct (findWorkspaceRootFrom v _ startDir) as [d|]; [|reflexivity].
      destruct H as (k & Hk & He & Hw & _). rewrite He, (Hall k Hk) in Hw. discriminate.
Qed.

Lemma findWorkspaceRoot_nearest_witness :
  exists k, (1 <= k <= 5)%nat
            /\ ["home"; "dev"; "ws"]%string
               = firstn k ["home"; "dev"; "ws"; "pkg"; "src"]%string
            /\ hasWorkspaceYaml nestedWorkspaces ["home"; "dev"; "ws"]%string = true
            /\ hasNodeModules nestedWorkspaces ["home"; "dev"; "ws"]%string = true
            /\ forall m, (k < m <= 5)%nat ->
                 isWorkspaceRoot nestedWorkspaces
                   (firstn m ["home"; "dev"; "ws"; "pkg"; "src"]%string) = false.
Proof.
  exact (proj1 (findWorkspaceRoot_nearest nestedWorkspaces
                  ["home"; "dev"; "ws"; "pkg"; "src"]%string)
               ["home"; "dev"; "ws"]%string eq_refl).
Defined.

(** X2. The file-system root is never returned, even when it holds both
    entries: the loop stops at the root without looking at it. So a workspace
    placed directly at the root is not found. *)
Theorem findWorkspaceRoot_never_root (v : dirView) (startDir : dirpath) :
  findWorkspaceRoot v startDir <> Some []
  /\ (isWorkspaceRoot v [] = true ->
      (forall m, (1 <= m <= List.length startDir)%nat ->
                 isWorkspaceRoot v (firstn m startDir) = false) ->
      findWorkspaceRoot v startDir = None).
Proof.
  unfold findWorkspaceRoot.
  pose proof (findWorkspaceRootFrom_spec v startDir (List.length startDir) (le_n _)) as H.
  split.
  - intros Hd. rewrite Hd in H. destruct H as (k & Hk & He & _).
    destruct startDir as [|a l]; [simpl in Hk; lia|].
    destruct k; [lia|]. discriminate.
  - intros _ Hall.
    destruct (findWorkspaceRootFrom v _ startDir) as [d|]; [|reflexivity].
    destruct H as (k & Hk & He & Hw & _). rewrite He, (Hall k Hk) in Hw. discriminate.
Qed.

Lemma findWorkspaceRoot_never_root_witness :
  findWorkspaceRoot (mkDirView (fun d => match d with [] => true | _ => false end)
                               (fun _ => true))
                    ["home"; "dev"]%string = None.
Proof.
  apply (proj2 (findWorkspaceRoot_never_root
                  (mkDirView (fun d => match d with [] => true | _ => false end)
                             (fun _ => true))
                  ["home"; "dev"]%string)).
  - reflexivity.
  - intros m Hm. simpl in Hm. destruct m as [|[|[|m]]]; try lia; reflexivity.
Defined.

(** ** The disable flag, continued *)

Lemma toLowerCase_empty (v : string) :
  String.eqb (toLowerCase v) EmptyString = String.eqb v EmptyString.
Proof.
  destruct v; reflexivity.
Qed.

Lemma lowerAscii_idem (c : ascii) : lowerAscii (lowerAscii c) = lowerAscii c.
Proof.
  destruct c as [[] [] [] [] [] [] [] []]; reflexivity.
Qed.

Lemma toLowerCase_idem (v : string) : toLowerCase (toLowerCase v) = toLowerCase v.
Proof.
  induction v as [|c v IH]; simpl; [reflexivity|].
  now rewrite lowerAscii_idem, IH.
Qed.

(** X3. [isSyncDisabled] holds exactly when the variable is set and its
    lower-cased value is [true], [1], [yes] or [on]; an unset or empty
    variable, and every other value, leave syncing enabled. Two values that
    differ only in letter case are treated alike. *)
Theorem isSyncDisabled_spellings (e : env) :
  (isSyncDisabled e = true <->
   exists value, syncDisabledVar e = Some value
                 /\ In (toLowerCase value) ["true"; "1"; "yes"; "on"]%string)
  /\ (forall e' v w,
        syncDisabledVar e = Some v -> syncDisabledVar e' = Some w ->
        toLowerCase v = toLowerCase w ->
        isSyncDisabled e = isSyncDisabled e').
Proof.
  split.
  - split.
    + unfold isSyncDisabled. destruct (syncDisabledVar e) as [value|]; [|discriminate].
      destruct (String.eqb value EmptyString); [discriminate|]. cbv zeta.
      intros H. exists value. split; [reflexivity|].
      repeat (apply orb_true_iff in H; destruct H as [H|H]);
        apply String.eqb_eq in H; rewrite H; simpl; auto.
    + intros (value & Hv & Hin). exact (isSyncDisabled_truthy e value Hv Hin).
  - intros e' v w Hv Hw Heq. unfold isSyncDisabled. rewrite Hv, Hw.
    rewrite <- (toLowerCase_empty v), <- (toLowerCase_empty w), Heq. reflexivity.
Qed.

Lemma isSyncDisabled_spellings_witness :
  isSyncDisabled (mkEnv (fun _ => true) 0%Z None (Some "Yes"%string))
  = isSyncDisabled (mkEnv (fun _ => true) 0%Z None (Some "yES"%string)).
Proof.
  apply (proj2 (isSyncDisabled_spellings
                  (mkEnv (fun _ => true) 0%Z None (Some "Yes"%string)))
               (mkEnv (fun _ => true) 0%Z None (Some "yES"%string))
               "Yes"%string "yES"%string eq_refl eq_refl eq_refl).
Defined.

(** ** Promotion, continued *)

Lemma tryPromote_owner_alive (e : env) (p q : pid) (t : Z) (s : fsState) :
  lockSlot s = Some (LockRecord q t) -> procs e q = true ->
  tryPromoteToWatcher e p s
  = (Ok false, mkFs (lockSlot s) (clientSlot s) (trace s ++ [OpRead LockFile])).
Proof.
  intros Hl Ha. unfold_fs. simpl. rewrite Hl. simpl. rewrite Ha. reflexivity.
Qed.

Lemma tryPromote_owner_dead (e : env) (p : pid) (s : fsState) :
  ownerDead e s ->
  tryPromoteToWatcher e p s
  = match wxFault e with
    | None =>
        (Ok true, mkFs (Some (LockRecord p (now e))) (clientSlot s)
                       (trace s ++ [OpRead LockFile; OpUnlink LockFile;
                                    OpWriteExcl LockFile]))
    | Some f =>
        (Ok false, mkFs (leftByFault f) (clientSlot s)
                        (trace s ++ [OpRead LockFile; OpUnlink LockFile;
                                     OpWriteExcl LockFile]))
    end.
Proof.
  unfold ownerDead. intros Hd.
  unfold tryPromoteToWatcher, acquireLock. unfold_fs. simpl.
  destruct (lockSlot s) as [[q t| |]|] eqn:Hl; try contradiction; simpl.
  - rewrite Hd. simpl. destruct (wxFault e) as [[k|k]|]; simpl;
      repeat rewrite <- app_assoc; reflexivity.
  - destruct (wxFault e) as [[k|k]|]; simpl; repeat rewrite <- app_assoc; reflexivity.
Qed.

(** X4. With the lock file naming a live owner, a promotion check returns
    [false] after one read and changes neither file. With the lock file
    naming an owner that is not alive (or no owner at all) and no creation
    failure pending, it returns [true] and the lock file then holds the
    caller's own record; the client file is not touched in either case. *)
Theorem tryPromote_by_owner_liveness (e : env) (p : pid) (s : fsState) :
  (forall q t, lockSlot s = Some (LockRecord q t) -> procs e q = true ->
     fst (tryPromoteToWatcher e p s) = Ok false
     /\ lockSlot (snd (tryPromoteToWatcher e p s)) = lockSlot s
     /\ clientSlot (snd (tryPromoteToWatcher e p s)) = clientSlot s
     /\ trace (snd (tryPromoteToWatcher e p s)) = trace s ++ [OpRead LockFile])
  /\ (ownerDead e s -> wxFault e = None ->
      fst (tryPromoteToWatcher e p s) = Ok true
      /\ lockSlot (snd (tryPromoteToWatcher e p s)) = Some (LockRecord p (now e))
      /\ clientSlot (snd (tryPromoteToWatcher e p s)) = clientSlot s).
Proof.
  split.
  - intros q t Hl Ha. rewrite (tryPromote_owner_alive e p q t s Hl Ha). simpl. auto.
  - intros Hd Hf. rewrite (tryPromote_owner_dead e p s Hd), Hf. simpl. auto.
Qed.

Lemma tryPromote_by_owner_liveness_witness :
  fst (tryPromoteToWatcher allAlive 8%Z (mkFs (Some (LockRecord 7%Z 0%Z)) None []))
  = Ok false
  /\ lockSlot (snd (tryPromoteToWatcher noneAlive 8%Z
                      (mkFs (Some (LockRecord 7%Z 0%Z)) None [])))
     = Some (LockRecord 8%Z 0%Z).
Proof.
  split.
  - destruct (tryPromote_by_owner_liveness allAlive 8%Z
                (mkFs (Some (LockRecord 7%Z 0%Z)) None [])) as [H _].
    apply (H 7%Z 0%Z eq_refl eq_refl).
  - destruct (tryPromote_by_owner_liveness noneAlive 8%Z
                (mkFs (Some (LockRecord 7%Z 0%Z)) None [])) as [_ H].
    apply H; [reflexivity|reflexivity].
Defined.

(** X5. A promotion check throws in one situation only: the lock file is
    missing and its exclusive creation fails with an error other than
    [EEXIST] (full disk, quota, I/O error); that error is rethrown. When the
    lock file is present nothing is thrown, whatever the creation meets: with
    an owner that is not alive and a failing creation the check returns
    [false] after it has removed the stale lock file, and what is left in its
    place is nothing when the creation failed at the open, and an empty,
    unparsable lock file when it failed while writing. *)
Theorem tryPromote_throws_only_when_absent (e : env) (p : pid) (s : fsState) :
  (forall x, fst (tryPromoteToWatcher e p s) = Throw x <->
             lockSlot s = None /\ exists f, wxFault e = Some f
                                            /\ x = SysError (EOTHER (faultCode f)))
  /\ (forall f, ownerDead e s -> wxFault e = Some f ->
      fst (tryPromoteToWatcher e p s) = Ok false
      /\ lockSlot (snd (tryPromoteToWatcher e p s))
         = match f with
           | FailsAtOpen _ => None
           | FailsAtWrite _ => Some LockUnparsable
           end).
Proof.
  split.
  - intros x. destruct (lockSlot s) as [[q t| |]|] eqn:Hl.
    + destruct (procs e q) eqn:Ha.
      * rewrite (tryPromote_owner_alive e p q t s Hl Ha). simpl.
        split; [discriminate|intros [H _]; discriminate].
      * assert (Hd : ownerDead e s) by (unfold ownerDead; rewrite Hl; exact Ha).
        rewrite (tryPromote_owner_dead e p s Hd).
        destruct (wxFault e); simpl; (split; [discriminate|intros [H _]; discriminate]).
    + assert (Hd : ownerDead e s) by (unfold ownerDead; rewrite Hl; exact I).
      rewrite (tryPromote_owner_dead e p s Hd).
      destruct (wxFault e); simpl; (split; [discriminate|intros [H _]; discriminate]).
    + rewrite (tryPromote_unparsable e p s Hl). simpl.
      split; [discriminate|intros [H _]; discriminate].
    + destruct (wxFault e) as [f|] eqn:Hf.
      * unfold tryPromoteToWatcher, readLockFile, logOp, try_catch, bind.
        simpl. rewrite Hl. simpl.
        rewrite (acquireLock_fault e p (mkFs None (clientSlot s) (trace s ++ [OpRead LockFile]))
                   f eq_refl Hf). simpl.
        split.
        -- intros H. inversion H. split; [reflexivity|]. exists f. auto.
        -- intros (_ & f' & Hf' & ->). congruence.
      * rewrite (tryPromote_absent e p s Hl Hf). simpl.
        split; [discriminate|intros (_ & f' & Hf' & _); discriminate].
  - intros f Hd Hf. rewrite (tryPromote_owner_dead e p s Hd), Hf. simpl.
    split; [reflexivity|]. destruct f; reflexivity.
Qed.

Lemma tryPromote_throws_only_when_absent_witness :
  fst (tryPromoteToWatcher
         (mkEnv (fun _ => false) 0%Z (Some (FailsAtWrite ENOSPC)) None) 8%Z
         (mkFs (Some (LockRecord 7%Z 0%Z)) None [])) = Ok false
  /\ lockSlot (snd (tryPromoteToWatcher
         (mkEnv (fun _ => false) 0%Z (Some (FailsAtWrite ENOSPC)) None) 8%Z
         (mkFs (Some (LockRecord 7%Z 0%Z)) None []))) = Some LockUnparsable
  /\ fst (tryPromoteToWatcher
            (mkEnv (fun _ => false) 0%Z (Some (FailsAtWrite ENOSPC)) None) 8%Z
            (mkFs None None [])) = Throw (SysError (EOTHER ENOSPC)).
Proof.
  split; [|split].
  - destruct (tryPromote_throws_only_when_absent
                (mkEnv (fun _ => false) 0%Z (Some (FailsAtWrite ENOSPC)) None) 8%Z
                (mkFs (Some (LockRecord 7%Z 0%Z)) None [])) as [_ H].
    apply (H (FailsAtWrite ENOSPC)); reflexivity.
  - destruct (tryPromote_throws_only_when_absent
                (mkEnv (fun _ => false) 0%Z (Some (FailsAtWrite ENOSPC)) None) 8%Z
                (mkFs (Some (LockRecord 7%Z 0%Z)) None [])) as [_ H].
    apply (H (FailsAtWrite ENOSPC)); reflexivity.
  - destruct (tryPromote_throws_only_when_absent
                (mkEnv (fun _ => false) 0%Z (Some (FailsAtWrite ENOSPC)) None) 8%Z
                (mkFs None None [])) as [H _].
    apply H. split; [reflexivity|]. exists (FailsAtWrite ENOSPC). split; reflexivity.
Defined.

Ltac unfold_promote :=
  unfold tryPromoteStepwise, promotionRace, promoteAcquireStep, promoteUnlinkStep,
    promoteObserve, tryPromoteToWatcher, acquireLock, parseLockOwner,
    readLockFile, writeLockFileExcl, unlinkLockFile, logOp, try_catch, bind,
    ret, throw.

(** Run alone, the three parts are the function. *)
Lemma tryPromoteStepwise_eq (e : env) (p : pid) (s : fsState) :
  tryPromoteStepwise e p s = tryPromoteToWatcher e p s.
Proof.
  unfold_promote. simpl.
  destruct (lockSlot s) as [[q t| |]|]; simpl;
    try destruct (procs e q); simpl;
    destruct (wxFault e) as [[k|k]|]; reflexivity.
Qed.

(** X6. Promotion is not atomic. When two clients both read a lock file
    whose owner is not alive before either of them removes it, the first
    removes it and acquires the lock, and the second then removes the first
    one's fresh lock and acquires it too: both calls return [true], so both
    processes start a watcher runtime, and the lock file names only the
    second. The three parts used here compose to [tryPromoteToWatcher]
    itself. *)
Theorem tryPromote_race_two_leaders (e : env) (p1 p2 : pid) (s : fsState) :
  tryPromoteStepwise e p1 s = tryPromoteToWatcher e p1 s
  /\ (ownerDead e s -> wxFault e = None ->
      fst (promotionRace e p1 p2 s) = Ok (true, true)
      /\ lockSlot (snd (promotionRace e p1 p2 s)) = Some (LockRecord p2 (now e))
      /\ filter wroteOrDeleted (trace (snd (promotionRace e p1 p2 s)))
         = filter wroteOrDeleted (trace s)
             ++ [OpUnlink LockFile; OpWriteExcl LockFile;
                 OpUnlink LockFile; OpWriteExcl LockFile]).
Proof.
  split; [apply tryPromoteStepwise_eq|].
  unfold ownerDead. intros Hd Hf. unfold_promote. simpl.
  destruct (lockSlot s) as [[q t| |]|]; try contradiction; simpl.
  - do 4 (rewrite ?Hd, ?Hf; simpl).
    repeat split. repeat rewrite filter_app. simpl.
    repeat rewrite app_nil_r. repeat rewrite <- app_assoc. reflexivity.
  - do 4 (rewrite ?Hf; simpl).
    repeat split. repeat rewrite filter_app. simpl.
    repeat rewrite app_nil_r. repeat rewrite <- app_assoc. reflexivity.
Qed.

Lemma tryPromote_race_two_leaders_witness :
  fst (promotionRace noneAlive 8%Z 9%Z (mkFs (Some (LockRecord 7%Z 0%Z)) None []))
  = Ok (true, true)
  /\ lockSlot (snd (promotionRace noneAlive 8%Z 9%Z
                      (mkFs (Some (LockRecord 7%Z 0%Z)) None [])))
     = Some (LockRecord 9%Z 0%Z).
Proof.
  destruct (tryPromote_race_two_leaders noneAlive 8%Z 9%Z
              (mkFs (Some (LockRecord 7%Z 0%Z)) None [])) as [_ H].
  destruct (H eq_refl eq_refl) as (H1 & H2 & _).
  split; [exact H1 | exact H2].
Defined.

(** ** Client Registry, continued *)

Lemma registerClient_eq (p : pid) (s : fsState) :
  registerClient p s
  = (Ok tt,
     if includes (members s) p
     then mkFs (lockSlot s) (clientSlot s) (trace s ++ [OpRead ClientFile])
     else mkFs (lockSlot s) (Some (ClientList (members s ++ [p])))
               (trace s ++ [OpRead ClientFile; OpWrite ClientFile])).
Proof.
  destruct (includes (members s) p) eqn:Hi.
  - unfold members in Hi. unfold_fs. simpl.
    destruct (clientSlot s) as [[l|]|]; simpl in *; try discriminate.
    rewrite Hi. reflexivity.
  - apply registerClient_fresh. exact Hi.
Qed.

Lemma includes_In (l : list pid) (p : pid) : includes l p = true <-> In p l.
Proof.
  unfold includes. rewrite existsb_exists. split.
  - intros (x & Hin & Hx). apply Z.eqb_eq in Hx. now subst.
  - intros Hin. exists p. split; [exact Hin|apply Z.eqb_refl].
Qed.

Lemma without_In (p q : pid) (l : list pid) :
  In q (without p l) <-> In q l /\ q <> p.
Proof.
  unfold without. rewrite filter_In. rewrite negb_true_iff, Z.eqb_neq. tauto.
Qed.

Lemma registerClient_members_eq (p : pid) (s : fsState) :
  members (snd (registerClient p s))
  = (if includes (members s) p then members s else members s ++ [p]).
Proof.
  rewrite registerClient_eq. destruct (includes (members s) p); reflexivity.
Qed.

Lemma registerClient_member (p : pid) (s : fsState) :
  In p (members (snd (registerClient p s))).
Proof.
  rewrite registerClient_members_eq. destruct (includes (members s) p) eqn:Hi.
  - apply includes_In. exact Hi.
  - apply in_or_app. right. now left.
Qed.

(** X7. [registerClient] never touches the lock file. Provided its write
    goes through, the identifier is a member afterwards, every earlier member
    is still there in the same order (the identifier is appended when new),
    and a list without duplicates stays without duplicates; an unparsable
    client file is replaced by the one-element list. Registering again
    returns after a single read, without writing. *)
Theorem registerClient_adds_member (p : pid) (s : fsState) :
  lockSlot (snd (registerClient p s)) = lockSlot s
  /\ members (snd (registerClient p s))
     = (if includes (members s) p then members s else members s ++ [p])
  /\ In p (members (snd (registerClient p s)))
  /\ (forall q, In q (members s) -> In q (members (snd (registerClient p s))))
  /\ (NoDup (members s) -> NoDup (members (snd (registerClient p s))))
  /\ (clientSlot s = Some ClientUnparsable ->
      clientSlot (snd (registerClient p s)) = Some (ClientList [p]))
  /\ registerClient p (snd (registerClient p s))
     = (Ok tt, mkFs (lockSlot s) (clientSlot (snd (registerClient p s)))
                    (trace (snd (registerClient p s)) ++ [OpRead ClientFile])).
Proof.
  assert (Hm : members (snd (registerClient p s))
               = (if includes (members s) p then members s else members s ++ [p])).
  { rewrite registerClient_eq. destruct (includes (members s) p) eqn:Hi; [|reflexivity].
    reflexivity. }
  assert (Hin : In p (members (snd (registerClient p s)))).
  { rewrite Hm. destruct (includes (members s) p) eqn:Hi.
    - apply includes_In. exact Hi.
    - apply in_or_app. right. now left. }
  split; [rewrite registerClient_eq; destruct (includes (members s) p); reflexivity|].
  split; [exact Hm|]. split; [exact Hin|].
  split.
  { intros q Hq. rewrite Hm. destruct (includes (members s) p); [exact Hq|].
    apply in_or_app. now left. }
  split.
  { intros Hnd. rewrite Hm. destruct (includes (members s) p) eqn:Hi; [exact Hnd|].
    apply NoDup_app; [exact Hnd|repeat constructor; intros []|].
    intros a Ha [<-|[]]. apply includes_In in Ha. congruence. }
  split.
  { intros Hc. rewrite registerClient_eq. unfold members. rewrite Hc. reflexivity. }
  rewrite (registerClient_eq p (snd (registerClient p s))).
  apply includes_In in Hin. rewrite Hin.
  rewrite registerClient_eq. destruct (includes (members s) p); reflexivity.
Qed.

Lemma registerClient_adds_member_witness :
  NoDup (members (snd (registerClient 9%Z (mkFs None (Some (ClientList [7%Z; 8%Z])) []))))
  /\ clientSlot (snd (registerClient 9%Z (mkFs None (Some ClientUnparsable) [])))
     = Some (ClientList [9%Z]).
Proof.
  split.
  - destruct (registerClient_adds_member 9%Z
                (mkFs None (Some (ClientList [7%Z; 8%Z])) [])) as (_ & _ & _ & _ & H & _).
    apply H. simpl. repeat constructor; simpl; intuition discriminate.
  - destruct (registerClient_adds_member 9%Z
                (mkFs None (Some ClientUnparsable) [])) as (_ & _ & _ & _ & _ & H & _).
    apply H. reflexivity.
Defined.

Lemma unregisterClient_unreadable (p : pid) (s : fsState) :
  clientSlot s = None \/ clientSlot s = Some ClientUnparsable ->
  unregisterClient p s
  = (Ok [], mkFs (lockSlot s) (clientSlot s) (trace s ++ [OpRead ClientFile])).
Proof.
  intros [Hc|Hc]; unfold_fs; simpl; rewrite Hc; reflexivity.
Qed.

Lemma without_idem (p : pid) (l : list pid) : without p (without p l) = without p l.
Proof.
  unfold without. induction l as [|q l IH]; simpl; [reflexivity|].
  destruct (negb (Z.eqb q p)) eqn:Hq; simpl; rewrite ?Hq, IH; reflexivity.
Qed.

(** X8. On a client file holding a list, [unregisterClient] returns the list
    without the identifier (every occurrence removed, the others in their
    order), which is also what the registry then holds; the file is deleted
    exactly when nothing remains; the lock file is untouched. Unregistering
    again returns the same list and leaves both files as they are. *)
Theorem unregisterClient_removes_member (p : pid) (s : fsState) (l : list pid) :
  clientSlot s = Some (ClientList l) ->
  fst (unregisterClient p s) = Ok (without p l)
  /\ members (snd (unregisterClient p s)) = without p l
  /\ ~ In p (members (snd (unregisterClient p s)))
  /\ (forall q, q <> p -> (In q (members (snd (unregisterClient p s))) <-> In q l))
  /\ (clientSlot (snd (unregisterClient p s)) = None <-> without p l = [])
  /\ lockSlot (snd (unregisterClient p s)) = lockSlot s
  /\ fst (unregisterClient p (snd (unregisterClient p s))) = Ok (without p l)
  /\ clientSlot (snd (unregisterClient p (snd (unregisterClient p s))))
     = clientSlot (snd (unregisterClient p s)).
Proof.
  intros Hc. rewrite (unregisterClient_list p s l Hc). cbn [fst snd].
  assert (Hm : members (match without p l with
                        | [] => mkFs (lockSlot s) None
                                     (trace s ++ [OpRead ClientFile; OpUnlink ClientFile])
                        | _ :: _ => mkFs (lockSlot s) (Some (ClientList (without p l)))
                                         (trace s ++ [OpRead ClientFile; OpWrite ClientFile])
                        end) = without p l).
  { destruct (without p l); reflexivity. }
  split; [reflexivity|]. split; [exact Hm|].
  split; [rewrite Hm; intros Hin; apply without_In in Hin; tauto|].
  split; [intros q Hq; rewrite Hm, without_In; tauto|].
  split; [destruct (without p l); simpl; split; congruence|].
  split; [destruct (without p l); reflexivity|].
  destruct (without p l) as [|a r] eqn:Hw.
  - split; reflexivity.
  - rewrite (unregisterClient_list p
               (mkFs (lockSlot s) (Some (ClientList (a :: r)))
                     (trace s ++ [OpRead ClientFile; OpWrite ClientFile]))
               (a :: r) eq_refl).
    rewrite <- Hw, without_idem, Hw. split; reflexivity.
Qed.

Lemma unregisterClient_removes_member_witness :
  fst (unregisterClient 8%Z (mkFs None (Some (ClientList [7%Z; 8%Z; 9%Z; 8%Z])) []))
  = Ok [7%Z; 9%Z].
Proof.
  apply (unregisterClient_removes_member 8%Z
           (mkFs None (Some (ClientList [7%Z; 8%Z; 9%Z; 8%Z])) [])
           [7%Z; 8%Z; 9%Z; 8%Z] eq_refl).
Defined.

(** *** What the registry functions keep *)

Lemma registryStep_wf (c : registry_call) (s : fsState) :
  registryWf s -> registryWf (registryStep c s).
Proof.
  unfold registryWf. intros Hwf. destruct c as [p|p|e]; cbn [registryStep].
  - rewrite registerClient_eq. unfold members.
    destruct (clientSlot s) as [[l|]|] eqn:Hc; try contradiction.
    + destruct (includes l p) eqn:Hi; cbn [snd clientSlot].
      * exact Hwf.
      * split; [intros H; apply app_eq_nil in H; destruct H; discriminate|].
        apply NoDup_app; [tauto|repeat constructor; intros []|].
        intros a Ha [<-|[]]. apply includes_In in Ha. congruence.
    + cbn [includes existsb snd clientSlot app].
      split; [discriminate|repeat constructor; intros []].
  - destruct (clientSlot s) as [[l|]|] eqn:Hc; try contradiction.
    + rewrite (unregisterClient_list p s l Hc). cbn [snd].
      destruct (without p l) as [|a r] eqn:Hw; cbn [clientSlot]; [exact I|].
      split; [discriminate|]. rewrite <- Hw. apply NoDup_filter. tauto.
    + rewrite (unregisterClient_unreadable p s (or_introl Hc)).
      cbn [snd clientSlot]. rewrite Hc. exact I.
  - destruct (cleanupStaleClients_total e s) as (_ & _ & H). rewrite H.
    destruct (clientSlot s) as [[l|]|] eqn:Hc; try contradiction; [|exact I].
    destruct (aliveOf e l) as [|a r] eqn:Ha.
    + destruct l; [tauto|exact I].
    + split; [discriminate|]. rewrite <- Ha. apply NoDup_filter. tauto.
Qed.

(** X9. The program never stores an empty list, a duplicate or unparsable
    text in the client file: from a client file that is missing or holds a
    non-empty list without duplicates, every sequence of [registerClient],
    [unregisterClient] and [cleanupStaleClients] calls, with any identifiers
    and any liveness answers, leaves it missing or holding a non-empty list
    without duplicates. *)
Theorem registry_calls_keep_wellformed (cs : list registry_call) (s : fsState) :
  registryWf s -> registryWf (runRegistry cs s).
Proof.
  revert s. induction cs as [|c cs IH]; intros s Hwf; [exact Hwf|].
  cbn [runRegistry]. apply IH. apply registryStep_wf. exact Hwf.
Qed.

Lemma registry_calls_keep_wellformed_witness :
  registryWf (runRegistry [Register 7%Z; Register 8%Z; Register 7%Z;
                           Prune (mkEnv (fun q => Z.eqb q 8) 0%Z None None);
                           Unregister 8%Z; Register 9%Z] emptyStore).
Proof.
  apply registry_calls_keep_wellformed. exact I.
Defined.

Lemma filter_idem {A} (f : A -> bool) (l : list A) :
  filter f (filter f l) = filter f l.
Proof.
  induction l as [|a l IH]; [reflexivity|].
  cbn [filter]. destruct (f a) eqn:Hf; [|exact IH].
  cbn [filter]. rewrite Hf, IH. reflexivity.
Qed.

Lemma aliveOf_idem (e : env) (l : list pid) : aliveOf e (aliveOf e l) = aliveOf e l.
Proof.
  apply filter_idem.
Qed.

Lemma cleanupStaleClients_eq (e : env) (s : fsState) :
  cleanupStaleClients e s
  = (Ok (aliveOf e (members s)),
     match clientSlot s with
     | Some (ClientList l) =>
         if (List.length (aliveOf e l) =? List.length l)%nat
         then mkFs (lockSlot s) (clientSlot s) (trace s ++ [OpRead ClientFile])
         else match aliveOf e l with
              | [] => mkFs (lockSlot s) None
                           (trace s ++ [OpRead ClientFile; OpUnlink ClientFile])
              | _ :: _ => mkFs (lockSlot s) (Some (ClientList (aliveOf e l)))
                               (trace s ++ [OpRead ClientFile; OpWrite ClientFile])
              end
     | _ => mkFs (lockSlot s) (clientSlot s) (trace s ++ [OpRead ClientFile])
     end).
Proof.
  unfold members, aliveOf. unfold_fs. simpl.
  destruct (clientSlot s) as [[l|]|] eqn:Hc; simpl; try reflexivity.
  destruct (List.length (filter (fun q => procs e q) l) =? List.length l)%nat; simpl.
  - reflexivity.
  - destruct (filter (fun q => procs e q) l); simpl; rewrite <- app_assoc; reflexivity.
Qed.

(** X10. Pruning twice under the same liveness answers is pruning once: the
    second [cleanupStaleClients] returns the same list as the first, only
    reads, and leaves both files as the first left them. What a call returns
    are the stored members that are alive, in their stored order. *)
Theorem cleanupStaleClients_idempotent (e : env) (s : fsState) :
  let s1 := snd (cleanupStaleClients e s) in
  fst (cleanupStaleClients e s1) = fst (cleanupStaleClients e s)
  /\ clientSlot (snd (cleanupStaleClients e s1)) = clientSlot s1
  /\ lockSlot (snd (cleanupStaleClients e s1)) = lockSlot s
  /\ trace (snd (cleanupStaleClients e s1)) = trace s1 ++ [OpRead ClientFile]
  /\ (forall r, fst (cleanupStaleClients e s) = Ok r ->
      r = filter (procs e) (members s)).
Proof.
  cbv zeta.
  split; [|split; [|split; [|split]]];
    try (intros r Hr; rewrite (cleanupStaleClients_eq e s) in Hr;
         inversion Hr; reflexivity).
  - rewrite (cleanupStaleClients_eq e (snd (cleanupStaleClients e s))).
    rewrite (cleanupStaleClients_eq e s). cbn [fst snd]. f_equal.
    destruct s as [lk [[l|]|] tr]; unfold members; cbn [clientSlot]; try reflexivity.
    destruct (Nat.eqb_spec (List.length (aliveOf e l)) (List.length l)) as [Heq|Hne].
    + cbn [clientSlot]. rewrite (filter_length_eq _ _ Heq : aliveOf e l = l).
      reflexivity.
    + destruct (aliveOf e l) as [|a r] eqn:Ha; cbn [clientSlot]; [reflexivity|].
      rewrite <- Ha. apply aliveOf_idem.
  - rewrite (cleanupStaleClients_eq e (snd (cleanupStaleClients e s))).
    rewrite (cleanupStaleClients_eq e s). cbn [fst snd].
    destruct s as [lk [[l|]|] tr]; cbn [clientSlot]; try reflexivity.
    destruct (Nat.eqb_spec (List.length (aliveOf e l)) (List.length l)) as [Heq|Hne].
    + cbn [clientSlot]. apply Nat.eqb_eq in Heq. rewrite Heq. reflexivity.
    + destruct (aliveOf e l) as [|a r] eqn:Ha; cbn [clientSlot]; [reflexivity|].
      rewrite <- Ha, aliveOf_idem, Nat.eqb_refl. reflexivity.
  - rewrite (cleanupStaleClients_eq e (snd (cleanupStaleClients e s))).
    rewrite (cleanupStaleClients_eq e s). cbn [fst snd].
    destruct s as [lk [[l|]|] tr]; cbn [clientSlot lockSlot]; try reflexivity.
    destruct (Nat.eqb_spec (List.length (aliveOf e l)) (List.length l)) as [Heq|Hne].
    + cbn [clientSlot lockSlot]. apply Nat.eqb_eq in Heq. rewrite Heq. reflexivity.
    + destruct (aliveOf e l) as [|a r] eqn:Ha; cbn [clientSlot lockSlot]; [reflexivity|].
      rewrite <- Ha, aliveOf_idem, Nat.eqb_refl. reflexivity.
  - rewrite (cleanupStaleClients_eq e (snd (cleanupStaleClients e s))).
    rewrite (cleanupStaleClients_eq e s). cbn [fst snd].
    destruct s as [lk [[l|]|] tr]; cbn [clientSlot trace]; try reflexivity.
    destruct (Nat.eqb_spec (List.length (aliveOf e l)) (List.length l)) as [Heq|Hne].
    + cbn [clientSlot trace]. apply Nat.eqb_eq in Heq. rewrite Heq. reflexivity.
    + destruct (aliveOf e l) as [|a r] eqn:Ha; cbn [clientSlot trace]; [reflexivity|].
      rewrite <- Ha, aliveOf_idem, Nat.eqb_refl. reflexivity.
Qed.

Lemma cleanupStaleClients_idempotent_witness :
  [5%Z] = filter (procs (mkEnv (fun q => Z.eqb q 5) 0%Z None None))
                 (members (mkFs None (Some (ClientList [4%Z; 5%Z; 6%Z])) [])).
Proof.
  destruct (cleanupStaleClients_idempotent (mkEnv (fun q => Z.eqb q 5) 0%Z None None)
              (mkFs None (Some (ClientList [4%Z; 5%Z; 6%Z])) []))
    as (_ & _ & _ & _ & H).
  apply H. reflexivity.
Defined.

(** ** Watcher runtime, continued *)

Lemma syncAll_eq (e : env) (dirs : list string) (s : fsState) :
  isSyncDisabled e = false ->
  syncAll e dirs s
  = (Ok tt, mkFs (lockSlot s) (clientSlot s) (trace s ++ map OpSync dirs)).
Proof.
  intros Hd. revert s. induction dirs as [|d ds IH]; intros s.
  - simpl. unfold ret. rewrite app_nil_r. destruct s; reflexivity.
  - cbn [syncAll]. unfold bind, syncDeps. rewrite Hd. unfold logOp.
    rewrite IH. cbn [lockSlot clientSlot trace map].
    rewrite <- app_assoc. reflexivity.
Qed.

Lemma setupWatcher_known (c : collab) (d : string) (st : watchState) (s : fsState) :
  In d (watchers st) -> setupWatcher c d st s = (Ok st, s).
Proof.
  intros Hin. unfold setupWatcher.
  assert (H : existsb (String.eqb d) (watchers st) = true).
  { apply existsb_exists. exists d. split; [exact Hin|apply String.eqb_refl]. }
  rewrite H. reflexivity.
Qed.

Lemma setupWatcher_new (c : collab) (d : string) (st : watchState) (s : fsState) :
  ~ In d (watchers st) -> watchable c d = true ->
  setupWatcher c d st s
  = (Ok (mkWatch (watchers st ++ [d]) (debounceTimers st) (checkInterval st)),
     mkFs (lockSlot s) (clientSlot s) (trace s ++ [OpWatch d])).
Proof.
  intros Hnin Hw. unfold setupWatcher.
  assert (H : existsb (String.eqb d) (watchers st) = false).
  { apply not_true_is_false. intros H. apply existsb_exists in H.
    destruct H as (x & Hin & Hx). apply String.eqb_eq in Hx. subst. contradiction. }
  rewrite H. unfold bind, logOp, ret. rewrite Hw. reflexivity.
Qed.

(** What [setupAll] does on watchable directories. *)
Lemma setupAll_added
      (c : collab) (dirs : list string) (st : watchState) (s : fsState) :
  (forall d, In d dirs -> watchable c d = true) ->
  NoDup (watchers st) ->
  exists added,
    setupAll c dirs st s
    = (Ok (mkWatch (watchers st ++ added) (debounceTimers st) (checkInterval st)),
       mkFs (lockSlot s) (clientSlot s) (trace s ++ map OpWatch added))
    /\ NoDup (watchers st ++ added)
    /\ (forall d, In d (watchers st ++ added) <-> In d (watchers st) \/ In d dirs).
Proof.
  revert st s. induction dirs as [|d ds IH]; intros st s Hw Hnd.
  - exists []. cbn [setupAll map]. unfold ret. rewrite !app_nil_r.
    destruct st, s. repeat split; auto. intros [H|[]]; exact H.
  - cbn [setupAll]. unfold bind.
    destruct (in_dec string_dec d (watchers st)) as [Hin|Hnin].
    + rewrite (setupWatcher_known c d st s Hin).
      destruct (IH st s (fun x Hx => Hw x (or_intror Hx)) Hnd) as (added & He & Hn & Hi).
      exists added. split; [exact He|]. split; [exact Hn|].
      intros x. rewrite Hi. simpl. split; [tauto|].
      intros [H|[<-|H]]; auto.
    + rewrite (setupWatcher_new c d st s Hnin (Hw d (or_introl eq_refl))).
      assert (Hnd' : NoDup (watchers st ++ [d])).
      { apply NoDup_app; [exact Hnd|repeat constructor; intros []|].
        intros a Ha [<-|[]]. contradiction. }
      destruct (IH (mkWatch (watchers st ++ [d]) (debounceTimers st) (checkInterval st))
                   (mkFs (lockSlot s) (clientSlot s) (trace s ++ [OpWatch d]))
                   (fun x Hx => Hw x (or_intror Hx)) Hnd') as (added & He & Hn & Hi).
      cbn [watchers debounceTimers checkInterval lockSlot clientSlot trace] in *.
      exists (d :: added). rewrite He.
      rewrite <- !app_assoc in *. cbn [app map] in *.
      split; [reflexivity|]. split; [exact Hn|].
      intros x. rewrite Hi. rewrite in_app_iff. simpl. tauto.
Qed.


Lemma NoDup_app_disjoint {A} (l l' : list A) :
  NoDup (l ++ l') -> forall x, In x l' -> ~ In x l.
Proof.
  induction l as [|a l IH]; intros Hnd x Hx Hin; [exact Hin|].
  cbn [app] in Hnd. inversion Hnd as [|y ys Hnin Hnd']; subst.
  destruct Hin as [->|Hin].
  - apply Hnin. apply in_or_app. now right.
  - exact (IH Hnd' x Hx Hin).
Qed.

(** X11. Setting up watchers over a list of watchable directories opens one
    [fs.watch] handle per distinct directory: a directory that is already
    watched, or listed twice, is skipped without a call. Afterwards the
    watched directories are exactly the earlier ones and the listed ones,
    without duplicates, and the [fs.watch] calls made are those for the newly
    watched directories, in order, none of which was watched before. The two
    coordination files are not touched. *)
Theorem setupAll_watches_each_once
        (c : collab) (dirs : list string) (st : watchState) (s : fsState) :
  (forall d, In d dirs -> watchable c d = true) ->
  NoDup (watchers st) ->
  exists added,
    setupAll c dirs st s
    = (Ok (mkWatch (watchers st ++ added) (debounceTimers st) (checkInterval st)),
       mkFs (lockSlot s) (clientSlot s) (trace s ++ map OpWatch added))
    /\ NoDup (watchers st ++ added)
    /\ (forall d, In d (watchers st ++ added) <-> In d (watchers st) \/ In d dirs)
    /\ NoDup added
    /\ (forall d, In d added -> In d dirs /\ ~ In d (watchers st)).
Proof.
  intros Hw Hnd.
  destruct (setupAll_added c dirs st s Hw Hnd) as (added & He & Hn & Hi).
  exists added. split; [exact He|]. split; [exact Hn|]. split; [exact Hi|].
  split; [exact (NoDup_app_remove_l _ _ Hn)|].
  intros d Hd. assert (Hnot : ~ In d (watchers st))
    by exact (NoDup_app_disjoint _ _ Hn d Hd).
  split; [|exact Hnot].
  destruct (proj1 (Hi d) (in_or_app _ _ _ (or_intror Hd))) as [H|H];
    [contradiction|exact H].
Qed.

Lemma setupAll_watches_each_once_witness :
  exists added,
    setupAll onePackage ["/w/a"; "/w/b"; "/w/a"]%string (mkWatch ["/w/b"%string] [] false)
             emptyStore
    = (Ok (mkWatch (["/w/b"%string] ++ added) [] false),
       mkFs None None ([] ++ map OpWatch added))
    /\ NoDup (["/w/b"%string] ++ added)
    /\ (forall d, In d (["/w/b"%string] ++ added)
                  <-> In d ["/w/b"%string] \/ In d ["/w/a"; "/w/b"; "/w/a"]%string)
    /\ NoDup added
    /\ (forall d, In d added ->
                  In d ["/w/a"; "/w/b"; "/w/a"]%string /\ ~ In d ["/w/b"%string]).
Proof.
  apply (setupAll_watches_each_once onePackage ["/w/a"; "/w/b"; "/w/a"]%string
           (mkWatch ["/w/b"%string] [] false) emptyStore).
  - intros d _. reflexivity.
  - repeat constructor. intros [].
Defined.

Lemma startWatcherMode_started (e : env) (c : collab) (p : pid) (s : fsState)
      (d : string) (ds : list string) :
  isSyncDisabled e = false ->
  injectedDeps c = Some (d :: ds) ->
  (forall x, In x (d :: ds) -> watchable c x = true) ->
  exists ws,
    startWatcherMode e c p s
    = (Ok (mkWatch ws [] true),
       mkFs (lockSlot s) (clientSlot (snd (registerClient p s)))
            (trace (snd (registerClient p s))
               ++ map OpSync (d :: ds) ++ map OpWatch ws))
    /\ NoDup ws
    /\ (forall x, In x ws <-> In x (d :: ds)).
Proof.
  intros Hd Hdirs Hw.
  destruct (setupAll_added c (d :: ds) (mkWatch [] [] false)
              (mkFs (lockSlot s) (clientSlot (snd (registerClient p s)))
                    (trace (snd (registerClient p s)) ++ map OpSync (d :: ds)))
              Hw (NoDup_nil _)) as (ws & He & Hn & Hi).
  cbn [watchers debounceTimers checkInterval app lockSlot clientSlot trace] in *.
  exists ws. split; [|split; [exact Hn|]].
  - unfold startWatcherMode, getInjectedDepsDirs. rewrite Hdirs.
    unfold bind at 1. unfold ret at 1. cbn [List.length Nat.eqb].
    unfold bind at 1. rewrite registerClient_eq.
    unfold bind at 1. rewrite (syncAll_eq e (d :: ds) _ Hd).
    unfold bind at 1.
    rewrite registerClient_eq in He.
    destruct (includes (members s) p); cbn [snd lockSlot clientSlot trace] in *;
      rewrite He; unfold ret; cbn [watchers debounceTimers];
      rewrite <- app_assoc; reflexivity.
  - intros x. rewrite Hi. simpl. tauto.
Qed.

(** X12. When syncing is enabled and the manifest lists at least one
    directory, all of them watchable, [startWatcherMode] succeeds: it
    registers the process itself as a client, then runs the synchronize action
    once for every listed directory in order, and only then opens the
    watchers, one per distinct directory; it returns a state with no pending
    timer and the reaper armed, and leaves the lock file as it was. *)
Theorem startWatcherMode_success (e : env) (c : collab) (p : pid) (s : fsState)
        (d : string) (ds : list string) :
  isSyncDisabled e = false ->
  injectedDeps c = Some (d :: ds) ->
  (forall x, In x (d :: ds) -> watchable c x = true) ->
  exists ws,
    fst (startWatcherMode e c p s) = Ok (mkWatch ws [] true)
    /\ NoDup ws
    /\ (forall x, In x ws <-> In x (d :: ds))
    /\ In p (members (snd (startWatcherMode e c p s)))
    /\ lockSlot (snd (startWatcherMode e c p s)) = lockSlot s
    /\ trace (snd (startWatcherMode e c p s))
       = trace (snd (registerClient p s)) ++ map OpSync (d :: ds) ++ map OpWatch ws.
Proof.
  intros Hd Hdirs Hw.
  destruct (startWatcherMode_started e c p s d ds Hd Hdirs Hw) as (ws & He & Hn & Hi).
  exists ws. rewrite He. cbn [fst snd lockSlot trace].
  repeat (split; [first [reflexivity | assumption]|]).
  split; [|split; reflexivity].
  apply (registerClient_member p s).
Qed.

Lemma startWatcherMode_success_witness :
  exists ws,
    fst (startWatcherMode allAlive onePackage 7%Z
           (mkFs (Some (LockRecord 7%Z 0%Z)) None [])) = Ok (mkWatch ws [] true)
    /\ NoDup ws
    /\ (forall x, In x ws <-> In x ["/w/pkg"%string])
    /\ In 7%Z (members (snd (startWatcherMode allAlive onePackage 7%Z
                               (mkFs (Some (LockRecord 7%Z 0%Z)) None []))))
    /\ lockSlot (snd (startWatcherMode allAlive onePackage 7%Z
                        (mkFs (Some (LockRecord 7%Z 0%Z)) None [])))
       = Some (LockRecord 7%Z 0%Z)
    /\ trace (snd (startWatcherMode allAlive onePackage 7%Z
                     (mkFs (Some (LockRecord 7%Z 0%Z)) None [])))
       = trace (snd (registerClient 7%Z (mkFs (Some (LockRecord 7%Z 0%Z)) None [])))
           ++ map OpSync ["/w/pkg"%string] ++ map OpWatch ws.
Proof.
  apply (startWatcherMode_success allAlive onePackage 7%Z
           (mkFs (Some (LockRecord 7%Z 0%Z)) None []) "/w/pkg"%string []).
  - reflexivity.
  - reflexivity.
  - intros x _. reflexivity.
Defined.

Lemma startWatcherMode_empty (e : env) (c : collab) (p : pid) (s : fsState) :
  injectedDeps c = Some [] ->
  startWatcherMode e c p s
  = (Throw (match lockSlot s with
            | Some _ => NoInjectedDeps
            | None => SysError ENOENT
            end),
     mkFs None (clientSlot s) (trace s ++ [OpUnlink LockFile])).
Proof.
  intros Hdirs. unfold startWatcherMode, getInjectedDepsDirs. rewrite Hdirs.
  unfold_fs. simpl. destruct (lockSlot s); reflexivity.
Qed.

(** X13. When the manifest lists no directory, [startWatcherMode] removes
    the lock file and throws its own error, without registering, syncing or
    watching anything; if the lock file is already missing, the [ENOENT] of
    the removal is what it throws. When reading the manifest fails, that
    failure is thrown before any call is made, and the lock file stays. *)
Theorem startWatcherMode_nothing_to_watch (e : env) (c : collab) (p : pid) (s : fsState) :
  (injectedDeps c = Some [] ->
     startWatcherMode e c p s
     = (Throw (match lockSlot s with
               | Some _ => NoInjectedDeps
               | None => SysError ENOENT
               end),
        mkFs None (clientSlot s) (trace s ++ [OpUnlink LockFile])))
  /\ (injectedDeps c = None ->
      startWatcherMode e c p s = (Throw ManifestError, s)).
Proof.
  split; intros Hdirs; unfold startWatcherMode, getInjectedDepsDirs; rewrite Hdirs.
  - unfold_fs. simpl. destruct (lockSlot s); reflexivity.
  - reflexivity.
Qed.

Lemma startWatcherMode_nothing_to_watch_witness :
  startWatcherMode allAlive nothingToWatch 7%Z (mkFs (Some (LockRecord 7%Z 0%Z)) None [])
  = (Throw NoInjectedDeps, mkFs None None [OpUnlink LockFile]).
Proof.
  apply (proj1 (startWatcherMode_nothing_to_watch allAlive nothingToWatch 7%Z
                  (mkFs (Some (LockRecord 7%Z 0%Z)) None []))).
  reflexivity.
Defined.

(** ** Process supervisor, continued *)

Lemma unregisterClient_members (p : pid) (s : fsState) :
  fst (unregisterClient p s) = Ok (without p (members s))
  /\ members (snd (unregisterClient p s)) = without p (members s)
  /\ lockSlot (snd (unregisterClient p s)) = lockSlot s.
Proof.
  unfold members at 1 3. destruct (clientSlot s) as [[l|]|] eqn:Hc.
  - rewrite (unregisterClient_list p s l Hc). cbn [fst snd].
    destruct (without p l); repeat split.
  - rewrite (unregisterClient_unreadable p s (or_intror Hc)).
    unfold members. cbn [fst snd clientSlot lockSlot]. rewrite Hc. repeat split.
  - rewrite (unregisterClient_unreadable p s (or_introl Hc)).
    unfold members. cbn [fst snd clientSlot lockSlot]. rewrite Hc. repeat split.
Qed.

(** X14. When the child of a leader exits (no signal was received before),
    the leader unregisters itself, stops its watchers, timers and reaper,
    removes the lock file and exits with [code || 0], without looking at who
    else is registered: whenever the lock file was present, the client file is
    removed too, with the other clients' entries in it. *)
Theorem leader_child_exit_tears_down
        (e : env) (p : pid) (code : option Z) (sg : option signal)
        (pr : proc) (st : watchState) (s : fsState) :
  exited pr = None -> isExiting pr = false ->
  isWatcher pr = true -> state pr = Some st ->
  exists pr',
    fst (step e p (ChildExit code sg) pr s) = Ok pr'
    /\ exited pr' = Some (orZero code)
    /\ state pr' = Some (mkWatch [] [] false)
    /\ promotionCheckInterval pr' = false
    /\ keepAlive pr' = false
    /\ lockSlot (snd (step e p (ChildExit code sg) pr s)) = None
    /\ (lockSlot s <> None ->
        clientSlot (snd (step e p (ChildExit code sg) pr s)) = None).
Proof.
  intros Hrun Hex Hw Hst. unfold step. rewrite Hrun. unfold onChildExit.
  rewrite Hex. unfold leaderState. rewrite Hw, Hst. unfold bind.
  destruct (unregisterClient_members p s) as (Hr & _ & Hl).
  destruct (unregisterClient p s) as [[r|x] s1]; cbn [fst snd] in *; [|discriminate].
  destruct (removeCoordinationFiles_spec s1) as (Hok & Hl2 & Hc2).
  destruct (removeCoordinationFiles s1) as [[u|x] s2]; cbn [fst snd] in *; [|discriminate].
  unfold ret. cbn [fst snd]. eexists. split; [reflexivity|]. cbn.
  repeat (split; [reflexivity|]). split; [exact Hl2|].
  intros Hne. rewrite Hc2, Hl. destruct (lockSlot s); [reflexivity|congruence].
Qed.

Lemma leader_child_exit_tears_down_witness :
  exists pr',
    fst (step allAlive 7%Z (ChildExit (Some 2%Z) None) (leaderProc false)
           (mkFs (Some (LockRecord 7%Z 0%Z)) (Some (ClientList [7%Z; 8%Z; 9%Z])) []))
    = Ok pr'
    /\ exited pr' = Some 2%Z
    /\ state pr' = Some (mkWatch [] [] false)
    /\ promotionCheckInterval pr' = false
    /\ keepAlive pr' = false
    /\ lockSlot (snd (step allAlive 7%Z (ChildExit (Some 2%Z) None) (leaderProc false)
           (mkFs (Some (LockRecord 7%Z 0%Z)) (Some (ClientList [7%Z; 8%Z; 9%Z])) [])))
       = None
    /\ (Some (LockRecord 7%Z 0%Z) <> None ->
        clientSlot (snd (step allAlive 7%Z (ChildExit (Some 2%Z) None) (leaderProc false)
           (mkFs (Some (LockRecord 7%Z 0%Z)) (Some (ClientList [7%Z; 8%Z; 9%Z])) [])))
        = None).
Proof.
  exact (leader_child_exit_tears_down allAlive 7%Z (Some 2%Z) None (leaderProc false)
           (mkWatch ["/w/pkg"%string] [] true)
           (mkFs (Some (LockRecord 7%Z 0%Z)) (Some (ClientList [7%Z; 8%Z; 9%Z])) [])
           eq_refl eq_refl eq_refl eq_refl).
Defined.

(** X15. When the child of a process that is not a running leader exits (no
    signal before), the process removes its own identifier from the registry,
    keeps every other member, never touches the lock file, cancels its
    promotion check and exits with [code || 0]. *)
Theorem client_child_exit_unregisters
        (e : env) (p : pid) (code : option Z) (sg : option signal)
        (pr : proc) (s : fsState) :
  exited pr = None -> isExiting pr = false -> leaderState pr = None ->
  exists pr',
    fst (step e p (ChildExit code sg) pr s) = Ok pr'
    /\ exited pr' = Some (orZero code)
    /\ promotionCheckInterval pr' = false
    /\ state pr' = state pr
    /\ members (snd (step e p (ChildExit code sg) pr s)) = without p (members s)
    /\ lockSlot (snd (step e p (ChildExit code sg) pr s)) = lockSlot s.
Proof.
  intros Hrun Hex Hls. unfold step. rewrite Hrun. unfold onChildExit.
  rewrite Hex, Hls. unfold bind.
  destruct (unregisterClient_members p s) as (Hr & Hm & Hl).
  destruct (unregisterClient p s) as [[r|x] s1]; cbn [fst snd] in *; [|discriminate].
  unfold ret. cbn [fst snd]. eexists. split; [reflexivity|]. cbn. auto.
Qed.

Lemma client_child_exit_unregisters_witness :
  exists pr',
    fst (step allAlive 8%Z (ChildExit (Some 0%Z) None)
           (mkProc false None true false false None None true None)
           (mkFs (Some (LockRecord 7%Z 0%Z)) (Some (ClientList [7%Z; 8%Z; 9%Z])) []))
    = Ok pr'
    /\ exited pr' = Some 0%Z
    /\ promotionCheckInterval pr' = false
    /\ state pr' = None
    /\ members (snd (step allAlive 8%Z (ChildExit (Some 0%Z) None)
           (mkProc false None true false false None None true None)
           (mkFs (Some (LockRecord 7%Z 0%Z)) (Some (ClientList [7%Z; 8%Z; 9%Z])) [])))
       = without 8%Z [7%Z; 8%Z; 9%Z]
    /\ lockSlot (snd (step allAlive 8%Z (ChildExit (Some 0%Z) None)
           (mkProc false None true false false None None true None)
           (mkFs (Some (LockRecord 7%Z 0%Z)) (Some (ClientList [7%Z; 8%Z; 9%Z])) [])))
       = Some (LockRecord 7%Z 0%Z).
Proof.
  exact (client_child_exit_unregisters allAlive 8%Z (Some 0%Z) None
           (mkProc false None true false false None None true None)
           (mkFs (Some (LockRecord 7%Z 0%Z)) (Some (ClientList [7%Z; 8%Z; 9%Z])) [])
           eq_refl eq_refl eq_refl).
Defined.

(** X16. A child that was terminated by a signal reports no exit code, and
    the supervisor then exits with code 0, whether or not it had forwarded
    that signal itself: the death of the child by a signal is reported as
    success. *)
Theorem child_killed_by_signal_exits_zero
        (e : env) (p : pid) (sg : signal) (pr : proc) (s : fsState) :
  exited pr = None ->
  exists pr',
    fst (step e p (ChildExit None (Some sg)) pr s) = Ok pr'
    /\ exited pr' = Some 0%Z
    /\ childExitCode pr' = None.
Proof.
  intros Hrun. unfold step. rewrite Hrun.
  destruct (onChildExit_exits p None pr s) as (pr' & H1 & H2 & _ & H3).
  exists pr'. auto.
Qed.

Lemma child_killed_by_signal_exits_zero_witness :
  exists pr',
    fst (step allAlive 7%Z (ChildExit None (Some SIGTERM)) (leaderProc false)
           (mkFs (Some (LockRecord 7%Z 0%Z)) (Some (ClientList [7%Z])) [])) = Ok pr'
    /\ exited pr' = Some 0%Z
    /\ childExitCode pr' = None.
Proof.
  exact (child_killed_by_signal_exits_zero allAlive 7%Z SIGTERM (leaderProc false)
           (mkFs (Some (LockRecord 7%Z 0%Z)) (Some (ClientList [7%Z])) []) eq_refl).
Defined.

Lemma runSteps_signals_ignored (e : env) (p : pid) (sgs : list signal)
      (pr : proc) (s : fsState) :
  isExiting pr = true ->
  runSteps e p (map Signal sgs) pr s = (pr, s).
Proof.
  intros Hex. induction sgs as [|sg sgs IH]; [reflexivity|].
  cbn [map runSteps]. unfold step, onSignal. rewrite Hex.
  destruct (exited pr); unfold ret; exact IH.
Qed.

Lemma removeCoordinationFiles_kills (s : fsState) :
  filter isKillOp (trace (snd (removeCoordinationFiles s))) = filter isKillOp (trace s).
Proof.
  unfold_fs. simpl. destruct (lockSlot s); simpl.
  - destruct (clientSlot s); simpl; repeat rewrite filter_app; simpl;
      repeat rewrite app_nil_r; reflexivity.
  - rewrite filter_app. simpl. apply app_nil_r.
Qed.

Lemma unregisterClient_kills (p : pid) (s : fsState) :
  filter isKillOp (trace (snd (unregisterClient p s))) = filter isKillOp (trace s).
Proof.
  unfold_fs. simpl. destruct (clientSlot s) as [[l|]|]; simpl.
  - destruct (without p l); simpl; repeat rewrite filter_app; simpl;
      repeat rewrite app_nil_r; reflexivity.
  - rewrite filter_app. simpl. apply app_nil_r.
  - rewrite filter_app. simpl. apply app_nil_r.
Qed.

Lemma onSignal_kills (p : pid) (sg : signal) (pr : proc) (s : fsState) :
  isExiting pr = false ->
  filter isKillOp (trace (snd (onSignal p sg pr s)))
  = filter isKillOp (trace s) ++ [OpKill (signalName sg)].
Proof.
  intros Hex. unfold onSignal. rewrite Hex. unfold bind, logOp.
  destruct (leaderState pr) as [st|].
  - match goal with |- context [removeCoordinationFiles ?x] =>
      pose proof (removeCoordinationFiles_kills x) as Ht;
      destruct (removeCoordinationFiles x) as [[u|x0] s2] end;
      unfold ret; cbn [fst snd trace] in *; rewrite Ht, filter_app; reflexivity.
  - match goal with |- context [unregisterClient p ?x] =>
      pose proof (unregisterClient_kills p x) as Ht;
      destruct (unregisterClient p x) as [[u|x0] s2] end;
      unfold ret; cbn [fst snd trace] in *; rewrite Ht, filter_app; reflexivity.
Qed.

(** X17. Only the first termination signal acts. It is forwarded to the
    child once, the role is torn down once (leader) or the process is
    unregistered once (client), and the forced-exit timer is armed with that
    signal; every further signal, of any kind, changes nothing and makes no
    call. *)
Theorem signals_after_first_ignored
        (e : env) (p : pid) (sg : signal) (sgs : list signal)
        (pr : proc) (s : fsState) :
  exited pr = None -> isExiting pr = false ->
  runSteps e p (map Signal (sg :: sgs)) pr s = runSteps e p [Signal sg] pr s
  /\ forcedExit (fst (runSteps e p (map Signal (sg :: sgs)) pr s)) = Some sg
  /\ filter isKillOp (trace (snd (runSteps e p (map Signal (sg :: sgs)) pr s)))
     = filter isKillOp (trace s) ++ [OpKill (signalName sg)].
Proof.
  intros Hrun Hex.
  destruct (onSignal_arms p sg pr s Hex) as (pr1 & H1 & Hf & Hex1 & _ & _).
  assert (Hone : runSteps e p [Signal sg] pr s = (pr1, snd (onSignal p sg pr s))).
  { cbn [runSteps]. unfold step. rewrite Hrun.
    destruct (onSignal p sg pr s) as [r s1]. cbn [fst snd] in *. subst r. reflexivity. }
  assert (Hall : runSteps e p (map Signal (sg :: sgs)) pr s
                 = (pr1, snd (onSignal p sg pr s))).
  { cbn [map runSteps]. unfold step at 1. rewrite Hrun.
    destruct (onSignal p sg pr s) as [r s1]. cbn [fst snd] in *. subst r.
    apply runSteps_signals_ignored. exact Hex1. }
  rewrite Hall, Hone. cbn [fst snd]. split; [reflexivity|]. split; [exact Hf|].
  apply onSignal_kills. exact Hex.
Qed.

Lemma signals_after_first_ignored_witness :
  forcedExit (fst (runSteps allAlive 7%Z (map Signal [SIGINT; SIGTERM; SIGINT])
                     (leaderProc false)
                     (mkFs (Some (LockRecord 7%Z 0%Z)) (Some (ClientList [7%Z])) [])))
  = Some SIGINT.
Proof.
  apply (signals_after_first_ignored allAlive 7%Z SIGINT [SIGTERM; SIGINT]
           (leaderProc false)
           (mkFs (Some (LockRecord 7%Z 0%Z)) (Some (ClientList [7%Z])) [])
           eq_refl eq_refl).
Defined.

(** X18. Teardown is not run twice. After a signal has been handled, the
    exit of the child makes no file-system call at all: the process exits at
    once with [code || 0], with the state the signal handler left. *)
Theorem child_exit_after_signal_exits_at_once
        (e : env) (p : pid) (sg : signal) (code : option Z) (sg' : option signal)
        (pr : proc) (s : fsState) :
  exited pr = None -> isExiting pr = false ->
  exists pr1 pr2,
    fst (step e p (Signal sg) pr s) = Ok pr1
    /\ step e p (ChildExit code sg') pr1 (snd (step e p (Signal sg) pr s))
       = (Ok pr2, snd (step e p (Signal sg) pr s))
    /\ exited pr2 = Some (orZero code)
    /\ state pr2 = state pr1.
Proof.
  intros Hrun Hex.
  destruct (onSignal_arms p sg pr s Hex) as (pr1 & H1 & _ & Hex1 & _ & Hx).
  unfold step at 1 3. rewrite Hrun.
  exists pr1. eexists. split; [exact H1|].
  unfold step. rewrite Hx, Hrun. unfold onChildExit. rewrite Hex1. unfold ret.
  split; [reflexivity|]. split; reflexivity.
Qed.

Lemma child_exit_after_signal_exits_at_once_witness :
  exists pr1 pr2,
    fst (step allAlive 7%Z (Signal SIGINT) (leaderProc false)
           (mkFs (Some (LockRecord 7%Z 0%Z)) (Some (ClientList [7%Z])) [])) = Ok pr1
    /\ step allAlive 7%Z (ChildExit (Some 130%Z) (Some SIGINT)) pr1
            (snd (step allAlive 7%Z (Signal SIGINT) (leaderProc false)
                    (mkFs (Some (LockRecord 7%Z 0%Z)) (Some (ClientList [7%Z])) [])))
       = (Ok pr2, snd (step allAlive 7%Z (Signal SIGINT) (leaderProc false)
                         (mkFs (Some (LockRecord 7%Z 0%Z)) (Some (ClientList [7%Z])) [])))
    /\ exited pr2 = Some (orZero (Some 130%Z))
    /\ state pr2 = state pr1.
Proof.
  exact (child_exit_after_signal_exits_at_once allAlive 7%Z SIGINT (Some 130%Z)
           (Some SIGINT) (leaderProc false)
           (mkFs (Some (LockRecord 7%Z 0%Z)) (Some (ClientList [7%Z])) [])
           eq_refl eq_refl).
Defined.

(** ** Promotion ticks *)

Lemma tryPromote_takes_over (e : env) (p : pid) (s : fsState) :
  ownerDead e s \/ lockSlot s = None -> wxFault e = None ->
  exists tr,
    tryPromoteToWatcher e p s
    = (Ok true, mkFs (Some (LockRecord p (now e))) (clientSlot s) (trace s ++ tr)).
Proof.
  intros [Hd|Hn] Hf.
  - rewrite (tryPromote_owner_dead e p s Hd), Hf. eexists. reflexivity.
  - rewrite (tryPromote_absent e p s Hn Hf). eexists. reflexivity.
Qed.

(** X19. A promotion that finds nothing to watch ends the process's
    coordination for good. The tick acquires the lock, [startWatcherMode]
    removes it again and throws, and the process is left marked as watcher,
    without any watch state, with its promotion check cancelled and the lock
    file absent: every later promotion tick does nothing. *)
Theorem promotion_with_nothing_to_watch
        (e : env) (c : collab) (p : pid) (pr : proc) (s : fsState) :
  exited pr = None -> promotionCheckInterval pr = true ->
  ownerDead e s \/ lockSlot s = None -> wxFault e = None ->
  injectedDeps c = Some [] ->
  exists pr',
    fst (step e p (PromotionTick c) pr s) = Ok pr'
    /\ isWatcher pr' = true
    /\ state pr' = state pr
    /\ promotionCheckInterval pr' = false
    /\ exited pr' = None
    /\ lockSlot (snd (step e p (PromotionTick c) pr s)) = None
    /\ clientSlot (snd (step e p (PromotionTick c) pr s)) = clientSlot s
    /\ forall e' c' s', step e' p (PromotionTick c') pr' s' = (Ok pr', s').
Proof.
  intros Hrun Harm Hlock Hf Hdirs.
  destruct (tryPromote_takes_over e p s Hlock Hf) as (tr & Ht).
  assert (E : step e p (PromotionTick c) pr s
              = (Ok (mkProc true (state pr) false (childExited pr) (isExiting pr)
                            (childExitCode pr) (forcedExit pr) (keepAlive pr) (exited pr)),
                 mkFs None (clientSlot s) ((trace s ++ tr) ++ [OpUnlink LockFile]))).
  { unfold step. rewrite Hrun. unfold promotionTick. rewrite Harm.
    unfold bind at 1. rewrite Ht. unfold bind, try_catch.
    rewrite (startWatcherMode_empty e c p _ Hdirs).
    unfold ret. rewrite ?Hrun. reflexivity. }
  rewrite E. cbn [fst snd lockSlot clientSlot].
  eexists. split; [reflexivity|]. cbn [isWatcher state promotionCheckInterval exited].
  repeat (split; [first [reflexivity | exact Hrun]|]).
  intros e' c' s'. unfold step. cbn [exited]. rewrite Hrun. reflexivity.
Qed.

Lemma promotion_with_nothing_to_watch_witness :
  exists pr',
    fst (step noneAlive 8%Z (PromotionTick nothingToWatch)
           (mkProc false None true false false None None true None)
           (mkFs (Some (LockRecord 7%Z 0%Z)) (Some (ClientList [7%Z; 8%Z])) [])) = Ok pr'
    /\ isWatcher pr' = true
    /\ state pr' = None
    /\ promotionCheckInterval pr' = false.
Proof.
  destruct (promotion_with_nothing_to_watch noneAlive nothingToWatch 8%Z
              (mkProc false None true false false None None true None)
              (mkFs (Some (LockRecord 7%Z 0%Z)) (Some (ClientList [7%Z; 8%Z])) [])
              eq_refl eq_refl (or_introl eq_refl) eq_refl eq_refl)
    as (pr' & H1 & H2 & H3 & H4 & _).
  exists pr'. auto.
Defined.

Lemma promotionTick_started
      (e : env) (c : collab) (p : pid) (pr : proc) (s : fsState)
      (d : string) (ds : list string) :
  exited pr = None -> promotionCheckInterval pr = true ->
  ownerDead e s \/ lockSlot s = None -> wxFault e = None ->
  isSyncDisabled e = false ->
  injectedDeps c = Some (d :: ds) ->
  (forall x, In x (d :: ds) -> watchable c x = true) ->
  exists ws tr,
    filter isSyncOp tr = []
    /\ NoDup ws /\ (forall x, In x ws <-> In x (d :: ds))
    /\ step e p (PromotionTick c) pr s
       = (Ok (mkProc true (Some (mkWatch ws [] true)) false (childExited pr)
                     (isExiting pr) (childExitCode pr) (forcedExit pr)
                     (keepAlive pr) None),
          mkFs (Some (LockRecord p (now e)))
               (clientSlot (snd (registerClient p
                  (mkFs (Some (LockRecord p (now e))) (clientSlot s) (trace s ++ tr)))))
               (trace (snd (registerClient p
                  (mkFs (Some (LockRecord p (now e))) (clientSlot s) (trace s ++ tr))))
                  ++ map OpSync (d :: ds) ++ map OpWatch ws)).
Proof.
  intros Hrun Harm Hlock Hf Hd Hdirs Hw.
  destruct (tryPromote_takes_over e p s Hlock Hf) as (tr & Ht).
  assert (Htr : filter isSyncOp tr = []).
  { destruct Hlock as [Hdead|Hn].
    - rewrite (tryPromote_owner_dead e p s Hdead), Hf in Ht.
      inversion Ht as [Hx]. apply app_inv_head in Hx. subst tr. reflexivity.
    - rewrite (tryPromote_absent e p s Hn Hf) in Ht.
      inversion Ht as [Hx]. apply app_inv_head in Hx. subst tr. reflexivity. }
  destruct (startWatcherMode_started e c p
              (mkFs (Some (LockRecord p (now e))) (clientSlot s) (trace s ++ tr))
              d ds Hd Hdirs Hw) as (ws & He & Hn & Hi).
  exists ws, tr. split; [exact Htr|]. split; [exact Hn|]. split; [exact Hi|].
  unfold step. rewrite Hrun. unfold promotionTick. rewrite Harm.
  unfold bind at 1. rewrite Ht. unfold bind, try_catch. rewrite He.
  unfold ret. rewrite ?Hrun. reflexivity.
Qed.

(** X20. Failover. A client whose promotion check finds the lock owner not
    alive (or the lock file missing) takes the lock and starts the watcher
    runtime: after that one tick it is the watcher, its promotion check is
    cancelled, the lock file holds its own record, it is registered as a
    client, every listed directory has been synchronized and is watched once,
    and its reaper is armed. *)
Theorem promotion_takes_over_dead_leader
        (e : env) (c : collab) (p : pid) (pr : proc) (s : fsState)
        (d : string) (ds : list string) :
  exited pr = None -> promotionCheckInterval pr = true ->
  ownerDead e s \/ lockSlot s = None -> wxFault e = None ->
  isSyncDisabled e = false ->
  injectedDeps c = Some (d :: ds) ->
  (forall x, In x (d :: ds) -> watchable c x = true) ->
  exists pr' ws,
    fst (step e p (PromotionTick c) pr s) = Ok pr'
    /\ isWatcher pr' = true
    /\ promotionCheckInterval pr' = false
    /\ state pr' = Some (mkWatch ws [] true)
    /\ NoDup ws /\ (forall x, In x ws <-> In x (d :: ds))
    /\ lockSlot (snd (step e p (PromotionTick c) pr s)) = Some (LockRecord p (now e))
    /\ In p (members (snd (step e p (PromotionTick c) pr s)))
    /\ filter isSyncOp (trace (snd (step e p (PromotionTick c) pr s)))
       = filter isSyncOp (trace s) ++ map OpSync (d :: ds).
Proof.
  intros Hrun Harm Hlock Hf Hd Hdirs Hw.
  destruct (promotionTick_started e c p pr s d ds Hrun Harm Hlock Hf Hd Hdirs Hw)
    as (ws & tr & Htr & Hn & Hi & E).
  rewrite E. cbn [fst snd lockSlot trace].
  eexists. exists ws. split; [reflexivity|].
  cbn [isWatcher promotionCheckInterval state].
  repeat (split; [first [reflexivity | assumption]|]).
  split.
  - apply (registerClient_member p
             (mkFs (Some (LockRecord p (now e))) (clientSlot s) (trace s ++ tr))).
  - rewrite registerClient_eq.
    assert (Hsync : forall l, filter isSyncOp (map OpSync l) = map OpSync l)
      by (induction l as [|x xs IH]; simpl; [reflexivity|now rewrite IH]).
    assert (Hwatch : forall l, filter isSyncOp (map OpWatch l) = [])
      by (induction l as [|x xs IH]; simpl; auto).
    destruct (includes _ p); cbn [snd trace];
      repeat rewrite filter_app; rewrite Htr, Hsync, Hwatch; simpl;
      repeat rewrite app_nil_r; reflexivity.
Qed.

Lemma promotion_takes_over_dead_leader_witness :
  exists pr' ws,
    fst (step noneAlive 8%Z (PromotionTick onePackage)
           (mkProc false None true false false None None true None)
           (mkFs (Some (LockRecord 7%Z 0%Z)) (Some (ClientList [7%Z; 8%Z])) [])) = Ok pr'
    /\ isWatcher pr' = true
    /\ promotionCheckInterval pr' = false
    /\ state pr' = Some (mkWatch ws [] true).
Proof.
  destruct (promotion_takes_over_dead_leader noneAlive onePackage 8%Z
              (mkProc false None true false false None None true None)
              (mkFs (Some (LockRecord 7%Z 0%Z)) (Some (ClientList [7%Z; 8%Z])) [])
              "/w/pkg"%string []
              eq_refl eq_refl (or_introl eq_refl) eq_refl eq_refl eq_refl
              (fun x _ => eq_refl))
    as (pr' & ws & H1 & H2 & H3 & H4 & _).
  exists pr', ws. auto.
Defined.

(** ** Runs that stay out of the coordination *)

Lemma unregisterClient_no_leader_op (p : pid) (s : fsState) :
  exists r,
    fst (unregisterClient p s) = Ok r
    /\ lockSlot (snd (unregisterClient p s)) = lockSlot s
    /\ filter isLeaderOp (trace (snd (unregisterClient p s))) = filter isLeaderOp (trace s)
    /\ (clientSlot s = None -> clientSlot (snd (unregisterClient p s)) = None).
Proof.
  unfold_fs. simpl. destruct (clientSlot s) as [[l|]|]; simpl.
  - destruct (without p l); simpl; eexists; repeat rewrite filter_app; simpl;
      repeat rewrite app_nil_r; repeat split; discriminate.
  - eexists. rewrite filter_app. simpl. rewrite app_nil_r. repeat split. discriminate.
  - eexists. rewrite filter_app. simpl. rewrite app_nil_r. repeat split.
Qed.

Lemma step_uncoordinated (e : env) (p : pid) (ev : event) (pr : proc) (s : fsState) :
  uncoordinated pr ->
  exists pr',
    fst (step e p ev pr s) = Ok pr'
    /\ uncoordinated pr'
    /\ lockSlot (snd (step e p ev pr s)) = lockSlot s
    /\ filter isLeaderOp (trace (snd (step e p ev pr s))) = filter isLeaderOp (trace s)
    /\ (clientSlot s = None -> clientSlot (snd (step e p ev pr s)) = None).
Proof.
  intros (Hw & Hst & Hpi). unfold step.
  destruct (exited pr) eqn:Hx; [exists pr; unfold ret, uncoordinated; simpl; auto 10|].
  destruct ev as [|code sg|sg| |c|].
  - eexists. unfold ret, uncoordinated. simpl. auto 10.
  - unfold onChildExit, leaderState. rewrite Hw.
    destruct (isExiting pr); [eexists; unfold ret, uncoordinated; simpl; auto 10|].
    unfold bind. destruct (unregisterClient_no_leader_op p s) as (r & Hr & Hl & Hf & Hc).
    destruct (unregisterClient p s) as [[r'|x] s1]; cbn [fst snd] in *; [|discriminate].
    unfold ret. eexists. unfold uncoordinated. simpl. auto 10.
  - unfold onSignal, leaderState. rewrite Hw.
    destruct (isExiting pr); [eexists; unfold ret, uncoordinated; simpl; auto 10|].
    unfold bind, logOp.
    match goal with |- context [unregisterClient p ?x] =>
      destruct (unregisterClient_no_leader_op p x) as (r & Hr & Hl & Hf & Hc);
      destruct (unregisterClient p x) as [[r'|x0] s1] end;
      cbn [fst snd lockSlot clientSlot trace] in *; [|discriminate].
    unfold ret. eexists. unfold uncoordinated. cbn [fst snd]. simpl.
    rewrite Hf, filter_app. simpl. rewrite app_nil_r. auto 10.
  - unfold onForcedExit, exitWith, ret. destruct (forcedExit pr);
      eexists; unfold uncoordinated; simpl; auto 10.
  - unfold promotionTick. rewrite Hpi. eexists. unfold ret, uncoordinated. simpl. auto 10.
  - unfold reaperTick. rewrite Hx, Hst. eexists. unfold ret, uncoordinated. simpl. auto 10.
Qed.

Lemma runSteps_uncoordinated (e : env) (p : pid) (evs : list event)
      (pr : proc) (s : fsState) :
  uncoordinated pr ->
  uncoordinated (fst (runSteps e p evs pr s))
  /\ lockSlot (snd (runSteps e p evs pr s)) = lockSlot s
  /\ filter isLeaderOp (trace (snd (runSteps e p evs pr s))) = filter isLeaderOp (trace s)
  /\ (clientSlot s = None -> clientSlot (snd (runSteps e p evs pr s)) = None).
Proof.
  revert pr s. induction evs as [|ev evs IH]; intros pr s Hu; [simpl; auto|].
  cbn [runSteps].
  destruct (step_uncoordinated e p ev pr s Hu) as (pr' & H1 & Hu' & Hl & Hf & Hc).
  destruct (step e p ev pr s) as [[r|x] s1]; cbn [fst snd] in *; [|discriminate].
  inversion H1; subst r.
  destruct (IH pr' s1 Hu') as (I1 & I2 & I3 & I4).
  split; [exact I1|]. split; [congruence|]. split; [congruence|]. auto.
Qed.

(** X21. With the disable flag set, a run stays out of the coordination for
    its whole life: whatever events occur (child exit, signals, timers), it
    never becomes watcher, never makes a call on the lock file, never runs the
    synchronize action, never opens a watcher, and never creates the client
    file when it was missing. *)
Theorem disabled_run_never_coordinates
        (e : env) (c : collab) (p : pid) (evs : list event) (s : fsState) :
  isSyncDisabled e = true ->
  uncoordinated (fst (runProcess e c true p evs s))
  /\ lockSlot (snd (runProcess e c true p evs s)) = lockSlot s
  /\ filter isLeaderOp (trace (snd (runProcess e c true p evs s)))
     = filter isLeaderOp (trace s)
  /\ (clientSlot s = None -> clientSlot (snd (runProcess e c true p evs s)) = None).
Proof.
  intros Hd. unfold runProcess. rewrite (runCommand_disabled_startup e c p s Hd).
  cbn [settle].
  destruct (runSteps_uncoordinated e p evs
              (mkProc false None false false false None None true None)
              (mkFs (lockSlot s) (clientSlot s) (trace s ++ [OpSpawn])))
    as (H1 & H2 & H3 & H4); [repeat split|].
  split; [exact H1|]. split; [exact H2|]. split; [|exact H4].
  rewrite H3. cbn [trace]. rewrite filter_app. simpl. apply app_nil_r.
Qed.

Lemma disabled_run_never_coordinates_witness :
  lockSlot (snd (runProcess disabledEnv onePackage true 42%Z
                   [PromotionTick onePackage; ReaperTick; Signal SIGHUP;
                    ChildExit None (Some SIGHUP)]
                   emptyStore)) = None
  /\ clientSlot (snd (runProcess disabledEnv onePackage true 42%Z
                        [PromotionTick onePackage; ReaperTick; Signal SIGHUP;
                         ChildExit None (Some SIGHUP)]
                        emptyStore)) = None.
Proof.
  destruct (disabled_run_never_coordinates disabledEnv onePackage 42%Z
              [PromotionTick onePackage; ReaperTick; Signal SIGHUP;
               ChildExit None (Some SIGHUP)] emptyStore eq_refl)
    as (_ & H2 & _ & H4).
  split; [exact H2 | exact (H4 eq_refl)].
Defined.

Lemma runSteps_exited (e : env) (p : pid) (evs : list event) (pr : proc)
      (s : fsState) (code : Z) :
  exited pr = Some code -> runSteps e p evs pr s = (pr, s).
Proof.
  intros Hx. induction evs as [|ev evs IH]; [reflexivity|].
  cbn [runSteps]. unfold step. rewrite Hx. unfold ret. exact IH.
Qed.

(** X22. When syncing is enabled, the lock file is missing and its
    exclusive creation fails with an error other than [EEXIST] (full disk,
    quota, I/O error), the [run] command ends with exit code 1 before the
    wrapped command is spawned: the only call made is the failed creation,
    and nothing that happens later changes that. A creation that failed while
    writing leaves the empty lock file it had created behind; one that failed
    at the open leaves none. *)
Theorem run_fails_when_lock_cannot_be_created
        (e : env) (c : collab) (p : pid) (evs : list event) (s : fsState)
        (f : io_fault) :
  isSyncDisabled e = false -> lockSlot s = None -> wxFault e = Some f ->
  exited (fst (runProcess e c true p evs s)) = Some 1%Z
  /\ snd (runProcess e c true p evs s)
     = mkFs (match f with
             | FailsAtOpen _ => None
             | FailsAtWrite _ => Some LockUnparsable
             end)
            (clientSlot s) (trace s ++ [OpWriteExcl LockFile]).
Proof.
  intros Hd Hl Hf.
  assert (E : runCommand e c true p s
              = (Throw (SysError (EOTHER (faultCode f))),
                 mkFs (leftByFault f) (clientSlot s)
                      (trace s ++ [OpWriteExcl LockFile]))).
  { unfold runCommand, electLeader. cbn [negb]. rewrite Hd. cbn [negb].
    unfold bind at 1 2. unfold bind at 1.
    rewrite (acquireLock_fault e p s f Hl Hf). reflexivity. }
  unfold runProcess. rewrite E. cbn [settle].
  rewrite (runSteps_exited e p evs (exitWith 1 initProc) _ 1%Z eq_refl).
  cbn [fst snd]. split; [reflexivity|]. destruct f; reflexivity.
Qed.

Lemma run_fails_when_lock_cannot_be_created_witness :
  exited (fst (runProcess (mkEnv (fun _ => true) 0%Z (Some (FailsAtWrite ENOSPC)) None)
                 onePackage true 7%Z [ChildExit (Some 0%Z) None] emptyStore)) = Some 1%Z
  /\ snd (runProcess (mkEnv (fun _ => true) 0%Z (Some (FailsAtWrite ENOSPC)) None)
            onePackage true 7%Z [ChildExit (Some 0%Z) None] emptyStore)
     = mkFs (Some LockUnparsable) None [OpWriteExcl LockFile].
Proof.
  exact (run_fails_when_lock_cannot_be_created
           (mkEnv (fun _ => true) 0%Z (Some (FailsAtWrite ENOSPC)) None) onePackage 7%Z
           [ChildExit (Some 0%Z) None] emptyStore (FailsAtWrite ENOSPC)
           eq_refl eq_refl eq_refl).
Defined.

(** ** Start-up of [run] *)

(** X23. The first invocation in a workspace becomes the leader. With
    syncing enabled, the lock file missing, its creation possible and at least
    one listed directory, all watchable, [runCommand] acquires the lock with
    its own record, starts the watcher runtime (registering itself,
    synchronizing and watching every listed directory), arms no promotion
    check, and spawns the child as its last call. *)
Theorem runCommand_becomes_leader
        (e : env) (c : collab) (p : pid) (s : fsState) (d : string) (ds : list string) :
  isSyncDisabled e = false -> lockSlot s = None -> wxFault e = None ->
  injectedDeps c = Some (d :: ds) ->
  (forall x, In x (d :: ds) -> watchable c x = true) ->
  exists ws tr,
    fst (runCommand e c true p s)
    = Ok (mkProc true (Some (mkWatch ws [] true)) false false false None None true None)
    /\ NoDup ws /\ (forall x, In x ws <-> In x (d :: ds))
    /\ lockSlot (snd (runCommand e c true p s)) = Some (LockRecord p (now e))
    /\ In p (members (snd (runCommand e c true p s)))
    /\ trace (snd (runCommand e c true p s)) = tr ++ [OpSpawn]
    /\ filter isSyncOp tr = filter isSyncOp (trace s) ++ map OpSync (d :: ds).
Proof.
  intros Hd Hl Hf Hdirs Hw.
  destruct (startWatcherMode_started e c p
              (mkFs (Some (LockRecord p (now e))) (clientSlot s)
                    (trace s ++ [OpWriteExcl LockFile]))
              d ds Hd Hdirs Hw) as (ws & He & Hn & Hi).
  assert (E : runCommand e c true p s
              = (Ok (mkProc true (Some (mkWatch ws [] true)) false false false
                            None None true None),
                 mkFs (Some (LockRecord p (now e)))
                      (clientSlot (snd (registerClient p
                         (mkFs (Some (LockRecord p (now e))) (clientSlot s)
                               (trace s ++ [OpWriteExcl LockFile])))))
                      ((trace (snd (registerClient p
                          (mkFs (Some (LockRecord p (now e))) (clientSlot s)
                                (trace s ++ [OpWriteExcl LockFile]))))
                          ++ map OpSync (d :: ds) ++ map OpWatch ws) ++ [OpSpawn]))).
  { unfold runCommand, electLeader. cbn [negb]. rewrite Hd. cbn [negb].
    unfold bind at 1 2. unfold bind at 1.
    rewrite (acquireLock_absent e p s Hl Hf).
    unfold bind at 1. unfold try_catch, bind at 1. rewrite He.
    reflexivity. }
  rewrite E. cbn [fst snd lockSlot trace].
  exists ws. eexists. split; [reflexivity|]. split; [exact Hn|]. split; [exact Hi|].
  split; [reflexivity|]. split.
  - apply (registerClient_member p
             (mkFs (Some (LockRecord p (now e))) (clientSlot s)
                   (trace s ++ [OpWriteExcl LockFile]))).
  - split; [reflexivity|].
    assert (Hsync : forall l, filter isSyncOp (map OpSync l) = map OpSync l)
      by (induction l as [|x xs IH]; simpl; [reflexivity|now rewrite IH]).
    assert (Hwatch : forall l, filter isSyncOp (map OpWatch l) = [])
      by (induction l as [|x xs IH]; simpl; auto).
    rewrite registerClient_eq.
    destruct (includes _ p); cbn [snd trace];
      repeat rewrite filter_app; rewrite Hsync, Hwatch; simpl;
      repeat rewrite app_nil_r; reflexivity.
Qed.

Lemma runCommand_becomes_leader_witness :
  exists ws tr,
    fst (runCommand allAlive onePackage true 7%Z emptyStore)
    = Ok (mkProc true (Some (mkWatch ws [] true)) false false false None None true None)
    /\ NoDup ws /\ (forall x, In x ws <-> In x ["/w/pkg"%string])
    /\ lockSlot (snd (runCommand allAlive onePackage true 7%Z emptyStore))
       = Some (LockRecord 7%Z 0%Z)
    /\ In 7%Z (members (snd (runCommand allAlive onePackage true 7%Z emptyStore)))
    /\ trace (snd (runCommand allAlive onePackage true 7%Z emptyStore)) = tr ++ [OpSpawn]
    /\ filter isSyncOp tr = filter isSyncOp [] ++ map OpSync ["/w/pkg"%string].
Proof.
  exact (runCommand_becomes_leader allAlive onePackage 7%Z emptyStore "/w/pkg"%string []
           eq_refl eq_refl eq_refl eq_refl (fun x _ => eq_refl)).
Defined.

(** X24. An invocation that finds a lock file, whatever it contains, joins
    as a client. It registers itself, arms its promotion check and spawns the
    child; the lock file is left as found, no watcher is opened and the
    synchronize action is not run: its only leader-side call is the failed
    exclusive creation. *)
Theorem runCommand_joins_as_client
        (e : env) (c : collab) (p : pid) (s : fsState) (held : lock_content) :
  isSyncDisabled e = false -> lockSlot s = Some held ->
  fst (runCommand e c true p s)
  = Ok (mkProc false None true false false None None true None)
  /\ lockSlot (snd (runCommand e c true p s)) = Some held
  /\ In p (members (snd (runCommand e c true p s)))
  /\ (forall q, In q (members s) -> In q (members (snd (runCommand e c true p s))))
  /\ filter isLeaderOp (trace (snd (runCommand e c true p s)))
     = filter isLeaderOp (trace s) ++ [OpWriteExcl LockFile].
Proof.
  intros Hd Hl.
  assert (E : runCommand e c true p s
              = (Ok (mkProc false None true false false None None true None),
                 mkFs (Some held)
                      (clientSlot (snd (registerClient p
                         (mkFs (Some held) (clientSlot s)
                               (trace s ++ [OpWriteExcl LockFile])))))
                      (trace (snd (registerClient p
                         (mkFs (Some held) (clientSlot s)
                               (trace s ++ [OpWriteExcl LockFile]))))
                         ++ [OpSpawn]))).
  { unfold runCommand, electLeader. cbn [negb]. rewrite Hd. cbn [negb].
    unfold bind at 1 2. unfold bind at 1.
    rewrite (acquireLock_present e p s held Hl).
    unfold bind at 1. unfold ret at 1. unfold bind at 1.
    rewrite registerClient_eq.
    destruct (includes _ p); reflexivity. }
  rewrite E. cbn [fst snd lockSlot trace].
  pose proof (registerClient_members_eq p
                (mkFs (Some held) (clientSlot s) (trace s ++ [OpWriteExcl LockFile])))
    as Hm.
  pose proof (registerClient_member p
                (mkFs (Some held) (clientSlot s) (trace s ++ [OpWriteExcl LockFile])))
    as Hin.
  split; [reflexivity|]. split; [reflexivity|].
  split; [exact Hin|]. split.
  - intros q Hq. unfold members at 1. cbn [clientSlot].
    fold (members (snd (registerClient p
            (mkFs (Some held) (clientSlot s) (trace s ++ [OpWriteExcl LockFile]))))).
    rewrite Hm. change (members (mkFs (Some held) (clientSlot s)
                                      (trace s ++ [OpWriteExcl LockFile])))
      with (members s).
    destruct (includes (members s) p); [exact Hq|apply in_or_app; now left].
  - rewrite registerClient_eq.
    destruct (includes _ p); cbn [snd trace];
      repeat rewrite filter_app; simpl; repeat rewrite app_nil_r; reflexivity.
Qed.

Lemma runCommand_joins_as_client_witness :
  fst (runCommand allAlive onePackage true 8%Z
         (mkFs (Some (LockRecord 7%Z 0%Z)) (Some (ClientList [7%Z])) []))
  = Ok (mkProc false None true false false None None true None)
  /\ lockSlot (snd (runCommand allAlive onePackage true 8%Z
                      (mkFs (Some (LockRecord 7%Z 0%Z)) (Some (ClientList [7%Z])) [])))
     = Some (LockRecord 7%Z 0%Z).
Proof.
  destruct (runCommand_joins_as_client allAlive onePackage 8%Z
              (mkFs (Some (LockRecord 7%Z 0%Z)) (Some (ClientList [7%Z])) [])
              (LockRecord 7%Z 0%Z) eq_refl eq_refl) as (H1 & H2 & _).
  split; [exact H1 | exact H2].
Defined.

(** ** Debounced change watcher, continued *)

Lemma onChange_from (ev : fsEvent) (timers : list (string * pending)) (x : pending) :
  In x (map snd (onChange ev timers)) ->
  In x (map snd timers)
  \/ (namedEvent ev = true /\ evFile ev = Some (pFile x) /\ pDir x = evDir ev
      /\ pEvent x = evType ev /\ due x = (evAt ev + quietPeriod)%nat).
Proof.
  unfold onChange, namedEvent. destruct (evFile ev) as [f|]; [|auto].
  destruct (String.eqb f EmptyString); [auto|].
  rewrite map_app, in_app_iff. intros [H|[<-|[]]].
  - left. unfold clearTimer in H. apply in_map_iff in H. destruct H as (kv & Hk & Hin).
    apply filter_In in Hin. apply in_map_iff. exists kv. tauto.
  - right. simpl. auto.
Qed.

Lemma onChange_length (ev : fsEvent) (timers : list (string * pending)) :
  (List.length (onChange ev timers)
   <= List.length timers + (if namedEvent ev then 1 else 0))%nat.
Proof.
  unfold onChange, namedEvent. destruct (evFile ev) as [f|]; [|lia].
  destruct (String.eqb f EmptyString); cbn [negb]; [lia|].
  rewrite length_app. cbn [List.length]. unfold clearTimer.
  pose proof (filter_length_le
                (fun kv : string * pending =>
                   negb (String.eqb (fst kv) (timerId (evDir ev) f))) timers).
  lia.
Qed.

Lemma fireDue_partition (t : nat) (timers : list (string * pending)) :
  List.length (fst (fireDue t timers)) + List.length (snd (fireDue t timers))
  = List.length timers.
Proof.
  unfold fireDue. cbn [fst snd]. rewrite length_map.
  induction timers as [|kv l IH]; simpl; [reflexivity|].
  destruct (isDue t kv); simpl; lia.
Qed.

Lemma runEvents_from (evs : list fsEvent) :
  forall (timers : list (string * pending)) (x : pending),
    In x (runEvents evs timers) ->
    In x (map snd timers)
    \/ exists ev, In ev evs /\ namedEvent ev = true
                  /\ evFile ev = Some (pFile x) /\ pDir x = evDir ev
                  /\ pEvent x = evType ev /\ due x = (evAt ev + quietPeriod)%nat.
Proof.
  induction evs as [|ev evs IH]; intros timers x Hin.
  - left. exact Hin.
  - rewrite runEvents_cons in Hin. apply in_app_or in Hin. destruct Hin as [Hin|Hin].
    + left. unfold fireDue in Hin. cbn [fst] in Hin.
      apply in_map_iff in Hin. destruct Hin as (kv & Hk & Hin).
      apply filter_In in Hin. apply in_map_iff. exists kv. tauto.
    + destruct (IH _ x Hin) as [H|(ev' & Hev & H)].
      * destruct (onChange_from ev _ x H) as [H'|H'].
        -- left. unfold fireDue in H'. cbn [snd] in H'.
           apply in_map_iff in H'. destruct H' as (kv & Hk & Hin').
           apply filter_In in Hin'. apply in_map_iff. exists kv. tauto.
        -- right. exists ev. split; [now left|exact H'].
      * right. exists ev'. split; [now right|exact H].
Qed.

Lemma runEvents_length (evs : list fsEvent) :
  forall timers,
    (List.length (runEvents evs timers)
     <= List.length timers + List.length (filter namedEvent evs))%nat.
Proof.
  induction evs as [|ev evs IH]; intros timers.
  - simpl. rewrite length_map. lia.
  - rewrite runEvents_cons, length_app. cbn [filter].
    pose proof (fireDue_partition (evAt ev) timers).
    pose proof (IH (onChange ev (snd (fireDue (evAt ev) timers)))).
    pose proof (onChange_length ev (snd (fireDue (evAt ev) timers))).
    destruct (namedEvent ev); cbn [List.length] in *; lia.
Qed.

(** X25. The watcher never synchronizes without cause. Started with no
    pending timer, every [syncDeps] call of a run is for the directory of some
    delivered change event that carried a non-empty file name, and is made one
    quiet period after that event; events without a file name cause nothing;
    and there are never more calls than named events. *)
Theorem runEvents_only_from_events (evs : list fsEvent) :
  (forall t pkgDir, In (t, pkgDir) (syncCalls (runEvents evs [])) ->
     exists ev filename,
       In ev evs /\ evDir ev = pkgDir /\ evFile ev = Some filename
       /\ filename <> EmptyString /\ t = (evAt ev + quietPeriod)%nat)
  /\ (List.length (syncCalls (runEvents evs [])) <= List.length (filter namedEvent evs))%nat
  /\ (forallb (fun ev => negb (namedEvent ev)) evs = true -> runEvents evs [] = []).
Proof.
  split; [|split].
  - intros t pkgDir Hin. unfold syncCalls in Hin. apply in_map_iff in Hin.
    destruct Hin as (x & Hx & Hin). inversion Hx; subst.
    destruct (runEvents_from evs [] x Hin) as [[]|(ev & Hev & Hn & Hf & Hd & _ & Hdue)].
    exists ev, (pFile x). repeat split; auto.
    unfold namedEvent in Hn. rewrite Hf in Hn. intros He. rewrite He in Hn. discriminate.
  - unfold syncCalls. rewrite length_map. apply (runEvents_length evs []).
  - intros Hall. pose proof (runEvents_length evs []) as Hlen.
    assert (Hnone : filter namedEvent evs = []).
    { clear Hlen. induction evs as [|ev evs IH]; [reflexivity|].
      cbn [forallb filter] in *. apply andb_true_iff in Hall. destruct Hall as [H1 H2].
      apply negb_true_iff in H1. rewrite H1. auto. }
    rewrite Hnone in Hlen. simpl in Hlen.
    destruct (runEvents evs []); [reflexivity|simpl in Hlen; lia].
Qed.

Lemma runEvents_only_from_events_witness :
  runEvents [mkEvent 0 "/w/a" "change" None; mkEvent 5 "/w/a" "rename" (Some EmptyString)] []
  = [].
Proof.
  apply (runEvents_only_from_events
           [mkEvent 0 "/w/a" "change" None; mkEvent 5 "/w/a" "rename" (Some EmptyString)]).
  reflexivity.
Defined.

(** ** The [sync] and [watch] commands *)

(** X26. The [sync] command runs the synchronize action once for every
    directory the manifest lists, in the manifest's order, and makes no other
    call: it never reads or writes the lock file or the client file and never
    spawns anything. With the disable flag set it does nothing at all, even
    outside a workspace; outside a workspace (flag not set) it exits with
    code 1; a manifest that cannot be read makes it throw before any call. *)
Theorem runSyncCommand_syncs_each_once
        (e : env) (c : collab) (workspaceFound : bool) (s : fsState) :
  (isSyncDisabled e = true -> runSyncCommand e c workspaceFound s = (Ok None, s))
  /\ (isSyncDisabled e = false -> workspaceFound = false ->
      runSyncCommand e c workspaceFound s = (Ok (Some 1%Z), s))
  /\ (forall dirs, isSyncDisabled e = false -> workspaceFound = true ->
      injectedDeps c = Some dirs ->
      fst (runSyncCommand e c workspaceFound s) = Ok None
      /\ lockSlot (snd (runSyncCommand e c workspaceFound s)) = lockSlot s
      /\ clientSlot (snd (runSyncCommand e c workspaceFound s)) = clientSlot s
      /\ trace (snd (runSyncCommand e c workspaceFound s)) = trace s ++ map OpSync dirs)
  /\ (isSyncDisabled e = false -> workspaceFound = true -> injectedDeps c = None ->
      runSyncCommand e c workspaceFound s = (Throw ManifestError, s)).
Proof.
  split; [|split; [|split]].
  - intros Hd. unfold runSyncCommand. rewrite Hd. reflexivity.
  - intros Hd ->. unfold runSyncCommand. rewrite Hd. reflexivity.
  - intros dirs Hd -> Hdirs.
    assert (E : runSyncCommand e c true s
                = (Ok None, mkFs (lockSlot s) (clientSlot s) (trace s ++ map OpSync dirs))).
    { unfold runSyncCommand, getInjectedDepsDirs. rewrite Hd, Hdirs. cbn [negb].
      unfold bind at 1. unfold ret at 1. destruct dirs as [|d ds].
      - unfold ret. cbn [List.length Nat.eqb map]. rewrite app_nil_r.
        destruct s; reflexivity.
      - cbn [List.length Nat.eqb]. unfold bind.
        rewrite (syncAll_eq e (d :: ds) s Hd). reflexivity. }
    rewrite E. repeat split.
  - intros Hd -> Hdirs. unfold runSyncCommand, getInjectedDepsDirs.
    rewrite Hd, Hdirs. reflexivity.
Qed.

Lemma runSyncCommand_syncs_each_once_witness :
  trace (snd (runSyncCommand allAlive (mkCollab (Some ["/w/a"; "/w/b"]%string) (fun _ => true))
                true (mkFs (Some (LockRecord 7%Z 0%Z)) None [])))
  = [OpSync "/w/a"; OpSync "/w/b"]%string.
Proof.
  destruct (runSyncCommand_syncs_each_once allAlive
              (mkCollab (Some ["/w/a"; "/w/b"]%string) (fun _ => true)) true
              (mkFs (Some (LockRecord 7%Z 0%Z)) None [])) as (_ & _ & H & _).
  apply (H ["/w/a"; "/w/b"]%string eq_refl eq_refl eq_refl).
Defined.

(** X27. The [watch] command, with syncing enabled, a workspace and at least
    one listed directory, all watchable, synchronizes every listed directory
    once, in order, then opens one watcher per distinct directory, and makes
    no other call: it takes no lock and registers nowhere, so [run]
    invocations cannot see it. Its [SIGINT] handler clears every timer, closes
    every watcher and exits with code 0. *)
Theorem runWatchCommand_watches_without_coordination
        (e : env) (c : collab) (s : fsState) (d : string) (ds : list string) :
  isSyncDisabled e = false ->
  injectedDeps c = Some (d :: ds) ->
  (forall x, In x (d :: ds) -> watchable c x = true) ->
  exists ws,
    runWatchCommand e c true s
    = (Ok (None, Some (mkWatch ws [] false)),
       mkFs (lockSlot s) (clientSlot s)
            (trace s ++ map OpSync (d :: ds) ++ map OpWatch ws))
    /\ NoDup ws
    /\ (forall x, In x ws <-> In x (d :: ds))
    /\ onWatchSigint (mkWatch ws [] false) = (mkWatch [] [] false, 0%Z).
Proof.
  intros Hd Hdirs Hw.
  destruct (setupAll_added c (d :: ds) (mkWatch [] [] false)
              (mkFs (lockSlot s) (clientSlot s) (trace s ++ map OpSync (d :: ds)))
              Hw (NoDup_nil _)) as (ws & He & Hn & Hi).
  cbn [watchers debounceTimers checkInterval app lockSlot clientSlot trace] in *.
  exists ws. split; [|split; [exact Hn|split; [|reflexivity]]].
  - unfold runWatchCommand, getInjectedDepsDirs. rewrite Hd, Hdirs. cbn [negb].
    unfold bind at 1. unfold ret at 1. cbn [List.length Nat.eqb].
    unfold bind at 1. rewrite (syncAll_eq e (d :: ds) s Hd).
    unfold bind. rewrite He. unfold ret. rewrite <- app_assoc. reflexivity.
  - intros x. rewrite Hi. simpl. tauto.
Qed.

Lemma runWatchCommand_watches_without_coordination_witness :
  exists ws,
    runWatchCommand allAlive onePackage true (mkFs (Some (LockRecord 7%Z 0%Z)) None [])
    = (Ok (None, Some (mkWatch ws [] false)),
       mkFs (Some (LockRecord 7%Z 0%Z)) None
            ([] ++ map OpSync ["/w/pkg"%string] ++ map OpWatch ws))
    /\ NoDup ws
    /\ (forall x, In x ws <-> In x ["/w/pkg"%string])
    /\ onWatchSigint (mkWatch ws [] false) = (mkWatch [] [] false, 0%Z).
Proof.
  exact (runWatchCommand_watches_without_coordination allAlive onePackage
           (mkFs (Some (LockRecord 7%Z 0%Z)) None []) "/w/pkg"%string []
           eq_refl eq_refl (fun x _ => eq_refl)).
Defined.

(** ** Dispatch *)

(** [main] exits with code 1, without making any call, when no command
    is given, when the command is none of [sync], [watch], [run], [help],
    [--help], [-h], and when [run] is given without a command to wrap. The
    three help spellings return without any call. *)
Theorem main_usage_errors
        (e : env) (c : collab) (workspaceFound : bool) (p : pid) (s : fsState) :
  main e c workspaceFound p [] s = (MainExit 1%Z, s)
  /\ main e c workspaceFound p ["run"%string] s = (MainExit 1%Z, s)
  /\ (forall command rest,
        ~ In command ["sync"; "watch"; "run"; "help"; "--help"; "-h"]%string ->
        main e c workspaceFound p (command :: rest) s = (MainExit 1%Z, s))
  /\ (forall command rest,
        In command ["help"; "--help"; "-h"]%string ->
        main e c workspaceFound p (command :: rest) s = (MainReturned, s)).
Proof.
  split; [reflexivity|]. split; [reflexivity|]. split.
  - intros command rest Hnot. unfold main.
    assert (Hne : forall k, In k ["sync"; "watch"; "run"; "help"; "--help"; "-h"]%string ->
                            String.eqb command k = false).
    { intros k Hk. apply String.eqb_neq. intros ->. contradiction. }
    rewrite !Hne by (simpl; auto 10). reflexivity.
  - intros command rest [<-|[<-|[<-|[]]]]; reflexivity.
Qed.

Lemma main_usage_errors_witness :
  main allAlive onePackage true 7%Z ["build"; "--fast"]%string emptyStore
  = (MainExit 1%Z, emptyStore).
Proof.
  destruct (main_usage_errors allAlive onePackage true 7%Z emptyStore) as (_ & _ & H & _).
  apply H. simpl. intuition discriminate.
Defined.

(** X29. The disable flag and a missing workspace are checked in a different
    order by the commands. With the flag set and no workspace found, [sync]
    and [watch] return normally without any call, while [run] exits with
    code 1 without spawning the wrapped command. *)
Theorem disabled_outside_workspace
        (e : env) (c : collab) (p : pid) (cmd : string) (rest : list string)
        (s : fsState) :
  isSyncDisabled e = true ->
  main e c false p ["sync"%string] s = (MainReturned, s)
  /\ main e c false p ["watch"%string] s = (MainReturned, s)
  /\ main e c false p ("run"%string :: cmd :: rest) s = (MainExit 1%Z, s).
Proof.
  intros Hd. unfold main, runSyncCommand, runWatchCommand, runCommand.
  cbn [String.eqb Ascii.eqb Bool.eqb]. rewrite Hd. repeat split; reflexivity.
Qed.

Lemma disabled_outside_workspace_witness :
  main disabledEnv onePackage false 7%Z ["run"; "vite"]%string emptyStore
  = (MainExit 1%Z, emptyStore).
Proof.
  apply (disabled_outside_workspace disabledEnv onePackage 7%Z "vite"%string []
           emptyStore eq_refl).
Defined.

(** ** Handing over *)

Lemma onSignal_leader_releases (p : pid) (sg : signal) (pr : proc) (st : watchState)
      (s : fsState) :
  isExiting pr = false -> leaderState pr = Some st ->
  lockSlot (snd (onSignal p sg pr s)) = None
  /\ exists pr', fst (onSignal p sg pr s) = Ok pr'
                 /\ state pr' = Some (mkWatch [] [] false)
                 /\ exited pr' = exited pr.
Proof.
  intros Hex Hls. unfold onSignal. rewrite Hex, Hls. unfold bind, logOp.
  match goal with |- context [removeCoordinationFiles ?x] =>
    destruct (removeCoordinationFiles_spec x) as (Hok & Hl & _);
    destruct (removeCoordinationFiles x) as [[u|x0] s2] end;
    cbn [fst snd] in *; [|discriminate].
  unfold ret. cbn [fst snd]. split; [exact Hl|].
  eexists. split; [reflexivity|]. split; reflexivity.
Qed.

(** X30. Handing over on a signal. When a running leader receives a
    termination signal it closes its watchers and removes the lock file at
    once, before its child has exited; the next promotion check of any waiting
    client then finds no lock file, acquires the lock with its own record and
    starts the watcher runtime on the listed directories. *)
Theorem signalled_leader_hands_over
        (e : env) (c : collab) (leader client : pid) (sg : signal)
        (prL prC : proc) (st : watchState) (s : fsState)
        (d : string) (ds : list string) :
  exited prL = None -> isExiting prL = false -> leaderState prL = Some st ->
  exited prC = None -> promotionCheckInterval prC = true ->
  wxFault e = None -> isSyncDisabled e = false ->
  injectedDeps c = Some (d :: ds) ->
  (forall x, In x (d :: ds) -> watchable c x = true) ->
  let s1 := snd (step e leader (Signal sg) prL s) in
  lockSlot s1 = None
  /\ (exists prL', fst (step e leader (Signal sg) prL s) = Ok prL'
                   /\ state prL' = Some (mkWatch [] [] false)
                   /\ exited prL' = None)
  /\ exists prC' ws,
       fst (step e client (PromotionTick c) prC s1) = Ok prC'
       /\ isWatcher prC' = true
       /\ state prC' = Some (mkWatch ws [] true)
       /\ (forall x, In x ws <-> In x (d :: ds))
       /\ lockSlot (snd (step e client (PromotionTick c) prC s1))
          = Some (LockRecord client (now e)).
Proof.
  intros HxL HeL HlsL HxC HpC Hf Hd Hdirs Hw. cbv zeta.
  assert (Es : step e leader (Signal sg) prL s = onSignal leader sg prL s)
    by (unfold step; rewrite HxL; reflexivity).
  rewrite Es.
  destruct (onSignal_leader_releases leader sg prL st s HeL HlsL)
    as (Hlock & prL' & H1 & H2 & H3).
  split; [exact Hlock|]. split.
  - exists prL'. split; [exact H1|]. split; [exact H2|]. congruence.
  - destruct (promotionTick_started e c client prC
                (snd (onSignal leader sg prL s)) d ds
                HxC HpC (or_intror Hlock) Hf Hd Hdirs Hw)
      as (ws & tr & _ & _ & Hi & E).
    rewrite E. cbn [fst snd lockSlot].
    eexists. exists ws. split; [reflexivity|].
    cbn [isWatcher state]. repeat (split; [first [reflexivity | exact Hi]|]).
    reflexivity.
Qed.

Lemma signalled_leader_hands_over_witness :
  lockSlot (snd (step allAlive 7%Z (Signal SIGTERM) (leaderProc false)
                   (mkFs (Some (LockRecord 7%Z 0%Z)) (Some (ClientList [7%Z; 8%Z])) [])))
  = None.
Proof.
  apply (signalled_leader_hands_over allAlive onePackage 7%Z 8%Z SIGTERM
           (leaderProc false) (mkProc false None true false false None None true None)
           (mkWatch ["/w/pkg"%string] [] true)
           (mkFs (Some (LockRecord 7%Z 0%Z)) (Some (ClientList [7%Z; 8%Z])) [])
           "/w/pkg"%string []
           eq_refl eq_refl eq_refl eq_refl eq_refl eq_refl eq_refl eq_refl
           (fun x _ => eq_refl)).
Defined.
